(** * Web3NewsPDFGenerator: markdown rendering engine and report assembly

    A shallow embedding of [_02_pdf_generator.py]: the Python string
    operations the generator relies on, the [re.sub] passes of the inline
    formatter, the keyword classifier, the line tokenizer, the layout loop
    of [generate_report] and the report assembly around it.

    Strings are sequences of 8-bit characters, read as the code points
    0..255; [isspace] and [lower] are Python's on that range.  The calls
    into [datetime] and [str.title], whose results the generator only
    passes on, are parameters ([PyLib]).

    Building a reportlab [Paragraph] can raise a [ValueError], which leaves
    [generate_report] before the document is written: for a style whose
    font reportlab cannot map, which is decided from the font names of
    [_setup_styles], and for a text whose markup the parser of reportlab
    rejects, which is left to the library ([PyLib]).  The functions that
    build paragraphs return an [outcome].

    The embedding comes first, then the definitions the properties are
    stated with, then the properties. *)

From Stdlib Require Import String Ascii List Bool Arith Lia DecimalString.
Import ListNotations.
Local Open Scope string_scope.
Local Open Scope list_scope.
Local Open Scope nat_scope.

Notation "a +++ b" := (String.append a b) (at level 60, right associativity).

(** ** Python [str] operations *)

Module Py.

(** [str.isspace] on one character: TAB..CR, FS..US and space, NEL, NBSP. *)
Definition isspace (c : ascii) : bool :=
  let n := nat_of_ascii c in
  ((9 <=? n) && (n <=? 13)) || ((28 <=? n) && (n <=? 32)) || (n =? 133) || (n =? 160).

Definition isdigit (c : ascii) : bool :=
  let n := nat_of_ascii c in (48 <=? n) && (n <=? 57).

Definition lower_char (c : ascii) : ascii :=
  let n := nat_of_ascii c in
  if ((65 <=? n) && (n <=? 90)) || ((192 <=? n) && (n <=? 214)) || ((216 <=? n) && (n <=? 222))
  then ascii_of_nat (n + 32) else c.

(** [s.lower()] *)
Fixpoint lower (s : string) : string :=
  match s with
  | EmptyString => EmptyString
  | String c s' => String (lower_char c) (lower s')
  end.

(** [s.lstrip()] *)
Fixpoint lstrip (s : string) : string :=
  match s with
  | EmptyString => EmptyString
  | String c s' => if isspace c then lstrip s' else s
  end.

(** [s.rstrip()] *)
Fixpoint rstrip (s : string) : string :=
  match s with
  | EmptyString => EmptyString
  | String c s' =>
      match rstrip s' with
      | EmptyString => if isspace c then EmptyString else String c EmptyString
      | r => String c r
      end
  end.

(** [s.strip()] *)
Definition strip (s : string) : string := rstrip (lstrip s).

(** [s.startswith(p)] *)
Definition startswith (p s : string) : bool := prefix p s.

(** [sub in s] *)
Fixpoint contains (sub s : string) : bool :=
  prefix sub s ||
  match s with
  | EmptyString => false
  | String _ s' => contains sub s'
  end.

(** [s[n:]] *)
Fixpoint drop (n : nat) (s : string) : string :=
  match n, s with
  | O, _ => s
  | S _, EmptyString => EmptyString
  | S k, String _ s' => drop k s'
  end.

(** [s[:n]] *)
Fixpoint take (n : nat) (s : string) : string :=
  match n, s with
  | O, _ => EmptyString
  | S _, EmptyString => EmptyString
  | S k, String c s' => String c (take k s')
  end.

(** [s * n] *)
Fixpoint repeat (s : string) (n : nat) : string :=
  match n with
  | O => EmptyString
  | S k => s +++ repeat s k
  end.

(** Non-overlapping left-to-right scan shared by [count] and [replace]:
    [skip] characters of a match just found are still to be passed over. *)
Fixpoint count_from (sub s : string) (skip : nat) : nat :=
  match s with
  | EmptyString => 0
  | String _ s' =>
      match skip with
      | S k => count_from sub s' k
      | O => if prefix sub s
             then S (count_from sub s' (String.length sub - 1))
             else count_from sub s' 0
      end
  end.

(** [s.count(sub)] for a non-empty [sub] *)
Definition count (sub s : string) : nat := count_from sub s 0.

Fixpoint replace_from (old new s : string) (skip : nat) : string :=
  match s with
  | EmptyString => EmptyString
  | String c s' =>
      match skip with
      | S k => replace_from old new s' k
      | O => if prefix old s
             then new +++ replace_from old new s' (String.length old - 1)
             else String c (replace_from old new s' 0)
      end
  end.

(** [s.replace(old, new)] for a non-empty [old] *)
Definition replace (old new s : string) : string := replace_from old new s 0.

(** [s.split(sep)] for a one-character separator *)
Fixpoint split (sep : ascii) (s : string) : list string :=
  match s with
  | EmptyString => [EmptyString]
  | String c s' =>
      if Ascii.eqb c sep then EmptyString :: split sep s'
      else match split sep s' with
           | [] => [String c EmptyString]
           | l :: ls => String c l :: ls
           end
  end.

(** [s.split(sep, 1)]: [(head, Some tail)] when [sep] occurs, [(s, None)]
    when it does not. *)
Fixpoint split_once (sep s : string) : string * option string :=
  if prefix sep s then (EmptyString, Some (drop (String.length sep) s))
  else match s with
       | EmptyString => (EmptyString, None)
       | String c s' =>
           let (h, t) := split_once sep s' in (String c h, t)
       end.

Definition nonempty (s : string) : bool :=
  match s with EmptyString => false | _ => true end.

End Py.

(** ** Section classifier *)

Inductive SectionType :=
| executive_summary | background | objective | methodology | research_areas
| timeline | investment | deliverable | research_questions | participants
| general.

Definition any_in (keywords : list string) (text : string) : bool :=
  existsb (fun keyword => Py.contains keyword text) keywords.

Definition _detect_section_type (text : string) : SectionType :=
  let text_lower := Py.strip (Py.lower text) in
  if any_in ["executive summary"; "executive overview"; "summary"] text_lower
  then executive_summary
  else if any_in ["background"; "opportunity"; "context"; "overview"] text_lower
  then background
  else if any_in ["objectives"; "goals"; "aims"; "targets"; "primary objective";
                  "secondary objective"] text_lower
  then objective
  else if any_in ["methodology"; "approach"; "methods"; "process"; "phases"; "phase"]
                 text_lower
  then methodology
  else if any_in ["research areas"; "focus areas"; "key areas"; "research focus"]
                 text_lower
  then research_areas
  else if any_in ["timeline"; "schedule"; "milestones"; "deadlines"] text_lower
  then timeline
  else if any_in ["investment"; "budget"; "cost"; "funding"; "financial"] text_lower
  then investment
  else if any_in ["deliverables"; "outputs"; "results"; "outcomes"; "deliverable"]
                 text_lower
  then deliverable
  else if any_in ["research questions"; "questions"; "key questions"] text_lower
  then research_questions
  else if any_in ["participants"; "target"; "audience"; "users"; "segments"] text_lower
  then participants
  else general.

(** ** The [re.sub] passes of the inline formatter

    The generator's seven patterns are built from literal characters, one
    negative look-behind and look-ahead on a single character, and one or
    two capture groups that are either a lazy [.*?] or a greedy [[^c]+].
    [match_items] is a backtracking matcher for exactly that fragment. *)

Module Re.

Inductive cls :=
| Dot                      (* [.]: anything but a newline *)
| Not_char (c : ascii).    (* [[^c]] *)

Definition in_cls (k : cls) (a : ascii) : bool :=
  match k with
  | Dot => negb (Ascii.eqb a "010"%char)
  | Not_char c => negb (Ascii.eqb a c)
  end.

Inductive item :=
| Lit (c : ascii)
| Not_behind (c : ascii)          (* negative look-behind on [c] *)
| Not_ahead (c : ascii)           (* negative look-ahead on [c] *)
| Group_lazy_star (k : cls)       (* a group: lazy star of [k] *)
| Group_greedy_plus (k : cls).    (* a group: greedy plus of [k] *)

(** A successful match: the captured groups in order, and its length. *)
Definition result := option (list string * nat).

Definition consumed (a : ascii) (r : result) : result :=
  match r with
  | Some (caps, n) => Some (caps, S n)
  | None => None
  end.

(** One more character [a] taken into the group that is being captured. *)
Definition captured (a : ascii) (r : result) : result :=
  match r with
  | Some (g :: caps, n) => Some (String a g :: caps, S n)
  | _ => None
  end.

Definition open_group (r : result) : result :=
  match r with
  | Some (caps, n) => Some (EmptyString :: caps, n)
  | None => None
  end.

(** A lazy star of [cl] captured as a group, followed by the rest [k] of the
    pattern: the shortest repetition after which [k] matches. *)
Fixpoint lazy_star (cl : cls) (k : option ascii -> string -> result)
    (prev : option ascii) (s : string) {struct s} : result :=
  match open_group (k prev s) with
  | Some r => Some r
  | None =>
      match s with
      | String a s' => if in_cls cl a then captured a (lazy_star cl k (Some a) s') else None
      | EmptyString => None
      end
  end.

(** A greedy star of [cl] inside a group: the longest repetition after
    which [k] matches, shorter ones being tried on failure. *)
Fixpoint greedy_star (cl : cls) (k : option ascii -> string -> result)
    (prev : option ascii) (s : string) {struct s} : result :=
  match s with
  | String a s' =>
      if in_cls cl a
      then match captured a (greedy_star cl k (Some a) s') with
           | Some r => Some r
           | None => open_group (k prev s)
           end
      else open_group (k prev s)
  | EmptyString => open_group (k prev s)
  end.

Definition greedy_plus (cl : cls) (k : option ascii -> string -> result)
    (prev : option ascii) (s : string) : result :=
  match s with
  | String a s' => if in_cls cl a then captured a (greedy_star cl k (Some a) s') else None
  | EmptyString => None
  end.

(** [match_items p prev s]: match [p] at the start of [s], where [prev] is
    the character just before that position. *)
Fixpoint match_items (p : list item) : option ascii -> string -> result :=
  match p with
  | [] => fun _ _ => Some ([], 0)
  | it :: p' =>
      let k := match_items p' in
      match it with
      | Lit c => fun _ s =>
          match s with
          | String a s' => if Ascii.eqb a c then consumed a (k (Some a) s') else None
          | EmptyString => None
          end
      | Not_behind c => fun prev s =>
          match prev with
          | Some a => if Ascii.eqb a c then None else k prev s
          | None => k prev s
          end
      | Not_ahead c => fun prev s =>
          match s with
          | String a _ => if Ascii.eqb a c then None else k prev s
          | EmptyString => k prev s
          end
      | Group_lazy_star cl => lazy_star cl k
      | Group_greedy_plus cl => greedy_plus cl k
      end
  end.

(** Replacement templates: literal text and group references [\n]. *)
Inductive piece :=
| Text (s : string)
| Group (n : nat).

Fixpoint expand (repl : list piece) (caps : list string) : string :=
  match repl with
  | [] => EmptyString
  | Text s :: r => s +++ expand r caps
  | Group n :: r => nth (n - 1) caps EmptyString +++ expand r caps
  end.

(** Left-to-right scan of [re.sub]: non-overlapping matches, the leftmost
    first; [skip] characters of the last match are still to be passed. *)
Fixpoint sub_from (p : list item) (repl : list piece)
    (prev : option ascii) (s : string) (skip : nat) : string :=
  match s with
  | EmptyString => EmptyString
  | String c s' =>
      match skip with
      | S k => sub_from p repl (Some c) s' k
      | O =>
          match match_items p prev s with
          | Some (caps, S n) => expand repl caps +++ sub_from p repl (Some c) s' n
          | Some (caps, O) => expand repl caps +++ String c (sub_from p repl (Some c) s' 0)
          | None => String c (sub_from p repl (Some c) s' 0)
          end
      end
  end.

(** [re.sub(p, repl, s)] *)
Definition sub (p : list item) (repl : list piece) (s : string) : string :=
  sub_from p repl None s 0.

End Re.

Import Re.

Definition star : ascii := "*"%char.
Definition underscore : ascii := "_"%char.
Definition backtick : ascii := "`"%char.
Definition dquote : string := String (ascii_of_nat 34) EmptyString.

Definition bold_repl : list piece := [Text "<b>"; Group 1; Text "</b>"].
Definition italic_repl : list piece := [Text "<i>"; Group 1; Text "</i>"].
Definition code_repl : list piece := [Text "<code>"; Group 1; Text "</code>"].
Definition link_repl : list piece :=
  [Text ("<link href=" +++ dquote); Group 2; Text (dquote +++ ">"); Group 1; Text "</link>"].

(** bold, four asterisks:  \* \* \* \* ( .*? ) \* \* \* \*  *)
Definition bold4_re : list item :=
  [Lit star; Lit star; Lit star; Lit star; Group_lazy_star Dot;
   Lit star; Lit star; Lit star; Lit star].
(** bold, two asterisks:  \* \* ( .*? ) \* \*  *)
Definition bold2_re : list item :=
  [Lit star; Lit star; Group_lazy_star Dot; Lit star; Lit star].
(** bold, underscores:  _ _ ( .*? ) _ _  *)
Definition bold_us_re : list item :=
  [Lit underscore; Lit underscore; Group_lazy_star Dot; Lit underscore; Lit underscore].
(** italic, asterisk:  (?<! \* ) \* ( [^*]+ ) \* (?! \* )  *)
Definition italic_star_re : list item :=
  [Not_behind star; Lit star; Group_greedy_plus (Not_char star); Lit star; Not_ahead star].
(** italic, underscore:  (?<! _ ) _ ( [^_]+ ) _ (?! _ )  *)
Definition italic_us_re : list item :=
  [Not_behind underscore; Lit underscore; Group_greedy_plus (Not_char underscore);
   Lit underscore; Not_ahead underscore].
(** inline code:  ` ( [^`]+ ) `  *)
Definition code_re : list item :=
  [Lit backtick; Group_greedy_plus (Not_char backtick); Lit backtick].
(** link:  \[ ( [^\]]+ ) \] \( ( [^)]+ ) \)  *)
Definition link_re : list item :=
  [Lit "["%char; Group_greedy_plus (Not_char "]"%char); Lit "]"%char;
   Lit "("%char; Group_greedy_plus (Not_char ")"%char); Lit ")"%char].

Definition _process_bold_text (text : string) : string :=
  let text := Re.sub bold4_re bold_repl text in
  let text := Re.sub bold2_re bold_repl text in
  let text := Re.sub bold_us_re bold_repl text in
  text.

Definition _process_italic_text (text : string) : string :=
  let text := Re.sub italic_star_re italic_repl text in
  let text := Re.sub italic_us_re italic_repl text in
  text.

Definition _process_code_text (text : string) : string :=
  Re.sub code_re code_repl text.

Definition _process_markdown_text (text : string) : string :=
  if negb (Py.nonempty text) then text
  else
    let text := _process_bold_text text in
    let text := _process_italic_text text in
    let text := _process_code_text text in
    let text := Re.sub link_re link_repl text in
    text.

(** ** Markdown tokenizer *)

(** The tagged tuples that [_parse_markdown_enhanced] appends to [elements]. *)
Inductive element :=
| paragraph (text : string) (section_type : SectionType)
| header (text : string) (level : nat) (section_type : SectionType)
| list_item (text : string) (indent : nat)
| numbered_list (text : string) (number : string)
| quote (text : string)
| hr.

Definition newline : ascii := "010"%char.
Definition tab : ascii := "009"%char.
Definition hash : ascii := "#"%char.

(** The parser's two loop variables: [elements] and [current_paragraph]. *)
Definition parser_state : Type := list element * string.

(** [if current_paragraph: ... elements.append(('paragraph', ...));
    current_paragraph = ""], the block every branch of the loop starts with. *)
Definition flush_paragraph (st : parser_state) : parser_state :=
  let (elements, current_paragraph) := st in
  if Py.nonempty current_paragraph then
    let processed_text := _process_markdown_text (Py.strip current_paragraph) in
    let section_type := _detect_section_type (Py.strip current_paragraph) in
    (elements ++ [paragraph processed_text section_type], EmptyString)
  else st.

(** The [for char in line] loop that counts the leading [#]. *)
Fixpoint count_hashes (line : string) : nat :=
  match line with
  | String c line' => if Ascii.eqb c hash then S (count_hashes line') else 0
  | EmptyString => 0
  end.

(** [re.match] of a bullet marker [-], [*] or [+] followed by whitespace. *)
Definition bullet_match (line : string) : bool :=
  match line with
  | String c (String d _) =>
      (Ascii.eqb c "-"%char || Ascii.eqb c star || Ascii.eqb c "+"%char) && Py.isspace d
  | _ => false
  end.

Fixpoint skip_digits (s : string) : string :=
  match s with
  | String c s' => if Py.isdigit c then skip_digits s' else s
  | EmptyString => EmptyString
  end.

(** [re.match] of digits, a dot and whitespace at the start of the line. *)
Definition numbered_match (line : string) : bool :=
  match line with
  | String c _ =>
      Py.isdigit c &&
      match skip_digits line with
      | String dot (String d _) => Ascii.eqb dot "."%char && Py.isspace d
      | _ => false
      end
  | EmptyString => false
  end.

Definition is_rule (line : string) : bool :=
  String.eqb line "---" || String.eqb line "***" || String.eqb line "___".

(** One iteration of the [for i, line in enumerate(lines)] loop. *)
Definition parse_line (st : parser_state) (original_line : string) : parser_state :=
  let line := Py.strip original_line in
  if negb (Py.nonempty line) then flush_paragraph st
  else if Py.startswith "#" line then
    let (elements, current_paragraph) := flush_paragraph st in
    let header_level := count_hashes line in
    let header_text := Py.strip (Py.drop header_level line) in
    let section_type := _detect_section_type header_text in
    (elements ++ [header header_text header_level section_type], current_paragraph)
  else if bullet_match line then
    let (elements, current_paragraph) := flush_paragraph st in
    let indent_level :=
      String.length original_line - String.length (Py.lstrip original_line) in
    let list_text := Py.strip (Py.drop 2 line) in
    (elements ++ [list_item (_process_markdown_text list_text) indent_level],
     current_paragraph)
  else
    let numbered := numbered_match line in
    let st := if numbered then flush_paragraph st else st in
    match (if numbered then Py.split_once ". " line else (line, None)) with
    | (number, Some rest) =>
        let (elements, current_paragraph) := st in
        let list_text := Py.strip rest in
        (elements ++ [numbered_list (_process_markdown_text list_text) number],
         current_paragraph)
    | (_, None) =>
        if Py.startswith "> " line then
          let (elements, current_paragraph) := flush_paragraph st in
          let quote_text := Py.strip (Py.drop 2 line) in
          (elements ++ [quote (_process_markdown_text quote_text)], current_paragraph)
        else if is_rule line then
          let (elements, current_paragraph) := flush_paragraph st in
          (elements ++ [hr], current_paragraph)
        else
          let (elements, current_paragraph) := st in
          (elements,
           if Py.nonempty current_paragraph
           then current_paragraph +++ " " +++ line
           else line)
    end.

Definition _parse_markdown_enhanced (text : string) : list element :=
  if negb (Py.nonempty text) then []
  else
    let text := Py.replace "\n" (String newline EmptyString) text in
    let text := Py.replace "\t" (String tab EmptyString) text in
    let lines := Py.split newline text in
    fst (flush_paragraph (fold_left parse_line lines ([], EmptyString))).

(** ** Flowables and styles *)

(** The [ParagraphStyle] attributes of the generator that [generate_report]
    and [_create_table_of_contents] refer to. *)
Inductive Style :=
| report_title_style | report_date_style | source_header_style | title_style
| date_style | link_style | summary_style | long_content_style
| section_header_style | executive_summary_style | objective_style
| methodology_style | deliverable_style | background_style
| research_areas_style | timeline_style | investment_style
| proposal_h2_style | proposal_h3_style | h4_style
| enhanced_bullet_list_style | numbered_list_style | enhanced_quote_style.

(** The reportlab flowables placed in the story. *)
#[warnings="-register-all"]
Inductive Flowable :=
| Paragraph (text : string) (style : Style)
| Spacer (width height : nat)
| PageBreak
| KeepTogether (flowables : list Flowable).

(** Glyph literals of the source, kept as the bytes of the source file. *)
Definition toc_heading : string := "ðŸ“‹ Table of Contents".
Definition report_heading : string := "ðŸ“° Web3 News Updates Report".
Definition generated_prefix : string := "ðŸ•’ Generated on ".
Definition bullet : string := "â€¢ ".
Definition quote_prefix : string := "ðŸ’¬ ".
Definition rule_glyph : string := "â”€".

(** ** Articles, library calls and exceptions *)

(** An article dictionary: every key may be absent. *)
Record Article := {
  source : option string;
  title : option string;
  link : option string;
  date : option string;
  summary : option string }.

(** [article.get(key, default)] *)
Definition article_get (field : option string) (default : string) : string :=
  match field with
  | Some v => v
  | None => default
  end.

Record datetime := {
  year : nat; month : nat; day : nat;
  hour : nat; minute : nat; second : nat }.

(** The library calls whose results the generator only passes on:
    [datetime.strptime] ([None] stands for its [ValueError]),
    [datetime.strftime], [str.title] and [datetime.now]; and what reportlab
    answers when a paragraph is built: [markup_error text style] is the
    message of the [ValueError] its parser raises on the markup of [text]
    ([None] when the text parses), [font_error font text] the message of
    the one raised for a font name it cannot map. *)
Record PyLib := {
  strptime : string -> string -> option datetime;
  strftime : datetime -> string -> string;
  str_title : string -> string;
  now : datetime;
  markup_error : string -> Style -> option string;
  font_error : string -> string -> string }.

(** [ParagraphError] is the [ValueError] that reportlab raises while a
    paragraph is built; its message is reportlab's own, never one of the
    generator's. *)
Inductive Exception :=
| ValueError (message : string)
| KeyError (key : string)
| ParagraphError (message : string).

Inductive outcome (A : Type) :=
| Returned (value : A)
| Raised (e : Exception).
Arguments Returned {A} value.
Arguments Raised {A} e.

(** Sequencing: an exception ends the computation. *)
Definition bind {A B : Type} (m : outcome A) (k : A -> outcome B) : outcome B :=
  match m with
  | Returned a => k a
  | Raised e => Raised e
  end.

Notation "x <- m ;; k" := (bind m (fun x => k))
  (at level 61, m at next level, right associativity).

(** A [for] loop whose body may raise. *)
Fixpoint for_each {A B : Type} (body : A -> B -> outcome A) (items : list B) (a : A)
    : outcome A :=
  match items with
  | [] => Returned a
  | item :: rest => a' <- body a item ;; for_each body rest a'
  end.

(** Files on disk: the most recent binding of a path is its content. *)
Definition FileSystem : Type := list (string * list Flowable).

(** [doc.build(story)] writes the document at the template's path. *)
Definition doc_build (filename : string) (story : list Flowable) (fs : FileSystem)
    : FileSystem :=
  (filename, story) :: fs.


(** ** Styles and fonts *)

(** The [fontName] that [_setup_styles] gives each style. *)
Definition style_font (style : Style) : string :=
  match style with
  | report_title_style | source_header_style | title_style | section_header_style
  | proposal_h2_style | proposal_h3_style | h4_style => "Helvetica-Bold"
  | report_date_style | date_style | link_style | summary_style | long_content_style
  | executive_summary_style | objective_style | methodology_style | deliverable_style
  | background_style | research_areas_style | timeline_style | investment_style
  | enhanced_bullet_list_style | numbered_list_style => "Helvetica"
  | enhanced_quote_style => "Helvetica-Italic"
  end.

(** The font names reportlab maps to a family ([ps2tt], on the lower-cased
    name): the standard fonts.  No font is registered by the generator. *)
Definition standard_fonts : list string :=
  ["courier"; "courier-bold"; "courier-oblique"; "courier-boldoblique";
   "helvetica"; "helvetica-bold"; "helvetica-oblique"; "helvetica-boldoblique";
   "times-roman"; "times-bold"; "times-italic"; "times-bolditalic";
   "symbol"; "zapfdingbats"].

Definition font_mapped (font : string) : bool :=
  existsb (String.eqb (Py.lower font)) standard_fonts.

Section Generator.

Variable lib : PyLib.
(** [self.output_filename] *)
Variable output_filename : string.

(** [Paragraph(text, style)]: the constructor parses the text at once, the
    font of the style being mapped before the markup is read. *)
Definition make_paragraph (text : string) (style : Style) : outcome Flowable :=
  if font_mapped (style_font style) then
    match markup_error lib text style with
    | Some message => Raised (ParagraphError message)
    | None => Returned (Paragraph text style)
    end
  else Raised (ParagraphError (font_error lib (style_font style) text)).

(** ** Table of contents *)

Definition toc_entry (header_text : string) (header_level : nat) : outcome Flowable :=
  let indent := Py.repeat (Py.repeat "&nbsp;" (header_level - 1)) 4 in
  let toc_text := indent +++ bullet +++ header_text in
  match header_level with
  | 1 => make_paragraph toc_text title_style
  | 2 => make_paragraph toc_text section_header_style
  | _ => make_paragraph toc_text long_content_style
  end.

(** The [for element in elements] loop of [_create_table_of_contents]. *)
Fixpoint toc_loop (toc_elements : list Flowable) (elements : list element)
    : outcome (list Flowable) :=
  match elements with
  | [] => Returned toc_elements
  | header header_text header_level _ :: rest =>
      entry <- toc_entry header_text header_level ;;
      toc_loop (toc_elements ++ [entry]) rest
  | _ :: rest => toc_loop toc_elements rest
  end.

Definition _create_table_of_contents (elements : list element)
    : outcome (list Flowable) :=
  let toc_elements := [] in
  heading <- make_paragraph toc_heading report_title_style ;;
  let toc_elements := toc_elements ++ [heading] in
  let toc_elements := toc_elements ++ [Spacer 1 15] in
  toc_elements <- toc_loop toc_elements elements ;;
  let toc_elements := toc_elements ++ [Spacer 1 20] in
  let toc_elements := toc_elements ++ [PageBreak] in
  Returned toc_elements.

(** ** Layout loop of the structured path *)

Definition paragraph_style (section_type : SectionType) : Style :=
  match section_type with
  | executive_summary => executive_summary_style
  | objective => objective_style
  | methodology => methodology_style
  | deliverable => deliverable_style
  | background => background_style
  | research_areas => research_areas_style
  | timeline => timeline_style
  | investment => investment_style
  | _ => long_content_style
  end.

Definition header_style (header_level : nat) : Style :=
  match header_level with
  | 1 => title_style
  | 2 => proposal_h2_style
  | 3 => proposal_h3_style
  | _ => h4_style
  end.

(** The loop variables [story] and [current_section]. *)
Definition layout_state : Type := list Flowable * list Flowable.

(** One iteration of [for element in markdown_elements]. *)
Definition layout_element (st : layout_state) (e : element) : outcome layout_state :=
  let (story, current_section) := st in
  match e with
  | paragraph text section_type =>
      if Py.nonempty text then
        block <- make_paragraph text (paragraph_style section_type) ;;
        let story := story ++ [block] in
        copy <- make_paragraph text long_content_style ;;
        Returned (story, current_section ++ [copy])
      else Returned st
  | header header_text header_level _ =>
      block <- make_paragraph header_text (header_style header_level) ;;
      let story := story ++ [block] in
      match current_section with
      | [] => Returned (story, current_section)
      | _ :: _ => Returned (story ++ [KeepTogether current_section], [])
      end
  | list_item list_text _ =>
      block <- make_paragraph (bullet +++ list_text) enhanced_bullet_list_style ;;
      Returned (story ++ [block], current_section)
  | numbered_list list_text number =>
      block <- make_paragraph (number +++ ". " +++ list_text) numbered_list_style ;;
      Returned (story ++ [block], current_section)
  | quote quote_text =>
      block <- make_paragraph (quote_prefix +++ quote_text) enhanced_quote_style ;;
      Returned (story ++ [block], current_section)
  | hr =>
      let story := story ++ [Spacer 1 10] in
      rule <- make_paragraph (Py.repeat rule_glyph 60) long_content_style ;;
      Returned (story ++ [rule] ++ [Spacer 1 10], current_section)
  end.

(** [if current_section: story.append(KeepTogether(current_section))] *)
Definition flush_section (st : layout_state) : list Flowable :=
  let (story, current_section) := st in
  match current_section with
  | [] => story
  | _ :: _ => story ++ [KeepTogether current_section]
  end.

(** The structured branch, from [current_section = []] to the final flush. *)
Definition layout (story : list Flowable) (markdown_elements : list element)
    : outcome (list Flowable) :=
  st <- for_each layout_element markdown_elements (story, []) ;;
  Returned (flush_section st).

(** ** Body routing *)

Definition is_structured (summary : string) : bool :=
  (500 <? String.length summary) ||
  (2 <? Py.count "#" summary) ||
  (3 <? Py.count "**" summary) ||
  (3 <? Py.count "- " summary) ||
  Py.contains "\n" summary.

(** The plain branch: [summary[:600] + "..."] when longer than 600. *)
Definition plain_summary (summary : string) : string :=
  if 600 <? String.length summary then Py.take 600 summary +++ "..." else summary.

Definition add_summary (story : list Flowable) (summary : string)
    : outcome (list Flowable) :=
  if is_structured summary then
    let markdown_elements := _parse_markdown_enhanced summary in
    story <-
      (if 10 <? List.length markdown_elements
       then toc_elements <- _create_table_of_contents markdown_elements ;;
            Returned (story ++ toc_elements)
       else Returned story) ;;
    layout story markdown_elements
  else
    block <- make_paragraph (plain_summary summary) summary_style ;;
    Returned (story ++ [block]).

(** ** Report assembly *)

Definition source_mapping : list (string * string) :=
  [("ethereum_blog", "Ethereum Blog");
   ("arbitrum_medium", "Arbitrum Medium");
   ("polygon_blog", "Polygon Blog");
   ("solana_news", "Solana News");
   ("flow_blog", "Flow Blog")].

Fixpoint lookup {V : Type} (key : string) (d : list (string * V)) : option V :=
  match d with
  | [] => None
  | (k, v) :: d' => if String.eqb k key then Some v else lookup key d'
  end.

Definition _format_source_name (src : string) : string :=
  match lookup src source_mapping with
  | Some name => name
  | None => str_title lib (Py.replace "_" " " src)
  end.

Definition date_formats : list string :=
  ["%a, %d %b %Y %H:%M:%S"; "%Y-%m-%d"; "%d %b %Y"].

(** The [for fmt in ...] loop with its [try]/[except ValueError: continue],
    and the [return date_string] after it. *)
Fixpoint try_formats (date_string : string) (formats : list string) : string :=
  match formats with
  | [] => date_string
  | fmt :: rest =>
      match strptime lib date_string fmt with
      | Some parsed_date => strftime lib parsed_date "%B %d, %Y"
      | None => try_formats date_string rest
      end
  end.

Definition _format_date (date_string : string) : string :=
  let date_string :=
    if Py.contains "GMT" date_string
    then Py.strip (Py.replace "GMT" "" date_string)
    else date_string in
  try_formats date_string date_formats.

(** [articles_by_source]: a dictionary in insertion order. *)
Fixpoint dict_append (src : string) (article : Article)
    (d : list (string * list Article)) : list (string * list Article) :=
  match d with
  | [] => [(src, [article])]
  | (k, v) :: d' =>
      if String.eqb k src then (k, v ++ [article]) :: d'
      else (k, v) :: dict_append src article d'
  end.

(** The grouping loop; [article['source']] raises [KeyError] when absent. *)
Fixpoint group_by_source (articles : list Article)
    (articles_by_source : list (string * list Article))
    : outcome (list (string * list Article)) :=
  match articles with
  | [] => Returned articles_by_source
  | article :: rest =>
      match source article with
      | None => Raised (KeyError "source")
      | Some src => group_by_source rest (dict_append src article articles_by_source)
      end
  end.

(** One iteration of [for article in source_articles]. *)
Definition add_article (story : list Flowable) (article : Article)
    : outcome (list Flowable) :=
  block <- make_paragraph (article_get (title article) "No Title") title_style ;;
  let story := story ++ [block] in
  let formatted_date := _format_date (article_get (date article) "No Date") in
  block <- make_paragraph ("Published: " +++ formatted_date) date_style ;;
  let story := story ++ [block] in
  block <-
    make_paragraph ("Link: " +++ article_get (link article) "No Link Available") link_style ;;
  let story := story ++ [block] in
  story <- add_summary story (article_get (summary article) "No summary available") ;;
  Returned (story ++ [Spacer 1 15]).

(** One iteration of [for source, source_articles in articles_by_source.items()];
    [last_key] is [list(articles_by_source.keys())[-1]]. *)
Definition add_source (count : nat) (last_key : string) (story : list Flowable)
    (group : string * list Article) : outcome (list Flowable) :=
  let (src, source_articles) := group in
  block <- make_paragraph (_format_source_name src) source_header_style ;;
  let story := story ++ [block] in
  story <- for_each add_article source_articles story ;;
  if (1 <? count) && negb (String.eqb src last_key)
  then Returned (story ++ [PageBreak])
  else Returned story.

(** The report title and the date line.  Their texts, a fixed title and
    [strftime]'s rendering of the clock, hold no markup, and their styles
    have mapped fonts: reportlab builds these two paragraphs whatever the
    articles are. *)
Definition report_header : list Flowable :=
  [Paragraph report_heading report_title_style;
   Paragraph (generated_prefix +++ strftime lib (now lib) "%B %d, %Y at %I:%M %p")
             report_date_style;
   Spacer 1 20].

(** The story handed to [doc.build]. *)
Definition build_story (articles_by_source : list (string * list Article))
    : outcome (list Flowable) :=
  let last_key := fst (last articles_by_source (EmptyString, [])) in
  for_each (add_source (List.length articles_by_source) last_key)
           articles_by_source report_header.

(** An exception leaves [generate_report] before [doc.build]: no file is
    written then. *)
Definition generate_report (articles : list Article) (fs : FileSystem)
    : FileSystem * outcome string :=
  match articles with
  | [] => (fs, Raised (ValueError "No articles provided for PDF generation"))
  | _ :: _ =>
      match group_by_source articles [] with
      | Raised e => (fs, Raised e)
      | Returned articles_by_source =>
          match build_story articles_by_source with
          | Raised e => (fs, Raised e)
          | Returned story =>
              (doc_build output_filename story fs, Returned output_filename)
          end
      end
  end.

End Generator.

(** ** Console summary *)

(** [str(e)]: the message of a [ValueError]; for a [KeyError] the [repr] of
    its key, which is the key in single quotes when the key holds neither a
    quote nor a character to escape. *)
Definition exception_str (e : Exception) : string :=
  match e with
  | ValueError message => message
  | KeyError key => "'" +++ key +++ "'"
  | ParagraphError message => message
  end.

(** [str(n)] of a natural number: its decimal digits. *)
Definition str_of_nat (n : nat) : string := NilZero.string_of_uint (Nat.to_uint n).

(** The counting dictionary of the summary, in insertion order:
    [articles_by_source[source] = 0] when the key is new, then [+= 1]. *)
Fixpoint dict_incr (src : string) (d : list (string * nat)) : list (string * nat) :=
  match d with
  | [] => [(src, 0 + 1)]
  | (k, v) :: d' =>
      if String.eqb k src then (k, v + 1) :: d'
      else (k, v) :: dict_incr src d'
  end.

(** The counting loop; [article['source']] raises [KeyError] when absent. *)
Fixpoint count_by_source (articles : list Article)
    (articles_by_source : list (string * nat)) : outcome (list (string * nat)) :=
  match articles with
  | [] => Returned articles_by_source
  | article :: rest =>
      match source article with
      | None => Raised (KeyError "source")
      | Some src => count_by_source rest (dict_incr src articles_by_source)
      end
  end.

(** The lines printed, kept as the bytes of the source file; [print] adds
    one entry to the lines written so far. *)
Definition success_line : string :=
  String newline "âœ… PDF report generated successfully!".
Definition saved_prefix : string := "ðŸ“„ Report saved as: ".
Definition total_prefix : string := "ðŸ“Š Total articles in report: ".
Definition summary_heading : string := String newline "ðŸ“‹ Report Summary:".
Definition error_prefix : string := "âŒ Error generating PDF: ".

Section Summary.

Variable lib : PyLib.
(** [self.output_filename] *)
Variable output_filename : string.

Definition summary_line (entry : string * nat) : string :=
  let (src, count) := entry in
  let formatted_source := _format_source_name lib src in
  "  " +++ bullet +++ formatted_source +++ ": " +++ str_of_nat count +++ " articles".

(** The [try] block with its [except Exception as e: print(...); raise]. *)
Definition generate_and_print_summary (articles : list Article) (fs : FileSystem)
    (stdout : list string) : FileSystem * list string * outcome string :=
  match generate_report lib output_filename articles fs with
  | (fs, Raised e) => (fs, stdout ++ [error_prefix +++ exception_str e], Raised e)
  | (fs, Returned pdf_path) =>
      let stdout := stdout ++ [success_line] in
      let stdout := stdout ++ [saved_prefix +++ pdf_path] in
      let stdout := stdout ++ [total_prefix +++ str_of_nat (List.length articles)] in
      let stdout := stdout ++ [summary_heading] in
      match count_by_source articles [] with
      | Raised e => (fs, stdout ++ [error_prefix +++ exception_str e], Raised e)
      | Returned articles_by_source =>
          let stdout :=
            fold_left (fun stdout entry => stdout ++ [summary_line entry])
                      articles_by_source stdout in
          (fs, stdout, Returned pdf_path)
      end
  end.

End Summary.

(** * Definitions for the properties *)

(** ** Classifier *)




(** ** Layout *)

(** What one element appends to the story itself, and what it adds to the
    buffered section. *)
Definition immediate (e : element) : list Flowable :=
  match e with
  | paragraph text section_type =>
      if Py.nonempty text then [Paragraph text (paragraph_style section_type)] else []
  | header header_text header_level _ =>
      [Paragraph header_text (header_style header_level)]
  | list_item list_text _ =>
      [Paragraph (bullet +++ list_text) enhanced_bullet_list_style]
  | numbered_list list_text number =>
      [Paragraph (number +++ ". " +++ list_text) numbered_list_style]
  | quote quote_text =>
      [Paragraph (quote_prefix +++ quote_text) enhanced_quote_style]
  | hr =>
      [Spacer 1 10; Paragraph (Py.repeat rule_glyph 60) long_content_style; Spacer 1 10]
  end.

Definition buffered (e : element) : list Flowable :=
  match e with
  | paragraph text _ =>
      if Py.nonempty text then [Paragraph text long_content_style] else []
  | _ => []
  end.

Definition is_header (e : element) : bool :=
  match e with header _ _ _ => true | _ => false end.

(** A buffered section as it reaches the story: one keep-together group,
    or nothing when the buffer is empty. *)
Definition keep_together (current_section : list Flowable) : list Flowable :=
  match current_section with
  | [] => []
  | _ :: _ => [KeepTogether current_section]
  end.

Definition is_group (f : Flowable) : bool :=
  match f with KeepTogether _ => true | _ => false end.

(** The blocks of a story outside any keep-together group. *)
Definition top_level (story : list Flowable) : list Flowable :=
  filter (fun f => negb (is_group f)) story.

(** The members of the keep-together groups of a story, in order. *)
Definition grouped (story : list Flowable) : list Flowable :=
  flat_map (fun f => match f with KeepTogether fs => fs | _ => [] end) story.

(** The paragraphs that one element has built, in the order the loop
    builds them: the block for the story, then the copy for the section. *)
Definition requests (e : element) : list Flowable := immediate e ++ buffered e.

(** What building a block raises, if anything: only paragraphs are parsed. *)
Definition build_error (lib : PyLib) (f : Flowable) : option Exception :=
  match f with
  | Paragraph text style =>
      match make_paragraph lib text style with
      | Raised e => Some e
      | Returned _ => None
      end
  | _ => None
  end.

(** The exception of the first block, in order, that cannot be built. *)
Fixpoint first_error (lib : PyLib) (blocks : list Flowable) : option Exception :=
  match blocks with
  | [] => None
  | f :: rest =>
      match build_error lib f with
      | Some e => Some e
      | None => first_error lib rest
      end
  end.

(** [result] once [blocks] have been built in order, or the exception of
    the first of them that cannot be. *)
Definition checked {A : Type} (lib : PyLib) (blocks : list Flowable) (result : A)
    : outcome A :=
  match first_error lib blocks with
  | Some e => Raised e
  | None => Returned result
  end.

(** One iteration of the layout loop when its paragraphs are built: a
    header closes the buffered section after its own block, any other
    element adds its blocks to the story and to the section. *)
Definition planned_element (st : layout_state) (e : element) : layout_state :=
  if is_header e
  then (fst st ++ immediate e ++ keep_together (snd st), [])
  else (fst st ++ immediate e, snd st ++ buffered e).

(** The story of the structured branch when every paragraph is built. *)
Definition planned (story : list Flowable) (els : list element) : list Flowable :=
  flush_section (fold_left planned_element els (story, [])).

(** ** Table of contents *)

Definition toc_style (header_level : nat) : Style :=
  match header_level with
  | 1 => title_style
  | 2 => section_header_style
  | _ => long_content_style
  end.

(** One entry for each header, in order, indented by four non-breaking
    spaces for each level below the first. *)
Definition toc_entries (elements : list element) : list Flowable :=
  flat_map (fun e =>
              match e with
              | header header_text header_level _ =>
                  [Paragraph (Py.repeat "&nbsp;" (4 * (header_level - 1)) +++ bullet
                              +++ header_text)
                             (toc_style header_level)]
              | _ => []
              end) elements.

(** The table of contents: its heading, a spacer, the entries, a spacer and
    a page break. *)
Definition toc_blocks (elements : list element) : list Flowable :=
  [Paragraph toc_heading report_title_style; Spacer 1 15] ++
  toc_entries elements ++ [Spacer 1 20; PageBreak].

(** The blocks of a summary, of an article, of a source group and of the
    sources of a report, with [body] for the blocks of the elements of a
    structured summary: [flat_map requests] gives the blocks in the order
    they are built, [planned []] the blocks as they stand in the story. *)
Definition summary_parts (body : list element -> list Flowable) (text : string)
    : list Flowable :=
  if is_structured text then
    (if 10 <? List.length (_parse_markdown_enhanced text)
     then toc_blocks (_parse_markdown_enhanced text) else []) ++
    body (_parse_markdown_enhanced text)
  else [Paragraph (plain_summary text) summary_style].

Definition article_parts (body : list element -> list Flowable) (lib : PyLib)
    (article : Article) : list Flowable :=
  [Paragraph (article_get (title article) "No Title") title_style;
   Paragraph ("Published: " +++ _format_date lib (article_get (date article) "No Date"))
             date_style;
   Paragraph ("Link: " +++ article_get (link article) "No Link Available") link_style] ++
  summary_parts body (article_get (summary article) "No summary available") ++
  [Spacer 1 15].

Definition source_parts (body : list element -> list Flowable) (lib : PyLib)
    (count : nat) (last_key : string) (group : string * list Article)
    : list Flowable :=
  Paragraph (_format_source_name lib (fst group)) source_header_style ::
  flat_map (article_parts body lib) (snd group) ++
  (if (1 <? count) && negb (String.eqb (fst group) last_key) then [PageBreak] else []).

Definition story_parts (body : list element -> list Flowable) (lib : PyLib)
    (d : list (string * list Article)) : list Flowable :=
  flat_map (source_parts body lib (List.length d) (fst (last d (EmptyString, [])))) d.

(** Blocks that are not a paragraph in the style of the report title, the
    style of the heading of the table of contents. *)
Definition not_title_styled (f : Flowable) : Prop :=
  match f with
  | Paragraph _ report_title_style => False
  | _ => True
  end.

(** ** Body routing *)

(** [s] without its last character. *)
Fixpoint but_last (s : string) : string :=
  match s with
  | EmptyString => EmptyString
  | String c EmptyString => EmptyString
  | String c s' => String c (but_last s')
  end.

(** [Occurrences sub s n]: [s] holds [n] occurrences of [sub] that do not
    overlap, each of them the first one that starts behind the one before:
    [s] is [a], then [sub], then a text with the other [n - 1], where no
    occurrence of [sub] starts in [a]. *)
Inductive Occurrences (sub : string) : string -> nat -> Prop :=
| occurrences_none (s : string) :
    Py.contains sub s = false -> Occurrences sub s 0
| occurrences_next (a b : string) (n : nat) :
    Py.contains sub (a +++ but_last sub) = false ->
    Occurrences sub b n ->
    Occurrences sub (a +++ sub +++ b) (S n).

(** ** Sample inputs and the date formatter *)

(** A library instance to evaluate the generator where no date parses, the
    clock reads midnight of 1 January 2025 and the markup of every text
    parses. *)
Definition sample_now : datetime :=
  {| year := 2025; month := 1; day := 1; hour := 0; minute := 0; second := 0 |}.

Definition sample_lib : PyLib :=
  {| strptime := fun _ _ => None;
     strftime := fun _ _ => "January 01, 2025 at 12:00 AM";
     str_title := fun s => s;
     now := sample_now;
     markup_error := fun _ _ => None;
     font_error := fun font _ =>
       "Can't map determine family/bold/italic for " +++ Py.lower font |}.

Definition toc_summary : string :=
  "# One\n## Two\n### Three\n#### Four\n# 5\n# 6\n# 7\n# 8\n# 9\n# 10\n# 11".

Definition toc_article : Article :=
  {| source := Some "ethereum_blog"; title := Some "Proposal"; link := None;
     date := None; summary := Some toc_summary |}.

(** The story that a computation returned; nothing when it raised. *)
Definition returned_story (o : outcome (list Flowable)) : list Flowable :=
  match o with
  | Returned story => story
  | Raised _ => []
  end.

(** The story of the file that a call of [generate_report] wrote last. *)
Definition written_story (r : FileSystem * outcome string) : list Flowable :=
  match fst r with
  | (_, story) :: _ => story
  | [] => []
  end.

Definition toc_story : list Flowable :=
  written_story (generate_report sample_lib "report.pdf" [toc_article] []).

(** The string that [_format_date] goes on with after its [GMT] test. *)
Definition without_gmt (date_string : string) : string :=
  if Py.contains "GMT" date_string
  then Py.strip (Py.replace "GMT" "" date_string)
  else date_string.

Definition plain_article : Article :=
  {| source := Some "solana_news"; title := Some "Upgrade"; link := Some "https://solana.com/news";
     date := Some "soon"; summary := Some "A short note." |}.

(** ** Inline formatter: markers, matches and tags *)

Fixpoint has_char (c : ascii) (s : string) : bool :=
  match s with
  | EmptyString => false
  | String a s' => Ascii.eqb a c || has_char c s'
  end.

(** No character that can open a span: asterisk, underscore, backtick or
    opening bracket. *)
Definition marker_free (s : string) : bool :=
  negb (has_char star s) && negb (has_char underscore s) &&
  negb (has_char backtick s) && negb (has_char "["%char s).

(** The first character a pattern has to read, look-behinds aside. *)
Fixpoint leading (p : list item) : option ascii :=
  match p with
  | Lit c :: _ => Some c
  | Not_behind _ :: p' => leading p'
  | _ => None
  end.

(** The character before the position reached after passing over [m]. *)
Fixpoint prev_after (prev : option ascii) (m : string) : option ascii :=
  match m with
  | EmptyString => prev
  | String c m' => prev_after (Some c) m'
  end.

(** A pattern of literal characters. *)
Fixpoint lits (w : string) : list item :=
  match w with
  | EmptyString => []
  | String c w' => Lit c :: lits w'
  end.

Definition add_len (n : nat) (r : result) : result :=
  match r with
  | Some (caps, m) => Some (caps, n + m)
  | None => None
  end.

(** The bold patterns: a marker [w], a lazy group, the marker again. *)
Definition bold_re_of (w : string) : list item :=
  lits w ++ [Group_lazy_star Dot] ++ lits w.

(** The group a lazy search for the closing marker [w] captures in [u]. *)
Fixpoint lazy_split (w u : string) : option string :=
  if prefix w u then Some EmptyString
  else match u with
       | String a u' =>
           if Ascii.eqb a newline then None
           else match lazy_split w u' with
                | Some g => Some (String a g)
                | None => None
                end
       | EmptyString => None
       end.

(** The closing marker occurs in [u] before the end of the line. *)
Definition on_line (w u : string) : bool :=
  match lazy_split w u with Some _ => true | None => false end.

(** A bold pattern with marker [w] matches at the start of [s]. *)
Definition bold_match (w s : string) : bool :=
  prefix w s && on_line w (Py.drop (String.length w) s).

(** No bold pattern with marker [w] matches anywhere in [s]. *)
Fixpoint bold_quiet (w s : string) : bool :=
  negb (bold_match w s) &&
  match s with
  | EmptyString => true
  | String _ s' => bold_quiet w s'
  end.

(** Characters of the tags the formatter writes: none of them is a marker,
    a line break or an opening bracket. *)
Definition tag_char (a : ascii) : bool :=
  negb (Ascii.eqb a star) && negb (Ascii.eqb a underscore) &&
  negb (Ascii.eqb a backtick) && negb (Ascii.eqb a newline) &&
  negb (Ascii.eqb a "["%char).

Fixpoint all_chars (f : ascii -> bool) (s : string) : bool :=
  match s with
  | EmptyString => true
  | String a s' => f a && all_chars f s'
  end.

(** [Retag mk s s']: [s'] is [s] with some non-empty runs of characters
    accepted by [mk] replaced by non-empty tags. *)
Inductive Retag (mk : ascii -> bool) : string -> string -> Prop :=
| Retag_nil : Retag mk "" ""
| Retag_keep (c : ascii) (s s' : string) :
    Retag mk s s' -> Retag mk (String c s) (String c s')
| Retag_tag (a : ascii) (m : string) (b : ascii) (g s s' : string) :
    all_chars mk (String a m) = true ->
    all_chars tag_char (String b g) = true ->
    Retag mk s s' ->
    Retag mk (String a m +++ s) (String b g +++ s').

(** A marker word: not empty, made of characters that no tag holds and
    that do not end a line. *)
Definition marker_char (c : ascii) : bool :=
  negb (tag_char c) && negb (Ascii.eqb c newline).

Definition marker_word (w : string) : bool :=
  Py.nonempty w && all_chars marker_char w.

(** A delimiter [M], a greedy group of other characters, the delimiter
    again; with [look], the delimiter may not touch another one outside. *)
Definition delim_re (look : bool) (M : ascii) : list item :=
  (if look then [Not_behind M] else []) ++
  [Lit M; Group_greedy_plus (Not_char M); Lit M] ++
  (if look then [Not_ahead M] else []).

Definition tag_repl (opening closing : string) : list piece :=
  [Text opening; Group 1; Text closing].

(** The longest prefix of [u] without [M], and what follows it. *)
Fixpoint run (M : ascii) (u : string) : string :=
  match u with
  | String a u' => if Ascii.eqb a M then EmptyString else String a (run M u')
  | EmptyString => EmptyString
  end.

Fixpoint after_run (M : ascii) (u : string) : string :=
  match u with
  | String a u' => if Ascii.eqb a M then u else after_run M u'
  | EmptyString => EmptyString
  end.

Definition starts (M : ascii) (r : string) : bool :=
  match r with
  | String x _ => Ascii.eqb x M
  | EmptyString => false
  end.

Definition closes (look : bool) (M : ascii) (r : string) : bool :=
  match r with
  | String b r' => Ascii.eqb b M && negb (look && starts M r')
  | EmptyString => false
  end.

Definition is_prev (M : ascii) (prev : option ascii) : bool :=
  match prev with
  | Some a => Ascii.eqb a M
  | None => false
  end.

(** The pattern matches at the start of [s], after [prev]. *)
Definition delim_match (look : bool) (M : ascii) (prev : option ascii) (s : string)
    : bool :=
  negb (look && is_prev M prev) &&
  match s with
  | String a u => Ascii.eqb a M && Py.nonempty (run M u) && closes look M (after_run M u)
  | EmptyString => false
  end.

(** The pattern matches nowhere in [s]. *)
Fixpoint delim_quiet (look : bool) (M : ascii) (prev : option ascii) (s : string)
    : bool :=
  negb (delim_match look M prev s) &&
  match s with
  | EmptyString => true
  | String c s' => delim_quiet look M (Some c) s'
  end.

Definition is_star (c : ascii) : bool := Ascii.eqb c star.

Definition is_underscore (c : ascii) : bool := Ascii.eqb c underscore.

Definition is_backtick (c : ascii) : bool := Ascii.eqb c backtick.

(** The text after the bold, italic and code passes. *)
Definition after_code (text : string) : string :=
  _process_code_text (_process_italic_text (_process_bold_text text)).

(** ** Definitions for the further properties *)

(** ** Layout groups, grouping by source and report structure *)

Definition long_paragraph (f : Flowable) : Prop :=
  match f with
  | Paragraph _ long_content_style => True
  | _ => False
  end.

(** A keep-together group is well formed when it is not empty and holds
    long-content paragraphs only. *)
Definition well_grouped (f : Flowable) : Prop :=
  match f with
  | KeepTogether fs => fs <> [] /\ Forall long_paragraph fs
  | _ => True
  end.

Definition has_source (k : string) (a : Article) : bool :=
  match source a with
  | Some s => String.eqb s k
  | None => false
  end.

Definition lacks_source (a : Article) : bool :=
  match source a with
  | Some _ => false
  | None => true
  end.

(** The sources of the articles, in input order. *)
Definition source_keys (articles : list Article) : list string :=
  flat_map (fun a => match source a with Some s => [s] | None => [] end) articles.

(** The distinct keys of a list in the order of their first occurrence. *)
Fixpoint first_seen (keys : list string) : list string :=
  match keys with
  | [] => []
  | k :: rest => k :: filter (fun x => negb (String.eqb x k)) (first_seen rest)
  end.

Definition memb (k : string) (keys : list string) : bool :=
  existsb (fun x => String.eqb x k) keys.

(** The blocks of one source group: its header, then the blocks of its
    articles. *)
Definition source_blocks (lib : PyLib) (blocks : Article -> list Flowable)
    (group : string * list Article) : list Flowable :=
  Paragraph (_format_source_name lib (fst group)) source_header_style ::
  flat_map blocks (snd group).

(** A source with the number of its articles. *)
Definition group_size (group : string * list Article) : string * nat :=
  (fst group, List.length (snd group)).

(** ** Tokenizer: lines, blank lines and visible characters *)

(** A line that is empty once stripped. *)
Definition blank (l : string) : bool := negb (Py.nonempty (Py.strip l)).

(** The lines the tokenizer loops over. *)
Definition source_lines (text : string) : list string :=
  Py.split newline
    (Py.replace "\t" (String tab EmptyString)
       (Py.replace "\n" (String newline EmptyString) text)).

(** The parser has produced an element or holds an open paragraph. *)
Definition active (st : parser_state) : bool :=
  match fst st with
  | [] => Py.nonempty (snd st)
  | _ :: _ => true
  end.

(** Some character of [s] is not white space. *)
Fixpoint has_visible (s : string) : bool :=
  match s with
  | EmptyString => false
  | String c s' => negb (Py.isspace c) || has_visible s'
  end.

(** The text of a paragraph, list item, numbered item or quote is not
    empty, and the level of a header is at least one; the text of a header
    is not constrained. *)
Definition has_text (e : element) : Prop :=
  match e with
  | paragraph text _ | list_item text _ | numbered_list text _ | quote text =>
      text <> EmptyString
  | header _ level _ => 1 <= level
  | hr => True
  end.

(** The parser state holds only such elements, and its open paragraph, when
    there is one, has a visible character. *)
Definition open_visible (st : parser_state) : Prop :=
  Forall has_text (fst st) /\
  (Py.nonempty (snd st) = true -> has_visible (snd st) = true).

(** A line that none of the markers of the tokenizer claims. *)
Definition plain_line (l : string) : bool :=
  let line := Py.strip l in
  Py.nonempty line && negb (Py.startswith "#" line) && negb (bullet_match line) &&
  negb (numbered_match line) && negb (Py.startswith "> " line) && negb (is_rule line).

(** [sep.join(parts)] *)
Fixpoint join (sep : string) (parts : list string) : string :=
  match parts with
  | [] => EmptyString
  | [p] => p
  | p :: rest => p +++ sep +++ join sep rest
  end.

(** An empty line between two texts. *)
Definition paragraph_break : string := String newline (String newline EmptyString).

(** ** Inline formatter: counting markers *)

(** The number of occurrences of the character [c] in [s]. *)
Fixpoint count_char (c : ascii) (s : string) : nat :=
  match s with
  | EmptyString => 0
  | String a s' => (if Ascii.eqb a c then 1 else 0) + count_char c s'
  end.

(** * Properties *)

(** ** Unit checks of the embedding *)

Example detect_methods : _detect_section_type "Our Approach" = methodology.
Proof. reflexivity. Qed.

Example fmt_bold : _process_markdown_text "a **b** ****c**** __d__" =
  "a <b>b</b> <b>c</b> <b>d</b>".
Proof. reflexivity. Qed.

Example fmt_italic : _process_markdown_text "*x* and _y_ but **z* and a_b" =
  "<i>x</i> and <i>y</i> but **z* and a_b".
Proof. reflexivity. Qed.

Example fmt_triple : _process_markdown_text "***a***" = "<b><i>a</b></i>".
Proof. reflexivity. Qed.

Example fmt_code_link : _process_markdown_text "`c` [l](u)" =
  "<code>c</code> <link href=" +++ dquote +++ "u" +++ dquote +++ ">l</link>".
Proof. reflexivity. Qed.

Example fmt_code_twice :
  _process_markdown_text "``a``" = "`<code>a</code>`" /\
  _process_markdown_text "`<code>a</code>`" = "<code><code>a</code></code>".
Proof. split; reflexivity. Qed.

Example parse_sample :
  _parse_markdown_enhanced "# Plan\n\nfirst line\nsecond **line**\n- item\n  * nested\n7. seven\n> said\n---\ntail" =
  [header "Plan" 1 general;
   paragraph "first line second <b>line</b>" general;
   list_item "item" 0; list_item "nested" 2;
   numbered_list "seven" "7"; quote "said"; hr;
   paragraph "tail" general].
Proof. reflexivity. Qed.

(** ** Facts about the string operations *)

Section StringFacts.

Lemma append_empty_r (s : string) : s +++ "" = s.
Proof. induction s as [|c s IH]; simpl; [reflexivity | now rewrite IH]. Qed.

Lemma append_assoc_s (a b c : string) : (a +++ b) +++ c = a +++ (b +++ c).
Proof. induction a as [|x a IH]; simpl; [reflexivity | now rewrite IH]. Qed.

Lemma length_append_s (a b : string) :
  String.length (a +++ b) = String.length a + String.length b.
Proof. induction a as [|x a IH]; simpl; [reflexivity | now rewrite IH]. Qed.

Lemma prefix_cons (a b : ascii) (k s : string) :
  prefix (String a k) (String b s) = Ascii.eqb a b && prefix k s.
Proof.
  simpl. destruct (ascii_dec a b) as [->|Hne].
  - now rewrite Ascii.eqb_refl.
  - apply Ascii.eqb_neq in Hne. now rewrite Hne.
Qed.

Lemma prefix_append (k b : string) : prefix k (k +++ b) = true.
Proof.
  induction k as [|c k IH]; simpl.
  - now destruct b.
  - destruct (ascii_dec c c); [exact IH | congruence].
Qed.

Lemma prefix_split (k s : string) :
  prefix k s = true -> exists b, s = k +++ b.
Proof.
  revert s. induction k as [|c k IH]; intros s H.
  - now exists s.
  - destruct s as [|d s]; [discriminate|].
    rewrite prefix_cons in H. apply andb_true_iff in H as [Hc Hk].
    apply Ascii.eqb_eq in Hc as ->.
    destruct (IH _ Hk) as [b ->]. now exists b.
Qed.

Lemma prefix_empty (k : string) : prefix k "" = negb (Py.nonempty k).
Proof. now destruct k. Qed.

Lemma contains_prefix (k s : string) : prefix k s = true -> Py.contains k s = true.
Proof. intros H. destruct s; cbn [Py.contains]; now rewrite H. Qed.

Lemma contains_intro (k a b : string) : Py.contains k (a +++ k +++ b) = true.
Proof.
  induction a as [|c a IH]; simpl.
  - apply contains_prefix, prefix_append.
  - rewrite IH. apply orb_true_r.
Qed.

Lemma contains_elim (k s : string) :
  Py.contains k s = true -> exists a b, s = a +++ k +++ b.
Proof.
  induction s as [|c s IH]; cbn [Py.contains]; intros H.
  - rewrite orb_false_r in H. apply prefix_split in H as [b ->].
    exists "", b. reflexivity.
  - apply orb_true_iff in H as [H|H].
    + apply prefix_split in H as [b ->]. exists "", b. reflexivity.
    + destruct (IH H) as (a & b & ->). exists (String c a), b. reflexivity.
Qed.


Lemma lstrip_split (s : string) : exists w, s = w +++ Py.lstrip s.
Proof.
  induction s as [|c s [w IH]]; simpl.
  - now exists "".
  - destruct (Py.isspace c).
    + exists (String c w). simpl. now rewrite <- IH.
    + now exists "".
Qed.

Lemma rstrip_split (s : string) : exists w, s = Py.rstrip s +++ w.
Proof.
  induction s as [|c s [w IH]]; simpl.
  - now exists "".
  - destruct (Py.rstrip s) as [|d r] eqn:E.
    + destruct (Py.isspace c).
      * exists (String c s). reflexivity.
      * exists s. reflexivity.
    + exists w. simpl in *. now rewrite <- IH.
Qed.

Lemma rstrip_cons (c : ascii) (s : string) :
  Py.nonempty (Py.rstrip s) = true -> Py.rstrip (String c s) = String c (Py.rstrip s).
Proof. simpl. now destruct (Py.rstrip s). Qed.

Lemma rstrip_append (a b : string) :
  Py.nonempty (Py.rstrip b) = true -> Py.rstrip (a +++ b) = a +++ Py.rstrip b.
Proof.
  intros H. induction a as [|c a IH]; [reflexivity|].
  change (String c a +++ b) with (String c (a +++ b)).
  rewrite rstrip_cons.
  - now rewrite IH.
  - rewrite IH. destruct a; [exact H | reflexivity].
Qed.





End StringFacts.

(** ** Section classifier *)




(** ** Layout loop *)

Section LayoutFacts.

Variable lib : PyLib.

Lemma make_paragraph_returns (text : string) (style : Style) (f : Flowable) :
  make_paragraph lib text style = Returned f -> f = Paragraph text style.
Proof.
  unfold make_paragraph. destruct (font_mapped (style_font style)); [|discriminate].
  destruct (markup_error lib text style); [discriminate|]. now intros [= <-].
Qed.

Lemma make_paragraph_raises (text : string) (style : Style) (e : Exception) :
  make_paragraph lib text style = Raised e -> exists message, e = ParagraphError message.
Proof.
  unfold make_paragraph. destruct (font_mapped (style_font style)).
  - destruct (markup_error lib text style) as [m|]; [|discriminate].
    intros [= <-]. now exists m.
  - intros [= <-]. eexists. reflexivity.
Qed.

Lemma make_paragraph_spec (text : string) (style : Style) :
  make_paragraph lib text style =
  checked lib [Paragraph text style] (Paragraph text style).
Proof.
  unfold checked. cbn [first_error build_error].
  destruct (make_paragraph lib text style) as [f|e] eqn:E; [|reflexivity].
  now rewrite (make_paragraph_returns _ _ _ E).
Qed.

Lemma first_error_app (a b : list Flowable) :
  first_error lib (a ++ b) =
  match first_error lib a with
  | Some e => Some e
  | None => first_error lib b
  end.
Proof.
  induction a as [|f a IH]; [reflexivity|]. cbn [app first_error].
  now destruct (build_error lib f).
Qed.

Lemma first_error_none_app (a b : list Flowable) :
  first_error lib (a ++ b) = None <->
  first_error lib a = None /\ first_error lib b = None.
Proof.
  rewrite first_error_app. destruct (first_error lib a); intuition congruence.
Qed.

Lemma first_error_is_paragraph_error (blocks : list Flowable) (e : Exception) :
  first_error lib blocks = Some e -> exists message, e = ParagraphError message.
Proof.
  induction blocks as [|f blocks IH]; [discriminate|]. cbn [first_error].
  destruct (build_error lib f) as [e'|] eqn:E; [|exact IH].
  intros [= <-]. destruct f; try discriminate. cbn [build_error] in E.
  destruct (make_paragraph lib text style) as [f|e0] eqn:Em; [discriminate|].
  injection E as <-. exact (make_paragraph_raises _ _ _ Em).
Qed.

Lemma checked_nil {A : Type} (x : A) : checked lib [] x = Returned x.
Proof. reflexivity. Qed.

(** Building [r1], then going on with a computation that builds [r2]. *)
Lemma checked_then {A B : Type} (r1 r2 : list Flowable) (x : A)
    (k : A -> outcome B) (y : B) :
  k x = checked lib r2 y ->
  bind (checked lib r1 x) k = checked lib (r1 ++ r2) y.
Proof.
  intros H. unfold checked in *. rewrite first_error_app.
  destruct (first_error lib r1); [reflexivity|]. exact H.
Qed.

Lemma checked_returned {A : Type} (r : list Flowable) (x y : A) :
  checked lib r x = Returned y <-> first_error lib r = None /\ x = y.
Proof.
  unfold checked. destruct (first_error lib r); split.
  - discriminate.
  - intros [H _]. discriminate H.
  - intros [= <-]. now split.
  - now intros [_ <-].
Qed.

Lemma checked_raised {A : Type} (r : list Flowable) (x : A) (e : Exception) :
  checked lib r x = Raised e <-> first_error lib r = Some e.
Proof.
  unfold checked. destruct (first_error lib r); split; congruence.
Qed.

Lemma flush_section_spec (story current_section : list Flowable) :
  flush_section (story, current_section) = story ++ keep_together current_section.
Proof. destruct current_section; simpl; [now rewrite app_nil_r | reflexivity]. Qed.

(** One iteration builds the paragraphs of its element, in order, and
    leaves the state of the plan. *)
Lemma layout_element_spec (story current_section : list Flowable) (e : element) :
  layout_element lib (story, current_section) e =
  checked lib (requests e) (planned_element (story, current_section) e).
Proof.
  unfold layout_element, requests, planned_element.
  destruct e; cbn [immediate buffered is_header fst snd app].
  - destruct (Py.nonempty text).
    + rewrite !make_paragraph_spec. apply (checked_then [_] [_]).
      cbv zeta. apply (checked_then [_] []). reflexivity.
    + cbn [app]. now rewrite !app_nil_r.
  - rewrite make_paragraph_spec. apply (checked_then [_] []). cbv zeta.
    destruct current_section; cbn [keep_together app]; [reflexivity|].
    now rewrite <- app_assoc.
  - rewrite make_paragraph_spec. apply (checked_then [_] []).
    rewrite ?app_nil_r. reflexivity.
  - rewrite make_paragraph_spec. apply (checked_then [_] []).
    rewrite ?app_nil_r. reflexivity.
  - rewrite make_paragraph_spec. apply (checked_then [_] []).
    rewrite ?app_nil_r. reflexivity.
  - cbv zeta. rewrite make_paragraph_spec.
    change (checked lib [Spacer 1 10; Paragraph (Py.repeat rule_glyph 60) long_content_style;
                         Spacer 1 10] ?x)
      with (checked lib ([Paragraph (Py.repeat rule_glyph 60) long_content_style] ++ []) x).
    apply checked_then. rewrite ?app_nil_r, <- ?app_assoc. reflexivity.
Qed.

Lemma for_each_layout_spec (els : list element) :
  forall st,
    for_each (layout_element lib) els st =
    checked lib (flat_map requests els) (fold_left planned_element els st).
Proof.
  induction els as [|e els IH]; intros [story cs]; [reflexivity|].
  cbn [for_each flat_map fold_left]. rewrite layout_element_spec.
  apply checked_then. apply IH.
Qed.

(** The layout returns the planned story when every paragraph can be
    built, and raises the exception of the first one that cannot. *)
Lemma layout_spec (story : list Flowable) (els : list element) :
  layout lib story els = checked lib (flat_map requests els) (planned story els).
Proof.
  unfold layout. rewrite for_each_layout_spec.
  rewrite <- (app_nil_r (flat_map requests els)) at 2.
  apply checked_then. reflexivity.
Qed.

(** A run of elements without a header only appends. *)
Lemma fold_headerless (seg : list element) :
  forallb (fun e => negb (is_header e)) seg = true ->
  forall story current_section,
    fold_left planned_element seg (story, current_section) =
    (story ++ flat_map immediate seg, current_section ++ flat_map buffered seg).
Proof.
  induction seg as [|e seg IH]; intros H story cs; cbn [fold_left flat_map].
  - now rewrite !app_nil_r.
  - simpl in H. apply andb_true_iff in H as [He Hseg].
    unfold planned_element at 2. apply negb_true_iff in He. rewrite He. cbn [fst snd].
    rewrite (IH Hseg). now rewrite <- !app_assoc.
Qed.

(** The story built so far is only ever extended. *)
Lemma fold_story_prefix (els : list element) :
  forall story current_section,
    fold_left planned_element els (story, current_section) =
    (story ++ fst (fold_left planned_element els ([], current_section)),
     snd (fold_left planned_element els ([], current_section))).
Proof.
  induction els as [|e els IH]; intros story cs; cbn [fold_left].
  - now rewrite app_nil_r.
  - unfold planned_element at 2 4 6. cbn [fst snd]. destruct (is_header e).
    + rewrite IH. rewrite (IH ([] ++ _)). cbn [fst snd app]. now rewrite <- !app_assoc.
    + rewrite IH. rewrite (IH ([] ++ _)). cbn [fst snd app]. now rewrite <- !app_assoc.
Qed.

Lemma planned_story_prefix (story : list Flowable) (els : list element) :
  planned story els = story ++ planned [] els.
Proof.
  unfold planned. rewrite fold_story_prefix.
  destruct (fold_left planned_element els ([], [])) as [s cs]. cbn [fst snd].
  rewrite !flush_section_spec. cbn [app]. now rewrite app_assoc.
Qed.

Lemma planned_at_header (story : list Flowable) (pre post : list element)
    (text : string) (level : nat) (section_type : SectionType) :
  planned story (pre ++ header text level section_type :: post) =
  planned (fst (fold_left planned_element pre (story, [])) ++
           [Paragraph text (header_style level)] ++
           keep_together (snd (fold_left planned_element pre (story, [])))) post.
Proof.
  unfold planned. rewrite fold_left_app. cbn [fold_left].
  destruct (fold_left planned_element pre (story, [])) as [s cs].
  reflexivity.
Qed.

Lemma top_level_app (a b : list Flowable) :
  top_level (a ++ b) = top_level a ++ top_level b.
Proof. apply filter_app. Qed.

Lemma grouped_app (a b : list Flowable) : grouped (a ++ b) = grouped a ++ grouped b.
Proof. apply flat_map_app. Qed.

Lemma top_level_immediate (e : element) : top_level (immediate e) = immediate e.
Proof. destruct e; simpl; try reflexivity. now destruct (Py.nonempty text). Qed.

Lemma grouped_immediate (e : element) : grouped (immediate e) = [].
Proof. destruct e; simpl; try reflexivity. now destruct (Py.nonempty text). Qed.

Lemma top_level_keep_together (cs : list Flowable) : top_level (keep_together cs) = [].
Proof. now destruct cs. Qed.

Lemma grouped_keep_together (cs : list Flowable) : grouped (keep_together cs) = cs.
Proof. destruct cs; simpl; [reflexivity | now rewrite app_nil_r]. Qed.

Lemma buffered_header (e : element) : is_header e = true -> buffered e = [].
Proof. now destruct e. Qed.

(** Invariant of the loop: outside the groups the story holds the immediate
    blocks of the elements seen; the groups and the buffer together hold
    their buffered blocks. *)
Lemma fold_projections (els : list element) :
  forall story current_section,
    let st := fold_left planned_element els (story, current_section) in
    top_level (fst st) = top_level story ++ flat_map immediate els /\
    grouped (fst st) ++ snd st =
      grouped story ++ current_section ++ flat_map buffered els.
Proof.
  induction els as [|e els IH]; intros story cs; cbn [fold_left flat_map fst snd].
  - now rewrite !app_nil_r.
  - unfold planned_element at 2 4 6. cbn [fst snd]. destruct (is_header e) eqn:He.
    + destruct (IH (story ++ immediate e ++ keep_together cs) []) as [Ht Hg].
      split.
      * rewrite Ht. rewrite !top_level_app, top_level_immediate, top_level_keep_together.
        now rewrite app_nil_r, <- app_assoc.
      * rewrite Hg. rewrite !grouped_app, grouped_immediate, grouped_keep_together.
        rewrite (buffered_header e He). simpl. now rewrite <- !app_assoc.
    + destruct (IH (story ++ immediate e) (cs ++ buffered e)) as [Ht Hg].
      split.
      * rewrite Ht. rewrite top_level_app, top_level_immediate.
        now rewrite <- app_assoc.
      * rewrite Hg. rewrite grouped_app, grouped_immediate.
        now rewrite app_nil_r, <- !app_assoc.
Qed.

Lemma planned_projections (els : list element) :
  top_level (planned [] els) = flat_map immediate els /\
  grouped (planned [] els) = flat_map buffered els.
Proof.
  unfold planned. destruct (fold_projections els [] []) as [Ht Hg].
  destruct (fold_left planned_element els ([], [])) as [s cs].
  cbn [fst snd] in Ht, Hg. rewrite flush_section_spec.
  rewrite top_level_app, grouped_app, top_level_keep_together, grouped_keep_together.
  rewrite app_nil_r. split; [exact Ht | exact Hg].
Qed.

(** The paragraph of a quote is in a style whose font reportlab cannot
    map. *)
Lemma quote_build_error (text : string) :
  build_error lib (Paragraph text enhanced_quote_style) =
  Some (ParagraphError (font_error lib "Helvetica-Italic" text)).
Proof. reflexivity. Qed.

Lemma first_error_at (pre : list Flowable) (f : Flowable) (post : list Flowable)
    (e : Exception) :
  first_error lib pre = None -> build_error lib f = Some e ->
  first_error lib (pre ++ f :: post) = Some e.
Proof.
  intros Hpre Hf. rewrite first_error_app, Hpre. cbn [first_error]. now rewrite Hf.
Qed.

Lemma first_error_some_app (a b : list Flowable) :
  first_error lib b <> None -> first_error lib (a ++ b) <> None.
Proof.
  intros H. rewrite first_error_app. now destruct (first_error lib a).
Qed.

End LayoutFacts.

(** C1, as the code has it. Take a run of elements without a header, whose
    paragraphs can be built.  When the loop then reaches a header, the header
    block is appended to the story first, and the buffered section, which is
    the long-content copies of the non-empty paragraphs of the run, follows
    it as one keep-together group (nothing when there is no such paragraph);
    the layout goes on from there with an empty buffer.  After the last
    element the buffered section that remains is appended as a keep-together
    group. *)
Theorem layout_header_then_group (lib : PyLib) (story : list Flowable)
    (seg post : list element) (text : string) (level : nat)
    (section_type : SectionType) :
  forallb (fun e => negb (is_header e)) seg = true ->
  first_error lib (flat_map requests seg) = None ->
  (build_error lib (Paragraph text (header_style level)) = None ->
   layout lib story (seg ++ header text level section_type :: post) =
   layout lib
     (story ++ flat_map immediate seg ++ [Paragraph text (header_style level)] ++
      keep_together (flat_map buffered seg))
     post) /\
  layout lib story seg =
    Returned (story ++ flat_map immediate seg ++ keep_together (flat_map buffered seg)).
Proof.
  intros Hseg Hok. split.
  - intros Hh. rewrite !layout_spec, flat_map_app. cbn [flat_map].
    unfold checked. rewrite first_error_app, Hok.
    unfold requests at 1. cbn [immediate buffered app first_error]. rewrite Hh.
    rewrite planned_at_header, (fold_headerless seg Hseg). cbn [fst snd app].
    now rewrite <- !app_assoc.
  - rewrite layout_spec. unfold checked. rewrite Hok. f_equal.
    unfold planned. rewrite (fold_headerless seg Hseg), flush_section_spec.
    cbn [app]. now rewrite <- app_assoc.
Qed.

Lemma layout_header_then_group_witness :
  layout sample_lib []
    ([paragraph "intro" general; paragraph "" general; list_item "i" 0] ++
     header "Heading" 1 general :: [paragraph "next" general]) =
  layout sample_lib
    [Paragraph "intro" long_content_style;
     Paragraph (bullet +++ "i") enhanced_bullet_list_style;
     Paragraph "Heading" title_style;
     KeepTogether [Paragraph "intro" long_content_style]]
    [paragraph "next" general] /\
  layout sample_lib [] [paragraph "intro" general; paragraph "" general; list_item "i" 0] =
  Returned
    [Paragraph "intro" long_content_style;
     Paragraph (bullet +++ "i") enhanced_bullet_list_style;
     KeepTogether [Paragraph "intro" long_content_style]].
Proof.
  destruct (layout_header_then_group sample_lib []
              [paragraph "intro" general; paragraph "" general; list_item "i" 0]
              [paragraph "next" general] "Heading" 1 general eq_refl eq_refl)
    as [Hh Ht].
  split; [exact (Hh eq_refl) | exact Ht].
Defined.

(** C1 as stated fails: for a paragraph followed by a header the group with
    the buffered paragraph comes after the header block, not before it. *)
Lemma layout_group_before_header_counterexample :
  _parse_markdown_enhanced "intro\n# Heading" =
    [paragraph "intro" general; header "Heading" 1 general] /\
  layout sample_lib [] (_parse_markdown_enhanced "intro\n# Heading") =
    Returned
      [Paragraph "intro" long_content_style;
       Paragraph "Heading" title_style;
       KeepTogether [Paragraph "intro" long_content_style]] /\
  layout sample_lib [] (_parse_markdown_enhanced "intro\n# Heading") <>
    Returned
      [Paragraph "intro" long_content_style;
       KeepTogether [Paragraph "intro" long_content_style];
       Paragraph "Heading" title_style].
Proof.
  split; [reflexivity|]. split; [reflexivity|].
  vm_compute. intros H. discriminate H.
Qed.

(** C10, on the code. The paragraph of a quote is asked for in a style
    whose font, Helvetica-Italic, reportlab cannot map: the layout never
    returns a story for elements that hold a quote, and it raises the error
    of that font at the first quote when the paragraphs before it can be
    built.  Where the layout does return, no element is a quote, every
    non-empty paragraph is in the story twice (once outside the groups in
    the style of its category, once as a long-content copy inside a
    keep-together group), and headers, list items, numbered items and rules
    are in it once, outside the groups. *)
Theorem layout_quote_raises (lib : PyLib) (story : list Flowable)
    (pre post els : list element) (quote_text : string) :
  (forall story', layout lib story (pre ++ quote quote_text :: post) <> Returned story') /\
  (first_error lib (flat_map requests pre) = None ->
   layout lib story (pre ++ quote quote_text :: post) =
   Raised (ParagraphError
             (font_error lib "Helvetica-Italic" (quote_prefix +++ quote_text)))) /\
  (forall body, layout lib [] els = Returned body ->
     top_level body = flat_map immediate els /\
     grouped body = flat_map buffered els /\
     forall q, ~ In (quote q) els).
Proof.
  split; [|split].
  - intros story' H. rewrite layout_spec in H. apply checked_returned in H as [H _].
    revert H. rewrite flat_map_app. apply first_error_some_app.
    cbn [flat_map]. unfold requests at 1. cbn [immediate buffered app first_error].
    rewrite quote_build_error. discriminate.
  - intros Hpre. rewrite layout_spec. apply checked_raised.
    rewrite flat_map_app. cbn [flat_map]. unfold requests at 2.
    cbn [immediate buffered app].
    apply first_error_at; [exact Hpre | apply quote_build_error].
  - intros body H. rewrite layout_spec in H. apply checked_returned in H as [Hok <-].
    destruct (planned_projections els) as [Ht Hg].
    split; [exact Ht|]. split; [exact Hg|].
    intros q Hin. apply in_split in Hin as (l1 & l2 & ->).
    revert Hok. rewrite flat_map_app. apply first_error_some_app.
    cbn [flat_map]. unfold requests at 1. cbn [immediate buffered app first_error].
    rewrite quote_build_error. discriminate.
Qed.

Lemma layout_quote_raises_witness :
  layout sample_lib [] ([paragraph "p" timeline; list_item "i" 0] ++ quote "q" :: [hr]) =
    Raised (ParagraphError "Can't map determine family/bold/italic for helvetica-italic") /\
  top_level
    [Paragraph "p" timeline_style;
     Paragraph (bullet +++ "i") enhanced_bullet_list_style;
     Paragraph "h" proposal_h2_style;
     KeepTogether [Paragraph "p" long_content_style];
     Spacer 1 10; Paragraph (Py.repeat rule_glyph 60) long_content_style; Spacer 1 10] =
  flat_map immediate
    [paragraph "p" timeline; list_item "i" 0; header "h" 2 general; hr].
Proof.
  split.
  - exact (proj1 (proj2 (layout_quote_raises sample_lib []
             [paragraph "p" timeline; list_item "i" 0] [hr] [] "q")) eq_refl).
  - exact (proj1 (proj2 (proj2 (layout_quote_raises sample_lib [] [] []
             [paragraph "p" timeline; list_item "i" 0; header "h" 2 general; hr] ""))
             _ eq_refl)).
Defined.

(** The report of one article whose summary holds a quote: the error leaves
    [generate_report] before any file is written. *)
Example quote_report_raises :
  generate_report sample_lib "report.pdf"
    [{| source := Some "ethereum_blog"; title := Some "Note";
        link := Some "https://e.org"; date := Some "2025-08-22";
        summary := Some "Intro\n> quoted" |}]
    [("old.pdf", [])] =
  ([("old.pdf", [])],
   Raised (ParagraphError "Can't map determine family/bold/italic for helvetica-italic")).
Proof. reflexivity. Qed.

(** ** Table of contents *)

Section TocFacts.

Variable lib : PyLib.

Lemma repeat_add (s : string) (a b : nat) :
  Py.repeat s (a + b) = Py.repeat s a +++ Py.repeat s b.
Proof.
  induction a as [|a IH]; simpl; [reflexivity|].
  now rewrite IH, append_assoc_s.
Qed.

Lemma repeat_four (s : string) (a : nat) :
  Py.repeat (Py.repeat s a) 4 = Py.repeat s (4 * a).
Proof.
  simpl. rewrite !repeat_add. simpl. now rewrite !append_empty_r.
Qed.

Lemma toc_entry_spec (header_text : string) (header_level : nat) :
  toc_entry lib header_text header_level =
  checked lib
    [Paragraph (Py.repeat "&nbsp;" (4 * (header_level - 1)) +++ bullet +++ header_text)
               (toc_style header_level)]
    (Paragraph (Py.repeat "&nbsp;" (4 * (header_level - 1)) +++ bullet +++ header_text)
               (toc_style header_level)).
Proof.
  unfold toc_entry. cbv zeta. rewrite repeat_four.
  destruct header_level as [|[|[|n]]]; apply make_paragraph_spec.
Qed.

Lemma toc_loop_spec (elements : list element) :
  forall toc_elements,
    toc_loop lib toc_elements elements =
    checked lib (toc_entries elements) (toc_elements ++ toc_entries elements).
Proof.
  induction elements as [|e els IH]; intros acc; cbn [toc_loop toc_entries flat_map].
  - now rewrite app_nil_r.
  - destruct e; try (rewrite IH; reflexivity).
    rewrite toc_entry_spec. apply (checked_then lib [_]).
    rewrite IH. fold (toc_entries els). now rewrite <- app_assoc.
Qed.

Lemma create_table_of_contents_spec (elements : list element) :
  _create_table_of_contents lib elements =
  checked lib (toc_blocks elements) (toc_blocks elements).
Proof.
  unfold _create_table_of_contents, toc_blocks. cbv zeta.
  rewrite make_paragraph_spec.
  change ([Paragraph toc_heading report_title_style; Spacer 1 15] ++
          toc_entries elements ++ [Spacer 1 20; PageBreak])
    with ([Paragraph toc_heading report_title_style] ++
          Spacer 1 15 :: toc_entries elements ++ [Spacer 1 20; PageBreak]).
  apply checked_then. rewrite toc_loop_spec.
  assert (E : first_error lib (Spacer 1 15 :: toc_entries elements ++ [Spacer 1 20; PageBreak])
              = first_error lib (toc_entries elements ++ [])).
  { cbn [first_error build_error]. now rewrite !first_error_app. }
  unfold checked at 2. rewrite E. fold (checked lib (toc_entries elements ++ [])
    ([Paragraph toc_heading report_title_style] ++
     Spacer 1 15 :: toc_entries elements ++ [Spacer 1 20; PageBreak])).
  apply checked_then. cbn [app]. rewrite <- !app_assoc. reflexivity.
Qed.

Lemma toc_entries_length (elements : list element) :
  List.length (toc_entries elements) = List.length (filter is_header elements).
Proof.
  induction elements as [|e els IH]; [reflexivity|].
  destruct e; cbn [toc_entries flat_map filter is_header app List.length];
    fold (toc_entries els); now rewrite ?IH.
Qed.

Lemma immediate_not_title_styled (e : element) : Forall not_title_styled (immediate e).
Proof.
  destruct e; simpl; repeat constructor.
  - destruct (Py.nonempty text); repeat constructor. now destruct section_type.
  - now destruct level as [|[|[|[|n]]]].
Qed.

Lemma planned_not_title_styled (els : list element) :
  Forall not_title_styled (planned [] els).
Proof.
  unfold planned.
  assert (H : forall story cs, Forall not_title_styled story ->
            Forall not_title_styled (fst (fold_left planned_element els (story, cs)))).
  { induction els as [|e els IH]; intros story cs Hs; cbn [fold_left]; [exact Hs|].
    unfold planned_element at 2. cbn [fst snd]. destruct (is_header e); apply IH.
    - apply Forall_app; split; [exact Hs|]. apply Forall_app; split.
      + apply immediate_not_title_styled.
      + destruct cs; repeat constructor.
    - apply Forall_app; split; [exact Hs | apply immediate_not_title_styled]. }
  specialize (H [] [] (Forall_nil _)).
  destruct (fold_left planned_element els ([], [])) as [s cs].
  rewrite flush_section_spec. apply Forall_app; split; [exact H|].
  destruct cs; repeat constructor.
Qed.

(** The summary builds its blocks in order and appends them to the story. *)
Lemma add_summary_spec (story : list Flowable) (text : string) :
  add_summary lib story text =
  checked lib (summary_parts (flat_map requests) text)
          (story ++ summary_parts (planned []) text).
Proof.
  unfold add_summary, summary_parts. destruct (is_structured text).
  - cbv zeta. destruct (10 <? List.length (_parse_markdown_enhanced text)).
    + rewrite create_table_of_contents_spec.
      rewrite (checked_then lib _ [] _ _ (story ++ toc_blocks (_parse_markdown_enhanced text)))
        by reflexivity.
      rewrite app_nil_r. apply checked_then.
      rewrite layout_spec, planned_story_prefix. now rewrite <- app_assoc.
    + cbn [bind app]. rewrite layout_spec. now rewrite planned_story_prefix.
  - rewrite make_paragraph_spec. apply (checked_then lib [_] []). reflexivity.
Qed.

Lemma add_article_spec (story : list Flowable) (article : Article) :
  add_article lib story article =
  checked lib (article_parts (flat_map requests) lib article)
          (story ++ article_parts (planned []) lib article).
Proof.
  unfold add_article, article_parts. cbv zeta. rewrite !make_paragraph_spec.
  apply (checked_then lib [_] (_ :: _ :: _)). cbv beta.
  apply (checked_then lib [_] (_ :: _)). cbv beta.
  apply (checked_then lib [_]). cbv beta. rewrite add_summary_spec.
  assert (E : forall blocks, first_error lib (blocks ++ [Spacer 1 15]) =
                             first_error lib (blocks ++ [])).
  { intros blocks. now rewrite !first_error_app. }
  unfold checked at 2. rewrite E. fold (checked lib
    (summary_parts (flat_map requests) (article_get (summary article) "No summary available")
     ++ [])
    (story ++
     [Paragraph (article_get (title article) "No Title") title_style;
      Paragraph ("Published: " +++ _format_date lib (article_get (date article) "No Date"))
                date_style;
      Paragraph ("Link: " +++ article_get (link article) "No Link Available") link_style] ++
     summary_parts (planned []) (article_get (summary article) "No summary available") ++
     [Spacer 1 15])).
  apply checked_then. cbn [app]. rewrite <- !app_assoc. reflexivity.
Qed.

End TocFacts.

(** C2, as the code has it. For an article whose summary takes the
    structured path, the article's blocks are its title, date and link
    blocks, then, when the summary has more than 10 elements, the table of
    contents, then the content, then a spacer.  The table of contents is its
    heading, a spacer, one entry for each header (indented by four
    non-breaking spaces for each level below the first), a spacer and a page
    break; it comes right after the article's link block and right before the
    article's first content block.  With 10 elements or fewer nothing comes
    between the link block and the content, and the content itself never
    holds a block in the style of the heading of the table.  This is the
    story of every article that is laid out: one of its paragraphs that
    cannot be built ends the report with its error. *)
Theorem toc_before_content (lib : PyLib) (story story' : list Flowable)
    (article : Article) :
  let text := article_get (summary article) "No summary available" in
  let els := _parse_markdown_enhanced text in
  is_structured text = true ->
  add_article lib story article = Returned story' ->
  exists body,
    layout lib [] els = Returned body /\
    story' =
      story ++
      [Paragraph (article_get (title article) "No Title") title_style;
       Paragraph ("Published: " +++ _format_date lib (article_get (date article) "No Date"))
                 date_style;
       Paragraph ("Link: " +++ article_get (link article) "No Link Available") link_style] ++
      (if 10 <? List.length els
       then [Paragraph toc_heading report_title_style; Spacer 1 15] ++
            toc_entries els ++ [Spacer 1 20; PageBreak]
       else []) ++
      body ++ [Spacer 1 15]
    /\ List.length (toc_entries els) = List.length (filter is_header els)
    /\ ~ In (Paragraph toc_heading report_title_style) body.
Proof.
  cbv zeta. intros Hs H.
  rewrite add_article_spec in H. apply checked_returned in H as [Hok <-].
  exists (planned [] (_parse_markdown_enhanced
                        (article_get (summary article) "No summary available"))).
  unfold article_parts, summary_parts in *. rewrite Hs in *.
  split; [|split; [|split]].
  - rewrite layout_spec. apply checked_returned. split; [|reflexivity].
    apply first_error_none_app in Hok as [_ Hok].
    apply first_error_none_app in Hok as [Hok _].
    now apply first_error_none_app in Hok as [_ Hok].
  - unfold toc_blocks. now rewrite <- !app_assoc.
  - apply toc_entries_length.
  - intros Hin.
    pose proof (planned_not_title_styled
                  (_parse_markdown_enhanced
                     (article_get (summary article) "No summary available"))) as HF.
    rewrite Forall_forall in HF. exact (HF _ Hin).
Qed.

Lemma toc_before_content_witness :
  is_structured toc_summary = true /\
  exists body,
    layout sample_lib [] (_parse_markdown_enhanced toc_summary) = Returned body /\
    firstn 10 (returned_story (add_article sample_lib [] toc_article)) =
    [Paragraph "Proposal" title_style;
     Paragraph "Published: No Date" date_style;
     Paragraph "Link: No Link Available" link_style;
     Paragraph toc_heading report_title_style;
     Spacer 1 15;
     Paragraph (bullet +++ "One") title_style;
     Paragraph ("&nbsp;&nbsp;&nbsp;&nbsp;" +++ bullet +++ "Two") section_header_style;
     Paragraph ("&nbsp;&nbsp;&nbsp;&nbsp;&nbsp;&nbsp;&nbsp;&nbsp;" +++ bullet +++ "Three")
               long_content_style;
     Paragraph ("&nbsp;&nbsp;&nbsp;&nbsp;&nbsp;&nbsp;&nbsp;&nbsp;&nbsp;&nbsp;&nbsp;&nbsp;"
                +++ bullet +++ "Four") long_content_style;
     Paragraph (bullet +++ "5") title_style].
Proof.
  split; [reflexivity|].
  destruct (toc_before_content sample_lib []
              (returned_story (add_article sample_lib [] toc_article)) toc_article
              eq_refl eq_refl) as (body & Hb & Hs & _).
  exists body. split; [exact Hb|]. rewrite Hs. reflexivity.
Defined.

(** C2 as stated fails where it places the table of contents right after
    the document title: the block after the report title is the generation
    date, and the heading of the table is the eighth block of the story,
    right after the article's link block. *)
Lemma toc_after_document_title_counterexample :
  nth_error toc_story 0 = Some (Paragraph report_heading report_title_style) /\
  nth_error toc_story 1 <> Some (Paragraph toc_heading report_title_style) /\
  nth_error toc_story 4 = Some (Paragraph "Proposal" title_style) /\
  nth_error toc_story 5 <> Some (Paragraph toc_heading report_title_style) /\
  nth_error toc_story 6 = Some (Paragraph "Link: No Link Available" link_style) /\
  nth_error toc_story 7 = Some (Paragraph toc_heading report_title_style).
Proof.
  repeat split; try reflexivity; vm_compute; intros H; discriminate H.
Qed.

(** ** Body routing *)

Section RoutingFacts.

Lemma length_take (n : nat) (s : string) :
  n <= String.length s -> String.length (Py.take n s) = n.
Proof.
  revert s. induction n as [|n IH]; intros s H; [reflexivity|].
  destruct s as [|c s]; simpl in *; [lia|]. rewrite IH; lia.
Qed.

Lemma is_structured_iff (text : string) :
  is_structured text = true <->
  500 < String.length text \/ 2 < Py.count "#" text \/ 3 < Py.count "**" text \/
  3 < Py.count "- " text \/ Py.contains "\n" text = true.
Proof.
  unfold is_structured. rewrite !orb_true_iff, !Nat.ltb_lt. tauto.
Qed.

Lemma plain_is_short (text : string) :
  is_structured text = false -> String.length text <= 500.
Proof.
  unfold is_structured. intros H.
  destruct (500 <? String.length text) eqn:E; [discriminate|].
  apply Nat.ltb_ge in E. exact E.
Qed.

Lemma prefix_nil (s : string) : prefix "" s = true.
Proof. now destruct s. Qed.

Lemma prefix_length (old s : string) :
  prefix old s = true -> String.length old <= String.length s.
Proof.
  intros H. apply prefix_split in H as [b ->]. rewrite length_append_s. lia.
Qed.

Lemma prefix_extend (w x z : string) : prefix w x = true -> prefix w (x +++ z) = true.
Proof.
  intros H. apply prefix_split in H as [b ->].
  rewrite append_assoc_s. apply prefix_append.
Qed.

Lemma prefix_shorten (w : string) :
  forall p q,
    prefix w (p +++ q) = true -> String.length w <= String.length p ->
    prefix w p = true.
Proof.
  induction w as [|c w IH]; intros p q H Hlen; [apply prefix_nil|].
  destruct p as [|d p]; [cbn in Hlen; lia|].
  cbn [String.append] in H. rewrite prefix_cons in *.
  apply andb_true_iff in H as [Hc Hw]. rewrite Hc. cbn [andb].
  apply (IH p q Hw). cbn in Hlen. lia.
Qed.

Lemma contains_short (sub : string) :
  forall t, String.length t < String.length sub -> Py.contains sub t = false.
Proof.
  induction t as [|c t IH]; intros H; cbn [Py.contains].
  - rewrite orb_false_r. destruct (prefix sub "") eqn:E; [|reflexivity].
    apply prefix_length in E. lia.
  - rewrite IH by (cbn in H; lia). rewrite orb_false_r.
    destruct (prefix sub (String c t)) eqn:E; [|reflexivity].
    apply prefix_length in E. lia.
Qed.

Lemma but_last_split (c : ascii) (sub : string) :
  exists d, String c sub = but_last (String c sub) +++ String d "".
Proof.
  revert c. induction sub as [|x sub IH]; intros c.
  - now exists c.
  - destruct (IH x) as [d Hd]. exists d.
    change (but_last (String c (String x sub))) with (String c (but_last (String x sub))).
    cbn [String.append]. now rewrite <- Hd.
Qed.

Lemma length_but_last (c : ascii) (sub : string) :
  String.length (String c sub) = S (String.length (but_last (String c sub))).
Proof.
  destruct (but_last_split c sub) as [d Hd]. rewrite Hd at 1.
  rewrite length_append_s. cbn [String.length]. lia.
Qed.

Lemma count_absent (sub s : string) :
  Py.contains sub s = false -> Py.count sub s = 0.
Proof.
  unfold Py.count. induction s as [|c s IH]; [reflexivity|].
  cbn [Py.contains Py.count_from]. intros H.
  apply orb_false_iff in H as [Hp Hc]. rewrite Hp. now apply IH.
Qed.

Lemma count_from_skip (sub b : string) :
  forall x, Py.count_from sub (x +++ b) (String.length x) = Py.count_from sub b 0.
Proof.
  induction x as [|c x IH]; [reflexivity|].
  cbn [String.append String.length Py.count_from]. exact IH.
Qed.

(** The first occurrence is counted, and the count goes on behind it. *)
Lemma count_leftmost (c : ascii) (sub' b : string) :
  forall a,
    Py.contains (String c sub') (a +++ but_last (String c sub')) = false ->
    Py.count (String c sub') (a +++ String c sub' +++ b) =
    S (Py.count (String c sub') b).
Proof.
  unfold Py.count. induction a as [|x a IH]; intros H.
  - cbn [String.append Py.count_from]. 
    change (String c (sub' +++ b)) with (String c sub' +++ b).
    rewrite prefix_append. cbn [String.length Nat.sub]. rewrite Nat.sub_0_r.
    now rewrite count_from_skip.
  - cbn [String.append Py.contains] in H. apply orb_false_iff in H as [Hp Hc].
    change (String x a +++ String c sub' +++ b)
      with (String x (a +++ String c sub' +++ b)).
    cbn [Py.count_from].
    destruct (prefix (String c sub') (String x (a +++ String c sub' +++ b))) eqn:E.
    + exfalso. destruct (but_last_split c sub') as [d Hd].
      assert (Es : String x (a +++ String c sub' +++ b) =
                   String x (a +++ but_last (String c sub')) +++ String d b).
      { rewrite Hd at 1. cbn [String.append]. rewrite !append_assoc_s. reflexivity. }
      rewrite Es in E. apply prefix_shorten in E.
      * rewrite E in Hp. discriminate Hp.
      * rewrite length_but_last. cbn [String.length]. rewrite length_append_s. lia.
    + now apply IH.
Qed.

Lemma leftmost_split (c : ascii) (sub' : string) :
  forall s,
    Py.contains (String c sub') s = true ->
    exists a b,
      s = a +++ String c sub' +++ b /\
      Py.contains (String c sub') (a +++ but_last (String c sub')) = false.
Proof.
  induction s as [|x s IH]; intros H.
  - cbn [Py.contains] in H. rewrite orb_false_r in H. discriminate H.
  - destruct (prefix (String c sub') (String x s)) eqn:Ep.
    + apply prefix_split in Ep as [b Eb]. exists "", b. split; [exact Eb|].
      apply contains_short. rewrite length_but_last. cbn [String.append]. lia.
    + cbn [Py.contains] in H. rewrite Ep in H. cbn [orb] in H.
      destruct (IH H) as (a & b & Es & Hc). exists (String x a), b.
      split; [now rewrite Es|].
      cbn [String.append Py.contains]. rewrite Hc, orb_false_r.
      destruct (prefix (String c sub') (String x (a +++ but_last (String c sub')))) eqn:E;
        [|reflexivity].
      destruct (but_last_split c sub') as [d Hd].
      apply (prefix_extend _ _ (String d b)) in E.
      assert (Es' : String x s = String x (a +++ but_last (String c sub')) +++ String d b).
      { rewrite Es. rewrite Hd at 1. cbn [String.append]. rewrite !append_assoc_s.
        reflexivity. }
      rewrite <- Es', Ep in E. discriminate E.
Qed.

(** [str.count] is the number of occurrences found from left to right. *)
Lemma occurrences_count (c : ascii) (sub' : string) (n : nat) :
  forall s, String.length s <= n ->
    Occurrences (String c sub') s (Py.count (String c sub') s).
Proof.
  induction n as [|n IH]; intros s Hlen.
  - destruct s; [|cbn in Hlen; lia]. now constructor.
  - destruct (Py.contains (String c sub') s) eqn:Ec.
    + destruct (leftmost_split c sub' s Ec) as (a & b & -> & Hl).
      rewrite (count_leftmost c sub' b a Hl). constructor; [exact Hl|].
      apply IH. rewrite !length_append_s in Hlen. cbn [String.length] in Hlen. lia.
    + rewrite (count_absent _ _ Ec). now constructor.
Qed.

Lemma occurrences_unique (c : ascii) (sub' s : string) (n : nat) :
  Occurrences (String c sub') s n -> n = Py.count (String c sub') s.
Proof.
  induction 1 as [s H|a b n Hl _ IH].
  - now rewrite (count_absent _ _ H).
  - rewrite (count_leftmost c sub' b a Hl). now rewrite IH.
Qed.

Lemma occurrences_iff (sub s : string) (n : nat) :
  sub <> EmptyString -> (Occurrences sub s n <-> n = Py.count sub s).
Proof.
  intros Hne. destruct sub as [|c sub']; [contradiction|]. split.
  - apply occurrences_unique.
  - intros ->. apply (occurrences_count c sub' (String.length s)). lia.
Qed.

End RoutingFacts.

(** C4. A summary takes the structured path exactly when it is longer than
    500 characters, or counts more than 2 [#], more than 3 [**] or more than
    3 bullet markers, or contains an escaped newline; it then goes through
    the tokenizer and the layout, and otherwise becomes one plain paragraph.
    The markers are counted as [str.count] does: the occurrences that do not
    overlap, found from left to right.  A summary of 501 characters is
    structured; one of 500 characters without any of the markers is plain. *)
Theorem structured_routing (lib : PyLib) (story : list Flowable) (text : string) :
  (forall sub n, sub <> EmptyString ->
     (Occurrences sub text n <-> n = Py.count sub text)) /\
  (is_structured text = true <->
   500 < String.length text \/ 2 < Py.count "#" text \/ 3 < Py.count "**" text \/
   3 < Py.count "- " text \/ exists a b, text = a +++ "\n" +++ b) /\
  (is_structured text = true ->
   add_summary lib story text =
     (story <-
        (if 10 <? List.length (_parse_markdown_enhanced text)
         then toc_elements <- _create_table_of_contents lib (_parse_markdown_enhanced text) ;;
              Returned (story ++ toc_elements)
         else Returned story) ;;
      layout lib story (_parse_markdown_enhanced text))) /\
  (is_structured text = false ->
   add_summary lib story text =
     (block <- make_paragraph lib (plain_summary text) summary_style ;;
      Returned (story ++ [block]))) /\
  (String.length text = 501 -> is_structured text = true) /\
  (String.length text = 500 ->
   Occurrences "#" text 0 -> Occurrences "**" text 0 -> Occurrences "- " text 0 ->
   (forall a b, text <> a +++ "\n" +++ b) ->
   is_structured text = false).
Proof.
  split; [intros sub n Hne; now apply occurrences_iff|].
  split.
  { rewrite is_structured_iff. 
    assert (Hc : Py.contains "\n" text = true <-> exists a b, text = a +++ "\n" +++ b).
    { split; [apply contains_elim|]. intros (a & b & ->). apply contains_intro. }
    rewrite Hc. tauto. }
  split; [intros H; unfold add_summary; now rewrite H|].
  split; [intros H; unfold add_summary; now rewrite H|].
  split.
  - intros H. apply is_structured_iff. left. lia.
  - intros Hl H1 H2 H3 H4. unfold is_structured.
    apply occurrences_iff in H1, H2, H3; try discriminate.
    rewrite Hl, <- H1, <- H2, <- H3.
    destruct (Py.contains "\n" text) eqn:E; [|reflexivity].
    apply contains_elim in E as (a & b & E). now destruct (H4 a b).
Qed.

Lemma structured_routing_witness :
  (Occurrences "#" "# One # Two # Three" 3 /\
   is_structured "# One # Two # Three" = true /\
   is_structured "# One # Two" = false) /\
  (Occurrences "**" "**a** and **b**" 4 /\
   is_structured "**a** and **b**" = true /\
   is_structured "**a** and *b*" = false) /\
  (Occurrences "- " "- a - b - c - d" 4 /\
   is_structured "- a - b - c - d" = true /\
   is_structured "- a - b - c" = false) /\
  is_structured (Py.repeat "a" 501) = true /\
  is_structured (Py.repeat "a" 500) = false /\
  add_summary sample_lib [] (Py.repeat "a" 500) =
    Returned [Paragraph (Py.repeat "a" 500) summary_style] /\
  add_summary sample_lib [] "a\nb" =
    layout sample_lib [] (_parse_markdown_enhanced "a\nb").
Proof.
  assert (Hiff : forall text, is_structured text = true <-> _)
    by (intros text; exact (proj1 (proj2 (structured_routing sample_lib [] text)))).
  assert (Hocc : forall text sub n, sub <> EmptyString ->
                   (Occurrences sub text n <-> n = Py.count sub text))
    by (intros text; exact (proj1 (structured_routing sample_lib [] text))).
  destruct (structured_routing sample_lib [] (Py.repeat "a" 501)) as (_ & _ & _ & _ & H501 & _).
  destruct (structured_routing sample_lib [] (Py.repeat "a" 500))
    as (_ & _ & _ & Hp & _ & H500).
  destruct (structured_routing sample_lib [] "a\nb") as (_ & _ & Hs & _).
  assert (E500 : is_structured (Py.repeat "a" 500) = false).
  { apply H500.
    - vm_compute. reflexivity.
    - apply Hocc; [discriminate | vm_compute; reflexivity].
    - apply Hocc; [discriminate | vm_compute; reflexivity].
    - apply Hocc; [discriminate | vm_compute; reflexivity].
    - intros a b E. apply (f_equal (Py.contains "\n")) in E.
      rewrite contains_intro in E. vm_compute in E. discriminate E. }
  split; [|split; [|split; [|split; [|split; [|split]]]]].
  - split; [|split].
    + apply Hocc; [discriminate | reflexivity].
    + apply Hiff. right. left. apply Nat.ltb_lt. reflexivity.
    + reflexivity.
  - split; [|split].
    + apply Hocc; [discriminate | reflexivity].
    + apply Hiff. right. right. left. apply Nat.ltb_lt. reflexivity.
    + reflexivity.
  - split; [|split].
    + apply Hocc; [discriminate | reflexivity].
    + apply Hiff. do 3 right. left. apply Nat.ltb_lt. reflexivity.
    + reflexivity.
  - apply H501. vm_compute. reflexivity.
  - exact E500.
  - rewrite (Hp E500). vm_compute. reflexivity.
  - rewrite Hs; [reflexivity|]. apply Hiff. do 4 right. now exists "a", "b".
Defined.

(** C5. A summary that takes the plain path becomes one paragraph in the
    summary style, whose text is the result of the plain branch: the first
    600 characters followed by three dots, 603 characters in all, for a text
    longer than 600 characters (650 characters give 603), and the text
    unchanged for one of 600 characters or fewer.  (The routing sends a
    summary to this branch only when it has 500 characters or fewer.) *)
Theorem plain_branch_truncation (lib : PyLib) (story : list Flowable) (text : string) :
  (is_structured text = false ->
   add_summary lib story text =
     (block <- make_paragraph lib (plain_summary text) summary_style ;;
      Returned (story ++ [block])) /\
   (forall story', add_summary lib story text = Returned story' ->
      story' = story ++ [Paragraph (plain_summary text) summary_style]) /\
   String.length text <= 500) /\
  (600 < String.length text ->
   plain_summary text = Py.take 600 text +++ "..." /\
   String.length (plain_summary text) = 603) /\
  (String.length text <= 600 -> plain_summary text = text).
Proof.
  split; [|split].
  - intros H. split; [|split; [|now apply plain_is_short]];
      unfold add_summary; rewrite H; [reflexivity|].
    intros story'. rewrite make_paragraph_spec.
    rewrite (checked_then lib [Paragraph (plain_summary text) summary_style] []
               (Paragraph (plain_summary text) summary_style)
               (fun block => Returned (story ++ [block]))
               (story ++ [Paragraph (plain_summary text) summary_style]) eq_refl).
    intros E. now apply checked_returned in E as [_ <-].
  - intros H. unfold plain_summary.
    apply Nat.ltb_lt in H as Hb. rewrite Hb. split; [reflexivity|].
    rewrite length_append_s, length_take by lia. reflexivity.
  - intros H. unfold plain_summary.
    apply Nat.ltb_ge in H. now rewrite H.
Qed.

Lemma plain_branch_truncation_witness :
  String.length (plain_summary (Py.repeat "a" 650)) = 603 /\
  plain_summary "short" = "short" /\
  add_summary sample_lib [] "short" = Returned [Paragraph "short" summary_style].
Proof.
  split; [|split].
  - apply (plain_branch_truncation sample_lib [] (Py.repeat "a" 650)). vm_compute. lia.
  - apply (plain_branch_truncation sample_lib [] "short"). vm_compute. lia.
  - rewrite (proj1 (proj1 (plain_branch_truncation sample_lib [] "short") eq_refl)).
    reflexivity.
Defined.

(** ** Date formatting *)

(** C6, on the code. Where one of the three patterns parses the string left
    after the removal of [GMT], the first such pattern gives the reformatted
    date.  Where none does, the formatter returns that string: the input
    without its [GMT] and stripped, which is not the original input whenever
    the input contained [GMT]. *)
Theorem format_date_unparsed_returns_cleaned (lib : PyLib) (date_string : string) :
  ((forall fmt, In fmt date_formats -> strptime lib (without_gmt date_string) fmt = None) ->
   _format_date lib date_string = without_gmt date_string) /\
  (forall parsed_date,
     strptime lib (without_gmt date_string) "%a, %d %b %Y %H:%M:%S" = Some parsed_date ->
     _format_date lib date_string = strftime lib parsed_date "%B %d, %Y").
Proof.
  unfold _format_date. fold (without_gmt date_string). cbv zeta. split.
  - intros H. unfold date_formats in *. simpl.
    rewrite !H by (simpl; tauto). reflexivity.
  - intros d Hd. simpl. now rewrite Hd.
Qed.

Lemma format_date_unparsed_returns_cleaned_witness :
  _format_date sample_lib "22 August 2025 10:00 GMT" = "22 August 2025 10:00".
Proof.
  exact (proj1 (format_date_unparsed_returns_cleaned sample_lib "22 August 2025 10:00 GMT")
               (fun _ _ => eq_refl)).
Defined.

(** ** The story of a report *)

Section StoryFacts.

Variable lib : PyLib.

Lemma for_each_spec {B : Type} (body : list Flowable -> B -> outcome (list Flowable))
    (req plan : B -> list Flowable) :
  (forall story x, body story x = checked lib (req x) (story ++ plan x)) ->
  forall items story,
    for_each body items story =
    checked lib (flat_map req items) (story ++ flat_map plan items).
Proof.
  intros H. induction items as [|x items IH]; intros story.
  - cbn [for_each flat_map]. now rewrite app_nil_r.
  - cbn [for_each flat_map]. rewrite H. apply checked_then.
    rewrite IH, <- app_assoc. reflexivity.
Qed.

Lemma add_source_spec (count : nat) (last_key : string) (story : list Flowable)
    (group : string * list Article) :
  add_source lib count last_key story group =
  checked lib (source_parts (flat_map requests) lib count last_key group)
          (story ++ source_parts (planned []) lib count last_key group).
Proof.
  destruct group as [src source_articles]. unfold add_source, source_parts.
  cbn [fst snd]. rewrite make_paragraph_spec.
  apply (checked_then lib [_]). cbv beta zeta.
  rewrite (for_each_spec _ _ _ (add_article_spec lib)).
  destruct ((1 <? count) && negb (String.eqb src last_key)).
  - apply checked_then. cbn [app]. rewrite <- !app_assoc. reflexivity.
  - rewrite !app_nil_r. cbn [bind]. unfold checked.
    destruct (first_error lib _); [reflexivity|].
    cbn [app]. rewrite <- !app_assoc. reflexivity.
Qed.

Lemma build_story_spec (d : list (string * list Article)) :
  build_story lib d =
  checked lib (story_parts (flat_map requests) lib d)
          (report_header lib ++ story_parts (planned []) lib d).
Proof.
  unfold build_story, story_parts. cbv zeta.
  apply (for_each_spec _ _ _ (add_source_spec _ _)).
Qed.

(** The only exception that leaves the construction of the story is the one
    of a paragraph that cannot be built. *)
Lemma build_story_raises (d : list (string * list Article)) (e : Exception) :
  build_story lib d = Raised e -> exists message, e = ParagraphError message.
Proof.
  rewrite build_story_spec. unfold checked.
  destruct (first_error lib _) as [e'|] eqn:E; [|discriminate].
  intros [= <-]. exact (first_error_is_paragraph_error lib _ _ E).
Qed.

Lemma group_by_source_raises (articles : list Article)
    (d : list (string * list Article)) (e : Exception) :
  group_by_source articles d = Raised e -> e = KeyError "source".
Proof.
  revert d. induction articles as [|x articles IH]; intros d; simpl; [discriminate|].
  destruct (source x); [apply IH|]. now intros [= <-].
Qed.

End StoryFacts.

(** ** Empty input *)

(** C7. [generate_report] raises its "no articles" error exactly for the
    empty article list, and then leaves the files as they were: the document
    is only built, and the file only written, after the check has passed. *)
Theorem generate_report_empty_input (lib : PyLib) (output_filename : string)
    (articles : list Article) (fs : FileSystem) :
  (snd (generate_report lib output_filename articles fs) =
     Raised (ValueError "No articles provided for PDF generation") <->
   articles = []) /\
  (articles = [] -> fst (generate_report lib output_filename articles fs) = fs) /\
  (forall path, snd (generate_report lib output_filename articles fs) = Returned path ->
     path = output_filename /\
     fst (generate_report lib output_filename articles fs) =
       doc_build output_filename (written_story (generate_report lib output_filename articles fs)) fs).
Proof.
  split; [split|split].
  - destruct articles as [|a rest]; [reflexivity|].
    unfold generate_report.
    destruct (group_by_source (a :: rest) []) as [d|e] eqn:E.
    + destruct (build_story lib d) as [story|e] eqn:Eb; [discriminate|].
      apply build_story_raises in Eb as [message ->]. discriminate.
    + apply group_by_source_raises in E as ->. discriminate.
  - now intros ->.
  - now intros ->.
  - intros path. destruct articles as [|a rest]; [discriminate|].
    unfold generate_report, written_story.
    destruct (group_by_source (a :: rest) []) as [d|e]; [|discriminate].
    destruct (build_story lib d) as [story|e]; [|discriminate].
    intros H. injection H as <-. split; reflexivity.
Qed.

Lemma generate_report_empty_input_witness :
  generate_report sample_lib "report.pdf" [] [] =
    ([], Raised (ValueError "No articles provided for PDF generation")) /\
  fst (generate_report sample_lib "report.pdf" [plain_article] []) =
    [("report.pdf",
      [Paragraph report_heading report_title_style;
       Paragraph (generated_prefix +++ "January 01, 2025 at 12:00 AM") report_date_style;
       Spacer 1 20;
       Paragraph "Solana News" source_header_style;
       Paragraph "Upgrade" title_style;
       Paragraph "Published: soon" date_style;
       Paragraph "Link: https://solana.com/news" link_style;
       Paragraph "A short note." summary_style;
       Spacer 1 15])].
Proof.
  destruct (generate_report_empty_input sample_lib "report.pdf" [] []) as (Hiff & Hfs & _).
  destruct (generate_report_empty_input sample_lib "report.pdf" [plain_article] [])
    as (_ & _ & Hret).
  split.
  - apply injective_projections; [apply Hfs; reflexivity | apply Hiff; reflexivity].
  - rewrite (proj2 (Hret "report.pdf" eq_refl)). reflexivity.
Defined.

(** ** Inline formatter *)

Section FormatterFacts.

Lemma match_needs_leading (p : list item) (c : ascii) :
  leading p = Some c ->
  forall prev a s, Ascii.eqb a c = false -> match_items p prev (String a s) = None.
Proof.
  induction p as [|it p IH]; [discriminate|].
  destruct it; simpl; try discriminate.
  - intros [= ->] prev a s Ha. now rewrite Ha.
  - intros Hl prev a s Ha. destruct prev as [b|].
    + destruct (Ascii.eqb b c0); [reflexivity | now apply IH].
    + now apply IH.
Qed.

Lemma sub_from_absent (p : list item) (repl : list piece) (c : ascii) :
  leading p = Some c ->
  forall s prev, has_char c s = false -> sub_from p repl prev s 0 = s.
Proof.
  intros Hl. induction s as [|a s IH]; intros prev H; [reflexivity|].
  cbn [has_char] in H. apply orb_false_iff in H as [Ha Hs].
  cbn [sub_from]. rewrite (match_needs_leading p c Hl prev a s Ha).
  now rewrite IH.
Qed.

Lemma sub_absent (p : list item) (repl : list piece) (c : ascii) (s : string) :
  leading p = Some c -> has_char c s = false -> Re.sub p repl s = s.
Proof. intros Hl H. unfold Re.sub. now apply (sub_from_absent p repl c). Qed.

(** A text without markers passes through the formatter unchanged. *)
Lemma process_markdown_text_marker_free (text : string) :
  marker_free text = true -> _process_markdown_text text = text.
Proof.
  unfold marker_free. intros H.
  apply andb_true_iff in H as [H Hbr]. apply andb_true_iff in H as [H Hbt].
  apply andb_true_iff in H as [Hst Hus].
  apply negb_true_iff in Hbr, Hbt, Hst, Hus.
  unfold _process_markdown_text. destruct (negb (Py.nonempty text)); [reflexivity|].
  unfold _process_bold_text, _process_italic_text, _process_code_text. cbv zeta.
  rewrite (sub_absent bold4_re bold_repl star text eq_refl Hst).
  rewrite (sub_absent bold2_re bold_repl star text eq_refl Hst).
  rewrite (sub_absent bold_us_re bold_repl underscore text eq_refl Hus).
  rewrite (sub_absent italic_star_re italic_repl star text eq_refl Hst).
  rewrite (sub_absent italic_us_re italic_repl underscore text eq_refl Hus).
  rewrite (sub_absent code_re code_repl backtick text eq_refl Hbt).
  apply (sub_absent link_re link_repl "["%char text eq_refl Hbr).
Qed.

End FormatterFacts.

(** ** Header lines *)

Section HeaderFacts.

Lemma repeat_hash_succ (n : nat) :
  Py.repeat "#" (S n) = String hash (Py.repeat "#" n).
Proof. reflexivity. Qed.

Lemma contains_cons_other (o c : ascii) (old s : string) :
  Ascii.eqb o c = false ->
  Py.contains (String o old) (String c s) = Py.contains (String o old) s.
Proof.
  intros H. cbn [Py.contains]. rewrite prefix_cons, H. reflexivity.
Qed.

(** An escape sequence cannot start inside the marker prefix of a header. *)
Lemma contains_header_line (o : ascii) (old : string) (n : nat) (X : string) :
  Ascii.eqb o hash = false -> Ascii.eqb o " "%char = false ->
  Py.contains (String o old) (Py.repeat "#" n +++ " " +++ X) =
  Py.contains (String o old) X.
Proof.
  intros Hh Hs. induction n as [|n IH].
  - cbn [Py.repeat append]. now apply contains_cons_other.
  - rewrite repeat_hash_succ. cbn [append]. now rewrite contains_cons_other.
Qed.

Lemma replace_absent (old new s : string) :
  Py.contains old s = false -> Py.replace old new s = s.
Proof.
  unfold Py.replace. induction s as [|c s IH]; [reflexivity|].
  cbn [Py.contains Py.replace_from]. intros H.
  apply orb_false_iff in H as [Hp Hc]. rewrite Hp. now rewrite IH.
Qed.

Lemma has_char_append (c : ascii) (a b : string) :
  has_char c (a +++ b) = has_char c a || has_char c b.
Proof.
  induction a as [|x a IH]; simpl; [reflexivity|]. now rewrite IH, orb_assoc.
Qed.

Lemma has_char_hashes (c : ascii) (n : nat) :
  Ascii.eqb hash c = false -> has_char c (Py.repeat "#" n) = false.
Proof.
  intros H. induction n as [|n IH]; [reflexivity|].
  rewrite repeat_hash_succ. cbn [has_char]. now rewrite H, IH.
Qed.

Lemma split_absent (sep : ascii) (s : string) :
  has_char sep s = false -> Py.split sep s = [s].
Proof.
  induction s as [|c s IH]; [reflexivity|].
  cbn [has_char Py.split]. intros H. apply orb_false_iff in H as [Hc Hs].
  now rewrite Hc, (IH Hs).
Qed.

Lemma count_hashes_line (n : nat) (rest : string) :
  count_hashes (Py.repeat "#" n +++ String " " rest) = n.
Proof.
  induction n as [|n IH]; [reflexivity|].
  rewrite repeat_hash_succ. cbn [append count_hashes].
  rewrite Ascii.eqb_refl. now rewrite IH.
Qed.

Lemma count_hashes_only (n : nat) : count_hashes (Py.repeat "#" n) = n.
Proof.
  induction n as [|n IH]; [reflexivity|].
  rewrite repeat_hash_succ. cbn [count_hashes]. rewrite Ascii.eqb_refl. now rewrite IH.
Qed.

Lemma drop_hashes (n : nat) (rest : string) :
  Py.drop n (Py.repeat "#" n +++ rest) = rest.
Proof.
  induction n as [|n IH]; [reflexivity|].
  rewrite repeat_hash_succ. cbn [append Py.drop]. exact IH.
Qed.

Lemma rstrip_hashes_space (n : nat) :
  Py.rstrip (Py.repeat "#" (S n) +++ " ") = Py.repeat "#" (S n).
Proof.
  induction n as [|n IH]; [reflexivity|].
  rewrite (repeat_hash_succ (S n)).
  change (String hash (Py.repeat "#" (S n)) +++ " ")
    with (String hash (Py.repeat "#" (S n) +++ " ")).
  rewrite rstrip_cons; rewrite IH; reflexivity.
Qed.

Lemma startswith_hash (n : nat) (rest : string) :
  Py.startswith "#" (Py.repeat "#" (S n) +++ rest) = true.
Proof.
  unfold Py.startswith. rewrite repeat_hash_succ. cbn [append].
  rewrite prefix_cons. now destruct (Py.repeat "#" n +++ rest).
Qed.

(** A string that [strip] leaves alone has no white space at either end. *)
Lemma strip_fixed (X : string) :
  Py.strip X = X -> Py.lstrip X = X /\ Py.rstrip X = X.
Proof.
  unfold Py.strip. intros H.
  destruct (lstrip_split X) as [w1 H1]. destruct (rstrip_split (Py.lstrip X)) as [w2 H2].
  assert (Hl : Py.lstrip X = X).
  { rewrite H in H2.
    assert (Hlen : String.length w1 = 0).
    { apply (f_equal String.length) in H1, H2.
      rewrite length_append_s in H1, H2. lia. }
    destruct w1; [|discriminate]. now symmetry. }
  split; [exact Hl|]. now rewrite Hl in H.
Qed.

Lemma strip_header_line (n : nat) (X : string) :
  Py.strip X = X ->
  Py.strip (Py.repeat "#" (S n) +++ " " +++ X) =
  if Py.nonempty X then Py.repeat "#" (S n) +++ " " +++ X else Py.repeat "#" (S n).
Proof.
  intros HX. destruct (strip_fixed X HX) as [_ Hr].
  unfold Py.strip.
  assert (Hl : forall r, Py.lstrip (Py.repeat "#" (S n) +++ r) = Py.repeat "#" (S n) +++ r)
    by reflexivity.
  rewrite Hl. destruct X as [|c X].
  - cbn [Py.nonempty]. apply rstrip_hashes_space.
  - cbn [Py.nonempty]. rewrite <- append_assoc_s.
    rewrite rstrip_append; rewrite Hr; reflexivity.
Qed.

End HeaderFacts.

(** C3, as the code has it. A line of [n] hash signs ([n] at least 1), a
    space and a text [X] (free of surrounding white space, line breaks and
    escape sequences) is tokenized to one header with text [X] and level
    [n]: the tokenizer does not clamp the level.  The layout gives every
    level from 4 upwards the smallest header style, and the table of
    contents gives every level from 3 upwards the long-content style. *)
Theorem header_line_level (n : nat) (X : string) :
  1 <= n ->
  Py.strip X = X ->
  has_char newline X = false ->
  Py.contains "\n" X = false ->
  Py.contains "\t" X = false ->
  _parse_markdown_enhanced (Py.repeat "#" n +++ " " +++ X) =
    [header X n (_detect_section_type X)] /\
  (4 <= n -> header_style n = h4_style /\ toc_style n = long_content_style).
Proof.
  intros Hn HX Hnl Hen Het. split.
  - destruct n as [|n]; [lia|]. clear Hn.
    unfold _parse_markdown_enhanced.
    assert (Hne : Py.nonempty (Py.repeat "#" (S n) +++ " " +++ X) = true) by reflexivity.
    rewrite Hne. cbn [negb]. cbv zeta.
    rewrite (replace_absent "\n")
      by (rewrite contains_header_line by reflexivity; exact Hen).
    rewrite (replace_absent "\t")
      by (rewrite contains_header_line by reflexivity; exact Het).
    rewrite split_absent.
    2:{ rewrite !has_char_append, has_char_hashes by reflexivity.
        rewrite Hnl. reflexivity. }
    cbn [fold_left]. unfold parse_line. cbv zeta.
    rewrite (strip_header_line n X HX).
    destruct X as [|c X].
    + cbn [Py.nonempty].
      assert (E1 : Py.nonempty (Py.repeat "#" (S n)) = true) by reflexivity.
      assert (E2 : Py.startswith "#" (Py.repeat "#" (S n)) = true).
      { rewrite <- (append_empty_r (Py.repeat "#" (S n))). apply startswith_hash. }
      rewrite E1, E2. cbn [negb flush_paragraph Py.nonempty app].
      rewrite count_hashes_only.
      assert (E3 : Py.drop (S n) (Py.repeat "#" (S n)) = "").
      { rewrite <- (append_empty_r (Py.repeat "#" (S n))). apply drop_hashes. }
      rewrite E3. reflexivity.
    + cbn [Py.nonempty]. rewrite Hne.
      assert (E2 : Py.startswith "#" (Py.repeat "#" (S n) +++ " " +++ String c X) = true)
        by apply startswith_hash.
      rewrite E2. cbn [negb flush_paragraph Py.nonempty app].
      change (" " +++ String c X) with (String " " (String c X)).
      rewrite count_hashes_line, drop_hashes.
      assert (E3 : Py.strip (String " " (String c X)) = Py.strip (String c X)) by reflexivity.
      rewrite E3, HX. reflexivity.
  - intros H4. do 4 (destruct n as [|n]; [lia|]). split; reflexivity.
Qed.

Lemma header_line_level_witness :
  _parse_markdown_enhanced "### Research Timeline" =
    [header "Research Timeline" 3 timeline] /\
  _parse_markdown_enhanced "###### X" = [header "X" 6 general] /\
  header_style 6 = h4_style.
Proof.
  split; [|split].
  - exact (proj1 (header_line_level 3 "Research Timeline" ltac:(lia) eq_refl eq_refl
                    eq_refl eq_refl)).
  - exact (proj1 (header_line_level 6 "X" ltac:(lia) eq_refl eq_refl eq_refl eq_refl)).
  - exact (proj1 (proj2 (header_line_level 6 "X" ltac:(lia) eq_refl eq_refl eq_refl eq_refl)
                    ltac:(lia))).
Defined.

(** C3 as stated fails on the clamp: five hash signs give a header of level
    5, and the table of contents indents its entry by that level. *)
Lemma header_level_clamp_counterexample :
  _parse_markdown_enhanced "##### X" = [header "X" 5 general] /\
  _parse_markdown_enhanced "##### X" <> [header "X" 4 general] /\
  toc_entries (_parse_markdown_enhanced "##### X") <>
    toc_entries [header "X" 4 general].
Proof.
  split; [reflexivity|]. split; vm_compute; intros H; discriminate H.
Qed.

(** ** Idempotence of the bold and italic passes *)

Section ScanFacts.

Variable p : list item.
Variable repl : list piece.

Lemma sub_from_skip (s : string) :
  forall n prev,
    sub_from p repl prev s n =
    sub_from p repl (prev_after prev (Py.take n s)) (Py.drop n s) 0.
Proof.
  induction s as [|c s IH]; intros n prev.
  - now destruct n.
  - destruct n as [|n]; [reflexivity|].
    cbn [sub_from Py.take Py.drop prev_after]. apply IH.
Qed.

Lemma sub_from_step (prev : option ascii) (c : ascii) (s' : string) :
  sub_from p repl prev (String c s') 0 =
  match match_items p prev (String c s') with
  | Some (caps, S n) =>
      expand repl caps +++
      sub_from p repl (prev_after (Some c) (Py.take n s')) (Py.drop n s') 0
  | Some (caps, O) => expand repl caps +++ String c (sub_from p repl (Some c) s' 0)
  | None => String c (sub_from p repl (Some c) s' 0)
  end.
Proof.
  cbn [sub_from]. destruct (match_items p prev (String c s')) as [[caps [|n]]|];
    try reflexivity.
  now rewrite sub_from_skip.
Qed.

Lemma sub_from_match (prev : option ascii) (s : string) (caps : list string) (n : nat) :
  match_items p prev s = Some (caps, n) -> 0 < n -> Py.nonempty s = true ->
  sub_from p repl prev s 0 =
  expand repl caps +++ sub_from p repl (prev_after prev (Py.take n s)) (Py.drop n s) 0.
Proof.
  intros H Hn Hs. destruct s as [|c s']; [discriminate|].
  destruct n as [|n]; [lia|]. rewrite sub_from_step, H. reflexivity.
Qed.

(** A scan that finds no match leaves the text as it is. *)
Lemma sub_from_quiet (s : string) :
  forall prev,
    (forall a b, s = a +++ b -> match_items p (prev_after prev a) b = None) ->
    sub_from p repl prev s 0 = s.
Proof.
  induction s as [|c s IH]; intros prev H; [reflexivity|].
  cbn [sub_from]. pose proof (H "" (String c s) eq_refl) as H0.
  cbn [prev_after] in H0. rewrite H0.
  rewrite IH; [reflexivity|].
  intros a b ->. apply (H (String c a) b). reflexivity.
Qed.

End ScanFacts.

Section BoldFacts.

Lemma match_lits (w : string) (p' : list item) :
  forall prev s,
    match_items (lits w ++ p') prev s =
    if prefix w s
    then add_len (String.length w)
           (match_items p' (prev_after prev w) (Py.drop (String.length w) s))
    else None.
Proof.
  induction w as [|c w IH]; intros prev s.
  - rewrite prefix_nil. cbn [lits app String.length Py.drop prev_after].
    now destruct (match_items p' prev s) as [[caps n]|].
  - cbn [lits app match_items]. destruct s as [|a s]; [reflexivity|].
    rewrite prefix_cons. rewrite (Ascii.eqb_sym c a).
    destruct (Ascii.eqb a c) eqn:E; [|reflexivity].
    apply Ascii.eqb_eq in E as ->. cbn [andb]. rewrite IH.
    cbn [String.length Py.drop prev_after].
    destruct (prefix w s); [|reflexivity].
    now destruct (match_items p' (prev_after (Some c) w) (Py.drop (String.length w) s))
      as [[caps n]|].
Qed.

Lemma lazy_star_spec (w : string) (k : option ascii -> string -> result) :
  (forall prev u, k prev u = if prefix w u then Some ([], String.length w) else None) ->
  forall u prev,
    lazy_star Dot k prev u =
    match lazy_split w u with
    | Some g => Some ([g], String.length g + String.length w)
    | None => None
    end.
Proof.
  intros Hk. induction u as [|a u IH]; intros prev.
  - cbn [lazy_star lazy_split]. rewrite Hk. now destruct (prefix w "").
  - cbn [lazy_star lazy_split]. rewrite Hk.
    destruct (prefix w (String a u)); [reflexivity|].
    cbn [open_group in_cls]. unfold newline.
    destruct (Ascii.eqb a "010"); [reflexivity|]. cbn [negb].
    rewrite IH. now destruct (lazy_split w u).
Qed.

Lemma bold_match_spec (w : string) (prev : option ascii) (s : string) :
  match_items (bold_re_of w) prev s =
  if prefix w s
  then match lazy_split w (Py.drop (String.length w) s) with
       | Some g => Some ([g], String.length w + (String.length g + String.length w))
       | None => None
       end
  else None.
Proof.
  unfold bold_re_of. rewrite match_lits. destruct (prefix w s); [|reflexivity].
  cbn [app match_items].
  rewrite (lazy_star_spec w).
  - now destruct (lazy_split w (Py.drop (String.length w) s)).
  - intros prev' u. rewrite <- (app_nil_r (lits w)), match_lits.
    destruct (prefix w u); [|reflexivity]. cbn [match_items add_len].
    now rewrite Nat.add_0_r.
Qed.

Lemma bold_match_none (w : string) (prev : option ascii) (s : string) :
  match_items (bold_re_of w) prev s = None <-> bold_match w s = false.
Proof.
  rewrite bold_match_spec. unfold bold_match, on_line.
  destruct (prefix w s); [|tauto].
  destruct (lazy_split w (Py.drop (String.length w) s)); cbn; split; congruence.
Qed.

End BoldFacts.

Lemma tag_char_spec (a : ascii) :
  tag_char a = true ->
  Ascii.eqb a star = false /\ Ascii.eqb a underscore = false /\
  Ascii.eqb a backtick = false /\ Ascii.eqb a newline = false /\
  Ascii.eqb a "["%char = false.
Proof.
  unfold tag_char.
  destruct (Ascii.eqb a star), (Ascii.eqb a underscore), (Ascii.eqb a backtick),
    (Ascii.eqb a newline), (Ascii.eqb a "["%char); cbn; intros H;
    try discriminate H; repeat split; reflexivity.
Qed.

Section RetagFacts.

Variable mk : ascii -> bool.
Hypothesis mk_newline : mk newline = false.

Lemma Retag_keep_all (x s s' : string) :
  Retag mk s s' -> Retag mk (x +++ s) (x +++ s').
Proof. intros H. induction x as [|c x IH]; [exact H | now apply Retag_keep]. Qed.

Lemma Retag_tag_words (m g s s' : string) :
  Py.nonempty m = true -> all_chars mk m = true ->
  Py.nonempty g = true -> all_chars tag_char g = true ->
  Retag mk s s' -> Retag mk (m +++ s) (g +++ s').
Proof.
  destruct m as [|a m]; [discriminate|]. destruct g as [|b g]; [discriminate|].
  intros _ Hm _ Hg H. now apply Retag_tag.
Qed.

Lemma Retag_prefix (w : string) :
  all_chars marker_char w = true ->
  forall s s', Retag mk s s' -> prefix w s' = true ->
    prefix w s = true /\
    Retag mk (Py.drop (String.length w) s) (Py.drop (String.length w) s').
Proof.
  induction w as [|c w IH]; intros Hw s s' HR Hp.
  - rewrite prefix_nil. now split.
  - cbn [all_chars] in Hw. apply andb_true_iff in Hw as [Hc Hw].
    destruct HR as [|c0 s0 s0' HR|a m b g s0 s0' Hm Hg HR].
    + discriminate.
    + rewrite prefix_cons in Hp. apply andb_true_iff in Hp as [Hcc Hp].
      rewrite prefix_cons, Hcc. cbn [andb String.length Py.drop].
      now apply IH.
    + exfalso. cbn [append] in Hp. rewrite prefix_cons in Hp.
      apply andb_true_iff in Hp as [Hcb _]. apply Ascii.eqb_eq in Hcb as ->.
      cbn [all_chars] in Hg. apply andb_true_iff in Hg as [Hb _].
      unfold marker_char in Hc. rewrite Hb in Hc. discriminate.
Qed.

Lemma on_line_cons (w : string) (a : ascii) (u : string) :
  on_line w (String a u) =
  prefix w (String a u) || (negb (Ascii.eqb a newline) && on_line w u).
Proof.
  unfold on_line. cbn [lazy_split].
  destruct (prefix w (String a u)); [reflexivity|].
  destruct (Ascii.eqb a newline); [reflexivity|].
  now destruct (lazy_split w u).
Qed.

Lemma on_line_tag (w t u : string) :
  marker_word w = true -> all_chars tag_char t = true ->
  on_line w (t +++ u) = on_line w u.
Proof.
  unfold marker_word. intros Hw Ht. apply andb_true_iff in Hw as [Hne Hw].
  destruct w as [|c w]; [discriminate|].
  cbn [all_chars] in Hw. apply andb_true_iff in Hw as [Hc _].
  induction t as [|x t IH]; [reflexivity|].
  cbn [all_chars] in Ht. apply andb_true_iff in Ht as [Hx Ht].
  cbn [append]. rewrite on_line_cons, prefix_cons.
  assert (E : Ascii.eqb c x = false).
  { destruct (Ascii.eqb c x) eqn:E; [|reflexivity].
    apply Ascii.eqb_eq in E as ->. unfold marker_char in Hc. rewrite Hx in Hc.
    discriminate. }
  rewrite E. cbn [andb orb].
  assert (En : Ascii.eqb x newline = false) by apply (tag_char_spec x Hx).
  rewrite En. cbn [negb andb]. now apply IH.
Qed.

Lemma on_line_marker (w m u : string) :
  all_chars mk m = true -> on_line w u = true -> on_line w (m +++ u) = true.
Proof.
  intros Hm Hu. induction m as [|x m IH]; [exact Hu|].
  cbn [all_chars] in Hm. apply andb_true_iff in Hm as [Hx Hm].
  cbn [append]. rewrite on_line_cons, (IH Hm).
  assert (En : Ascii.eqb x newline = false).
  { destruct (Ascii.eqb x newline) eqn:E; [|reflexivity].
    apply Ascii.eqb_eq in E as ->. congruence. }
  rewrite En. apply orb_true_r.
Qed.

Lemma Retag_on_line (w : string) :
  marker_word w = true ->
  forall s s', Retag mk s s' -> on_line w s' = true -> on_line w s = true.
Proof.
  intros Hw s s' HR. pose proof Hw as Hw'. unfold marker_word in Hw'.
  apply andb_true_iff in Hw' as [_ Hwc].
  induction HR as [|c s s' HR IH|a m b g s s' Hm Hg HR IH]; intros H.
  - exact H.
  - rewrite on_line_cons in H. rewrite on_line_cons.
    apply orb_true_iff in H as [H|H].
    + destruct (Retag_prefix w Hwc _ _ (Retag_keep mk c s s' HR) H) as [Hp _].
      now rewrite Hp.
    + apply andb_true_iff in H as [Hc H]. rewrite Hc, (IH H). apply orb_true_r.
  - rewrite (on_line_tag w (String b g) s' Hw Hg) in H.
    apply (on_line_marker w (String a m) s Hm). now apply IH.
Qed.

Lemma Retag_bold_match (w s s' : string) :
  marker_word w = true -> Retag mk s s' ->
  bold_match w s' = true -> bold_match w s = true.
Proof.
  intros Hw HR H. unfold bold_match in *. apply andb_true_iff in H as [Hp Hl].
  pose proof Hw as Hw'. unfold marker_word in Hw'.
  apply andb_true_iff in Hw' as [_ Hwc].
  destruct (Retag_prefix w Hwc s s' HR Hp) as [Hp' HR'].
  rewrite Hp'. now rewrite (Retag_on_line w Hw _ _ HR' Hl).
Qed.

Lemma bold_match_tag (w : string) (b : ascii) (u : string) :
  marker_word w = true -> tag_char b = true -> bold_match w (String b u) = false.
Proof.
  unfold marker_word, bold_match. intros Hw Hb.
  apply andb_true_iff in Hw as [Hne Hw]. destruct w as [|c w]; [discriminate|].
  cbn [all_chars] in Hw. apply andb_true_iff in Hw as [Hc _].
  rewrite prefix_cons.
  destruct (Ascii.eqb c b) eqn:E; [|reflexivity].
  apply Ascii.eqb_eq in E as ->. unfold marker_char in Hc. rewrite Hb in Hc.
  discriminate.
Qed.

Lemma bold_quiet_tag (w t u : string) :
  marker_word w = true -> all_chars tag_char t = true ->
  bold_quiet w u = true -> bold_quiet w (t +++ u) = true.
Proof.
  intros Hw Ht Hu. induction t as [|x t IH]; [exact Hu|].
  cbn [all_chars] in Ht. apply andb_true_iff in Ht as [Hx Ht].
  cbn [append bold_quiet]. rewrite (bold_match_tag w x _ Hw Hx). now apply IH.
Qed.

Lemma bold_quiet_tail (w x u : string) :
  bold_quiet w (x +++ u) = true -> bold_quiet w u = true.
Proof.
  induction x as [|c x IH]; [trivial|].
  cbn [append bold_quiet]. intros H. apply andb_true_iff in H as [_ H]. now apply IH.
Qed.

(** Replacing marker runs by tags cannot make a bold pattern match. *)
Lemma Retag_bold_quiet (w : string) :
  marker_word w = true ->
  forall s s', Retag mk s s' -> bold_quiet w s = true -> bold_quiet w s' = true.
Proof.
  intros Hw s s' HR.
  induction HR as [|c s s' HR IH|a m b g s s' Hm Hg HR IH]; intros H.
  - exact H.
  - cbn [bold_quiet] in *. apply andb_true_iff in H as [Hm Hq].
    rewrite (IH Hq), andb_true_r.
    destruct (bold_match w (String c s')) eqn:E; [|reflexivity].
    rewrite (Retag_bold_match w _ _ Hw (Retag_keep mk c s s' HR) E) in Hm.
    discriminate.
  - apply (bold_quiet_tag w (String b g) s' Hw Hg).
    apply IH. exact (bold_quiet_tail w (String a m) s H).
Qed.

End RetagFacts.

Section BoldPass.

Variable w : string.
Hypothesis w_marker : marker_word w = true.

Lemma drop_append_length (a b : string) : Py.drop (String.length a) (a +++ b) = b.
Proof. induction a as [|c a IH]; [reflexivity | exact IH]. Qed.

Lemma lazy_split_sound (u : string) :
  forall g, lazy_split w u = Some g ->
    u = g +++ w +++ Py.drop (String.length g + String.length w) u.
Proof.
  induction u as [|a u IH]; intros g; cbn [lazy_split].
  - destruct (prefix w "") eqn:E; [|discriminate]. intros [= <-].
    apply prefix_split in E as [b E]. cbn [append String.length Nat.add].
    rewrite E at 2. now rewrite drop_append_length.
  - destruct (prefix w (String a u)) eqn:E.
    + intros [= <-]. apply prefix_split in E as [b E].
      cbn [append String.length Nat.add]. rewrite E at 2.
      now rewrite drop_append_length.
    + destruct (Ascii.eqb a newline); [discriminate|].
      destruct (lazy_split w u) as [g'|]; [|discriminate].
      intros [= <-]. cbn [append String.length Nat.add Py.drop].
      now rewrite <- (IH g' eq_refl).
Qed.

Lemma prefix_append_r (x z : string) : prefix w x = true -> prefix w (x +++ z) = true.
Proof.
  intros H. apply prefix_split in H as [b ->].
  rewrite append_assoc_s. apply prefix_append.
Qed.

Lemma prefix_within (x : string) (b : ascii) (t : string) :
  tag_char b = true ->
  forall v, all_chars marker_char v = true ->
    prefix v (x +++ String b t) = true -> prefix v x = true.
Proof.
  intros Hb. induction x as [|a x IH]; intros v Hv H.
  - destruct v as [|c v]; [reflexivity|]. exfalso.
    cbn [append] in H. rewrite prefix_cons in H.
    apply andb_true_iff in H as [Hc _]. apply Ascii.eqb_eq in Hc as ->.
    cbn [all_chars] in Hv. apply andb_true_iff in Hv as [Hc _].
    unfold marker_char in Hc. rewrite Hb in Hc. discriminate.
  - destruct v as [|c v]; [reflexivity|].
    cbn [append] in H. rewrite prefix_cons in *.
    apply andb_true_iff in H as [Hc H]. rewrite Hc. cbn [andb].
    cbn [all_chars] in Hv. apply andb_true_iff in Hv as [_ Hv]. now apply IH.
Qed.

(** The captured group holds no occurrence of the marker, so none shows in
    front of the closing tag. *)
Lemma bold_quiet_group (b : ascii) (Y : string) :
  tag_char b = true ->
  bold_quiet w (String b Y) = true ->
  forall u g, lazy_split w u = Some g ->
    bold_quiet w (g +++ String b Y) = true.
Proof.
  intros Hb HY. pose proof w_marker as Hw. unfold marker_word in Hw.
  apply andb_true_iff in Hw as [_ Hwc].
  induction u as [|a u IH]; intros g; cbn [lazy_split].
  - destruct (prefix w ""); [|discriminate]. now intros [= <-].
  - destruct (prefix w (String a u)) eqn:E; [now intros [= <-]|].
    destruct (Ascii.eqb a newline); [discriminate|].
    destruct (lazy_split w u) as [g'|] eqn:El; [|discriminate].
    intros [= <-]. cbn [append bold_quiet]. rewrite (IH g' eq_refl), andb_true_r.
    unfold bold_match.
    destruct (prefix w (String a (g' +++ String b Y))) eqn:Ep; [|reflexivity].
    exfalso.
    change (String a (g' +++ String b Y)) with (String a g' +++ String b Y) in Ep.
    apply (prefix_within (String a g') b Y Hb w Hwc) in Ep.
    rewrite (lazy_split_sound u g' El) in E.
    change (String a (g' +++ w +++ Py.drop (String.length g' + String.length w) u))
      with (String a g' +++ w +++ Py.drop (String.length g' + String.length w) u) in E.
    rewrite (prefix_append_r _ _ Ep) in E. discriminate.
Qed.

Lemma bold_match_empty : bold_match w "" = false.
Proof.
  pose proof w_marker as Hw. unfold marker_word in Hw.
  apply andb_true_iff in Hw as [Hne _]. unfold bold_match.
  destruct w; [discriminate | reflexivity].
Qed.

(** What the bold pass does at a position where its pattern matches. *)
Lemma bold_step_match (prev : option ascii) (s g : string) :
  prefix w s = true ->
  lazy_split w (Py.drop (String.length w) s) = Some g ->
  exists rest prev',
    s = w +++ g +++ w +++ rest /\
    sub_from (bold_re_of w) bold_repl prev s 0 =
      "<b>" +++ g +++ "</b>" +++ sub_from (bold_re_of w) bold_repl prev' rest 0.
Proof.
  intros Hp Hl.
  pose proof w_marker as Hw. unfold marker_word in Hw.
  apply andb_true_iff in Hw as [Hne _].
  pose proof (lazy_split_sound _ _ Hl) as Hs.
  pose proof Hp as Hp'. apply prefix_split in Hp' as [b Hb].
  rewrite Hb, drop_append_length in Hs.
  set (rest := Py.drop (String.length g + String.length w) b) in *.
  set (n := String.length w + (String.length g + String.length w)).
  assert (Es : s = w +++ g +++ w +++ rest) by (rewrite Hb, Hs at 1; reflexivity).
  exists rest, (prev_after prev (Py.take n s)).
  split; [exact Es|].
  assert (Hm : match_items (bold_re_of w) prev s = Some ([g], n)).
  { rewrite bold_match_spec, Hp, Hl. reflexivity. }
  rewrite (sub_from_match _ bold_repl prev s [g] n Hm).
  - cbn [expand bold_repl nth Nat.sub]. rewrite append_empty_r.
    rewrite !append_assoc_s. do 3 f_equal.
    f_equal. rewrite Es at 1.
    rewrite <- (append_assoc_s g), <- (append_assoc_s w).
    replace n with (String.length (w +++ g +++ w)).
    + apply drop_append_length.
    + unfold n. now rewrite !length_append_s.
  - unfold n. destruct w; [discriminate | cbn; lia].
  - rewrite Es. destruct w; [discriminate | reflexivity].
Qed.

Lemma bold_step_skip (prev : option ascii) (c : ascii) (s' : string) :
  bold_match w (String c s') = false ->
  sub_from (bold_re_of w) bold_repl prev (String c s') 0 =
  String c (sub_from (bold_re_of w) bold_repl (Some c) s' 0).
Proof.
  intros H. apply (bold_match_none w prev) in H.
  rewrite sub_from_step, H. reflexivity.
Qed.

Lemma bold_match_cases (s : string) :
  bold_match w s = false \/
  exists g, prefix w s = true /\ lazy_split w (Py.drop (String.length w) s) = Some g.
Proof.
  unfold bold_match, on_line. destruct (prefix w s); [|now left].
  destruct (lazy_split w (Py.drop (String.length w) s)) as [g|]; [|now left].
  right. now exists g.
Qed.

Variable mk : ascii -> bool.
Hypothesis mk_word : all_chars mk w = true.

(** The bold pass replaces marker words by tags and keeps the rest. *)
Lemma bold_retag (n : nat) :
  forall s, String.length s <= n ->
  forall prev, Retag mk s (sub_from (bold_re_of w) bold_repl prev s 0).
Proof.
  pose proof w_marker as Hw. unfold marker_word in Hw.
  apply andb_true_iff in Hw as [Hne _].
  induction n as [|n IH]; intros s Hlen prev.
  - destruct s; [constructor | cbn in Hlen; lia].
  - destruct s as [|c s']; [constructor|].
    destruct (bold_match_cases (String c s')) as [H|(g & Hp & Hl)].
    + rewrite (bold_step_skip prev c s' H). constructor. apply IH. cbn in Hlen. lia.
    + destruct (bold_step_match prev _ g Hp Hl) as (rest & prev' & Hs & ->).
      rewrite Hs. apply (Retag_tag_words mk w "<b>"); try reflexivity; try assumption.
      apply Retag_keep_all.
      apply (Retag_tag_words mk w "</b>"); try reflexivity; try assumption.
      apply IH. apply (f_equal String.length) in Hs.
      rewrite !length_append_s in Hs.
      assert (0 < String.length w) by (destruct w; [discriminate | cbn; lia]).
      cbn [String.length] in *. lia.
Qed.

End BoldPass.

Lemma marker_char_newline : marker_char newline = false.
Proof. reflexivity. Qed.

(** After the bold pass no bold pattern with the same marker matches. *)
Lemma bold_self_quiet (w : string) :
  marker_word w = true ->
  forall n s, String.length s <= n ->
  forall prev, bold_quiet w (sub_from (bold_re_of w) bold_repl prev s 0) = true.
Proof.
  intros Hw. pose proof Hw as Hw'. unfold marker_word in Hw'.
  apply andb_true_iff in Hw' as [Hne Hwc].
  induction n as [|n IH]; intros s Hlen prev.
  - destruct s; [|cbn in Hlen; lia]. cbn [sub_from bold_quiet].
    now rewrite (bold_match_empty w Hw).
  - destruct s as [|c s'].
    { cbn [sub_from bold_quiet]. now rewrite (bold_match_empty w Hw). }
    destruct (bold_match_cases w (String c s')) as [H|(g & Hp & Hl)].
    + rewrite (bold_step_skip w prev c s' H). cbn [bold_quiet].
      rewrite IH by (cbn in Hlen; lia). rewrite andb_true_r.
      destruct (bold_match w (String c (sub_from (bold_re_of w) bold_repl (Some c) s' 0)))
        eqn:E; [|reflexivity].
      assert (HR : Retag marker_char (String c s')
                     (String c (sub_from (bold_re_of w) bold_repl (Some c) s' 0))).
      { constructor. apply (bold_retag w Hw marker_char Hwc (String.length s')). lia. }
      rewrite (Retag_bold_match marker_char marker_char_newline w _ _ Hw HR E) in H.
      discriminate.
    + destruct (bold_step_match w Hw prev _ g Hp Hl) as (rest & prev' & Hs & ->).
      apply (bold_quiet_tag w "<b>" _ Hw eq_refl).
      apply (bold_quiet_group w Hw "<"%char _ eq_refl)
        with (u := Py.drop (String.length w) (String c s')); [|exact Hl].
      apply (bold_quiet_tag w "</b>" _ Hw eq_refl).
      apply IH. apply (f_equal String.length) in Hs.
      rewrite !length_append_s in Hs.
      assert (0 < String.length w) by (destruct w; [discriminate | cbn; lia]).
      cbn [String.length] in *. lia.
Qed.

(** ** Delimited spans: the italic and code patterns *)

Section DelimFacts.

Variable look : bool.
Variable M : ascii.

Lemma match_not_behind (c : ascii) (q : list item) (prev : option ascii) (s : string) :
  match_items (Not_behind c :: q) prev s =
  match prev with
  | Some a => if Ascii.eqb a c then None else match_items q prev s
  | None => match_items q prev s
  end.
Proof. reflexivity. Qed.

Lemma close_spec (prev : option ascii) (r : string) :
  match_items (Lit M :: (if look then [Not_ahead M] else [])) prev r =
  if closes look M r then Some ([], 1) else None.
Proof.
  destruct r as [|b r]; [reflexivity|].
  cbn [match_items closes]. destruct (Ascii.eqb b M); [|reflexivity].
  destruct look; cbn [match_items andb negb consumed].
  - destruct r as [|x r]; cbn [starts]; [reflexivity|].
    now destruct (Ascii.eqb x M).
  - reflexivity.
Qed.

Lemma greedy_star_spec (k : option ascii -> string -> result) :
  (forall prev r, k prev r = if closes look M r then Some ([], 1) else None) ->
  forall u prev,
    greedy_star (Not_char M) k prev u =
    if closes look M (after_run M u)
    then Some ([run M u], String.length (run M u) + 1)
    else None.
Proof.
  intros Hk. induction u as [|a u IH]; intros prev.
  - cbn [greedy_star after_run run]. rewrite Hk. reflexivity.
  - cbn [greedy_star after_run run in_cls].
    destruct (Ascii.eqb a M) eqn:E; cbn [negb].
    + rewrite Hk. now destruct (closes look M (String a u)).
    + rewrite IH. destruct (closes look M (after_run M u)); [reflexivity|].
      cbn [captured]. rewrite Hk. cbn [closes]. rewrite E. reflexivity.
Qed.

Lemma delim_match_spec (prev : option ascii) (s : string) :
  match_items (delim_re look M) prev s =
  if delim_match look M prev s
  then Some ([run M (Py.drop 1 s)], String.length (run M (Py.drop 1 s)) + 2)
  else None.
Proof.
  assert (Hcore : forall prev,
    match_items ([Lit M; Group_greedy_plus (Not_char M); Lit M] ++
                 (if look then [Not_ahead M] else [])) prev s =
    if match s with
       | String a u => Ascii.eqb a M && Py.nonempty (run M u) && closes look M (after_run M u)
       | EmptyString => false
       end
    then Some ([run M (Py.drop 1 s)], String.length (run M (Py.drop 1 s)) + 2)
    else None).
  { intros prev0. destruct s as [|a u]; [reflexivity|].
    cbn [app match_items Py.drop]. destruct (Ascii.eqb a M); [|reflexivity].
    cbn [andb]. unfold greedy_plus.
    destruct u as [|x u]; [reflexivity|].
    cbn [in_cls run after_run]. destruct (Ascii.eqb x M) eqn:Ex; [reflexivity|].
    cbn [negb Py.nonempty andb].
    rewrite (greedy_star_spec _ (fun prev r => close_spec prev r)).
    destruct (closes look M (after_run M u)); [|reflexivity].
    cbn [captured consumed String.length]. do 3 f_equal. lia. }
  unfold delim_re, delim_match. destruct look eqn:El.
  - change ([Not_behind M] ++ ?q) with (Not_behind M :: q).
    rewrite match_not_behind. cbn [andb]. destruct prev as [a|]; cbn [is_prev].
    + destruct (Ascii.eqb a M); [reflexivity|]. apply Hcore.
    + apply Hcore.
  - cbn [andb negb]. apply Hcore.
Qed.

Lemma delim_match_none (prev : option ascii) (s : string) :
  match_items (delim_re look M) prev s = None <-> delim_match look M prev s = false.
Proof.
  rewrite delim_match_spec. destruct (delim_match look M prev s); split; congruence.
Qed.

Lemma run_split (u : string) : u = run M u +++ after_run M u.
Proof.
  induction u as [|a u IH]; [reflexivity|]. cbn [run after_run].
  destruct (Ascii.eqb a M); [reflexivity|]. cbn [append]. now rewrite <- IH.
Qed.

Lemma run_free (u : string) : has_char M (run M u) = false.
Proof.
  induction u as [|a u IH]; [reflexivity|]. cbn [run].
  destruct (Ascii.eqb a M) eqn:E; [reflexivity|]. cbn [has_char]. now rewrite E.
Qed.

Lemma after_run_starts (u : string) :
  after_run M u = "" \/ starts M (after_run M u) = true.
Proof.
  induction u as [|a u IH]; [now left|]. cbn [after_run].
  destruct (Ascii.eqb a M) eqn:E; [right; exact E | exact IH].
Qed.

Lemma run_pass (t x : string) :
  has_char M t = false ->
  run M (t +++ x) = t +++ run M x /\ after_run M (t +++ x) = after_run M x.
Proof.
  induction t as [|a t IH]; intros H; [now split|].
  cbn [has_char] in H. apply orb_false_iff in H as [Ha Ht].
  cbn [append run after_run]. rewrite Ha. destruct (IH Ht) as [-> ->]. now split.
Qed.

Lemma delim_match_head (prev : option ascii) (a : ascii) (u : string) :
  Ascii.eqb a M = false -> delim_match look M prev (String a u) = false.
Proof. intros H. unfold delim_match. rewrite H. apply andb_false_r. Qed.

Lemma delim_match_empty (prev : option ascii) : delim_match look M prev "" = false.
Proof. unfold delim_match. apply andb_false_r. Qed.

Lemma prev_after_append (prev : option ascii) (x y : string) :
  prev_after prev (x +++ y) = prev_after (prev_after prev x) y.
Proof. revert prev. induction x as [|c x IH]; intros prev; [reflexivity | apply IH]. Qed.

(** Characters other than the delimiter are stepped over. *)
Lemma delim_quiet_pass (t u : string) :
  has_char M t = false ->
  forall prev,
    delim_quiet look M prev (t +++ u) = delim_quiet look M (prev_after prev t) u.
Proof.
  induction t as [|a t IH]; intros H prev; [reflexivity|].
  cbn [has_char] in H. apply orb_false_iff in H as [Ha Ht].
  cbn [append delim_quiet prev_after]. rewrite (delim_match_head prev a _ Ha).
  cbn [negb andb]. now apply IH.
Qed.

Lemma delim_quiet_tail (x u : string) :
  forall prev,
    delim_quiet look M prev (x +++ u) = true ->
    delim_quiet look M (prev_after prev x) u = true.
Proof.
  induction x as [|c x IH]; intros prev H; [exact H|].
  cbn [append delim_quiet] in H. apply andb_true_iff in H as [_ H].
  cbn [prev_after]. now apply IH.
Qed.

Lemma delim_quiet_prev (p1 p2 : option ascii) (x : string) :
  starts M x = false -> delim_quiet look M p1 x = delim_quiet look M p2 x.
Proof.
  destruct x as [|a x]; intros H.
  - cbn [delim_quiet]. now rewrite !delim_match_empty.
  - cbn [starts] in H. cbn [delim_quiet]. now rewrite !(delim_match_head _ a x H).
Qed.

Variables opening closing : string.

Lemma sub_pass (t x : string) :
  has_char M t = false ->
  forall prev,
    sub_from (delim_re look M) (tag_repl opening closing) prev (t +++ x) 0 =
    t +++ sub_from (delim_re look M) (tag_repl opening closing) (prev_after prev t) x 0.
Proof.
  induction t as [|a t IH]; intros H prev; [reflexivity|].
  cbn [has_char] in H. apply orb_false_iff in H as [Ha Ht].
  cbn [append prev_after]. rewrite sub_from_step.
  rewrite (proj2 (delim_match_none prev _) (delim_match_head prev a _ Ha)).
  now rewrite IH.
Qed.

Lemma delim_step_skip (prev : option ascii) (c : ascii) (s' : string) :
  delim_match look M prev (String c s') = false ->
  sub_from (delim_re look M) (tag_repl opening closing) prev (String c s') 0 =
  String c (sub_from (delim_re look M) (tag_repl opening closing) (Some c) s' 0).
Proof.
  intros H. apply (delim_match_none prev) in H. rewrite sub_from_step, H. reflexivity.
Qed.

Lemma take_append_length (a b : string) : Py.take (String.length a) (a +++ b) = a.
Proof. induction a as [|c a IH]; [reflexivity|]. cbn. now rewrite IH. Qed.

(** What the pass does at a position where the pattern matches. *)
Lemma delim_step_match (prev : option ascii) (s : string) :
  delim_match look M prev s = true ->
  exists g rest,
    s = String M (g +++ String M rest) /\
    Py.nonempty g = true /\ has_char M g = false /\
    (look = true -> starts M rest = false) /\
    sub_from (delim_re look M) (tag_repl opening closing) prev s 0 =
      opening +++ g +++ closing +++
      sub_from (delim_re look M) (tag_repl opening closing) (Some M) rest 0.
Proof.
  intros H. pose proof H as Hm. unfold delim_match in Hm.
  apply andb_true_iff in Hm as [_ Hm]. destruct s as [|a u]; [discriminate|].
  apply andb_true_iff in Hm as [Hm Hc]. apply andb_true_iff in Hm as [Ha Hne].
  apply Ascii.eqb_eq in Ha as ->.
  destruct (after_run M u) as [|b rest] eqn:Er; [discriminate|].
  cbn [closes] in Hc. apply andb_true_iff in Hc as [Hb Hla].
  apply Ascii.eqb_eq in Hb as ->.
  exists (run M u), rest.
  assert (Eu : u = run M u +++ String M rest) by (rewrite <- Er; apply run_split).
  split; [now rewrite <- Eu|]. split; [exact Hne|]. split; [apply run_free|].
  split.
  { intros ->. cbn [andb] in Hla. now apply negb_true_iff in Hla. }
  set (g := run M u) in *.
  assert (Hmi : match_items (delim_re look M) prev (String M u) =
                Some ([g], String.length g + 2)).
  { rewrite delim_match_spec, H. reflexivity. }
  rewrite (sub_from_match _ _ prev (String M u) [g] _ Hmi) by (cbn; lia || reflexivity).
  cbn [expand tag_repl nth Nat.sub]. rewrite append_empty_r.
  rewrite !append_assoc_s. do 3 f_equal.
  replace (String.length g + 2) with (String.length (String M (g +++ String M ""))).
  2:{ cbn [String.length]. rewrite length_append_s. cbn. lia. }
  assert (Es : String M u = String M (g +++ String M "") +++ rest).
  { rewrite Eu at 1. cbn [append]. now rewrite append_assoc_s. }
  rewrite Es, take_append_length, drop_append_length.
  f_equal. cbn [prev_after]. rewrite prev_after_append. reflexivity.
Qed.

Lemma delim_match_cases (prev : option ascii) (s : string) :
  delim_match look M prev s = false \/ delim_match look M prev s = true.
Proof. destruct (delim_match look M prev s); auto. Qed.

(** The pass replaces delimiters by tags and keeps the rest. *)
Lemma delim_retag (mk : ascii -> bool) :
  mk M = true ->
  Py.nonempty opening = true -> all_chars tag_char opening = true ->
  Py.nonempty closing = true -> all_chars tag_char closing = true ->
  forall n s, String.length s <= n ->
  forall prev,
    Retag mk s (sub_from (delim_re look M) (tag_repl opening closing) prev s 0).
Proof.
  intros HM Ho1 Ho2 Hc1 Hc2. induction n as [|n IH]; intros s Hlen prev.
  - destruct s; [constructor | cbn in Hlen; lia].
  - destruct s as [|c s']; [constructor|].
    destruct (delim_match_cases prev (String c s')) as [H|H].
    + rewrite (delim_step_skip prev c s' H). constructor. apply IH. cbn in Hlen. lia.
    + destruct (delim_step_match prev _ H) as (g & rest & Hs & _ & _ & _ & ->).
      rewrite Hs.
      change (String M (g +++ String M rest)) with (String M "" +++ g +++ String M "" +++ rest).
      assert (HMw : all_chars mk (String M "") = true) by (cbn; now rewrite HM).
      apply (Retag_tag_words mk (String M "") opening); try reflexivity; try assumption.
      apply Retag_keep_all.
      apply (Retag_tag_words mk (String M "") closing); try reflexivity; try assumption.
      apply IH. apply (f_equal String.length) in Hs.
      cbn [String.length] in Hs. rewrite length_append_s in Hs.
      cbn [String.length] in *. lia.
Qed.

End DelimFacts.

Section RetagDelim.

Variable mk : ascii -> bool.
Variable M : ascii.
Hypothesis mk_M : mk M = false.
Hypothesis M_marker : tag_char M = false.

Lemma all_chars_free (f : ascii -> bool) (t : string) :
  f M = false -> all_chars f t = true -> has_char M t = false.
Proof.
  intros HM. induction t as [|a t IH]; [reflexivity|].
  cbn [all_chars has_char]. intros H. apply andb_true_iff in H as [Ha Ht].
  rewrite (IH Ht), orb_false_r.
  destruct (Ascii.eqb a M) eqn:E; [|reflexivity].
  apply Ascii.eqb_eq in E as ->. congruence.
Qed.

Lemma Retag_head_inv (s u' : string) :
  Retag mk s (String M u') -> exists u, s = String M u /\ Retag mk u u'.
Proof.
  intros HR. remember (String M u') as s' eqn:E.
  destruct HR as [|c s0 s0' HR|a m b g s0 s0' Hm Hg HR].
  - discriminate.
  - injection E as -> ->. now exists s0.
  - exfalso. cbn [append] in E. injection E as -> _.
    cbn [all_chars] in Hg. apply andb_true_iff in Hg as [Hb _]. congruence.
Qed.

Lemma Retag_starts (s s' : string) :
  Retag mk s s' -> starts M s = true -> starts M s' = true.
Proof.
  intros HR. destruct HR as [|c s0 s0' HR|a m b g s0 s0' Hm Hg HR]; intros H.
  - discriminate.
  - exact H.
  - exfalso. cbn [append starts] in H. apply Ascii.eqb_eq in H as ->.
    cbn [all_chars] in Hm. apply andb_true_iff in Hm as [Ha _]. congruence.
Qed.

Lemma Retag_run (u u' : string) :
  Retag mk u u' ->
  (Py.nonempty (run M u') = true -> Py.nonempty (run M u) = true) /\
  Retag mk (after_run M u) (after_run M u').
Proof.
  intros HR. induction HR as [|c s s' HR IH|a m b g s s' Hm Hg HR IH].
  - split; [trivial | constructor].
  - cbn [run after_run]. destruct (Ascii.eqb c M).
    + split; [trivial | now constructor].
    + split; [reflexivity | apply IH].
  - pose proof (all_chars_free mk _ mk_M Hm) as Fm.
    pose proof (all_chars_free tag_char _ M_marker Hg) as Fg.
    destruct (run_pass M (String a m) s Fm) as [-> ->].
    destruct (run_pass M (String b g) s' Fg) as [-> ->].
    split; [reflexivity | apply IH].
Qed.

Lemma Retag_closes (r r' : string) :
  Retag mk r r' -> closes true M r' = true -> closes true M r = true.
Proof.
  intros HR H. destruct r' as [|b r1']; [discriminate|].
  cbn [closes andb] in H. apply andb_true_iff in H as [Hb Hs].
  apply Ascii.eqb_eq in Hb as ->.
  destruct (Retag_head_inv _ _ HR) as (r1 & -> & HR1).
  cbn [closes andb]. rewrite Ascii.eqb_refl. cbn [andb].
  destruct (starts M r1) eqn:E; [|reflexivity].
  rewrite (Retag_starts _ _ HR1 E) in Hs. discriminate.
Qed.

Lemma Retag_delim_match (s s' : string) (prev prev' : option ascii) :
  Retag mk s s' ->
  (is_prev M prev = true -> is_prev M prev' = true) ->
  delim_match true M prev' s' = true -> delim_match true M prev s = true.
Proof.
  intros HR Hprev H. unfold delim_match in *.
  apply andb_true_iff in H as [Hp H]. destruct s' as [|a u']; [discriminate|].
  apply andb_true_iff in H as [H Hc]. apply andb_true_iff in H as [Ha Hne].
  apply Ascii.eqb_eq in Ha as ->.
  destruct (Retag_head_inv _ _ HR) as (u & -> & HRu).
  destruct (Retag_run _ _ HRu) as [Hrun Hafter].
  rewrite Ascii.eqb_refl, (Hrun Hne), (Retag_closes _ _ Hafter Hc).
  cbn [andb] in *. destruct (is_prev M prev); [|reflexivity].
  rewrite (Hprev eq_refl) in Hp. discriminate.
Qed.

Lemma prev_after_last (f : ascii -> bool) (prev : option ascii) (a : ascii) (m : string) :
  all_chars f (String a m) = true ->
  exists c, prev_after prev (String a m) = Some c /\ f c = true.
Proof.
  revert prev a. induction m as [|x m IH]; intros prev a H.
  - cbn in H. rewrite andb_true_r in H. now exists a.
  - cbn [all_chars] in H. apply andb_true_iff in H as [_ H].
    cbn [prev_after]. apply (IH (Some a) x H).
Qed.

(** Replacing runs of other markers by tags cannot make the pattern match. *)
Lemma Retag_delim_quiet (s s' : string) :
  Retag mk s s' ->
  forall prev prev',
    (is_prev M prev = true -> is_prev M prev' = true) ->
    delim_quiet true M prev s = true -> delim_quiet true M prev' s' = true.
Proof.
  intros HR. induction HR as [|c s s' HR IH|a m b g s s' Hm Hg HR IH];
    intros prev prev' Hprev H.
  - cbn [delim_quiet]. now rewrite delim_match_empty.
  - cbn [delim_quiet] in *. apply andb_true_iff in H as [Hm Hq].
    rewrite (IH (Some c) (Some c) (fun e => e) Hq), andb_true_r.
    destruct (delim_match true M prev' (String c s')) eqn:E; [|reflexivity].
    rewrite (Retag_delim_match _ _ prev prev' (Retag_keep mk c s s' HR) Hprev E) in Hm.
    discriminate.
  - pose proof (all_chars_free tag_char _ M_marker Hg) as Fg.
    rewrite (delim_quiet_pass true M (String b g) s' Fg).
    apply (IH (prev_after prev (String a m))); [|now apply delim_quiet_tail].
    destruct (prev_after_last mk prev a m Hm) as (c & -> & Hc).
    cbn [is_prev]. intros E. apply Ascii.eqb_eq in E as ->. congruence.
Qed.

(** Tags bring in no character that is not a tag character. *)
Lemma Retag_has_char (c : ascii) (s s' : string) :
  tag_char c = false -> Retag mk s s' ->
  has_char c s = false -> has_char c s' = false.
Proof.
  intros Hc HR. induction HR as [|x s s' HR IH|a m b g s s' Hm Hg HR IH]; intros H.
  - reflexivity.
  - cbn [has_char] in *. apply orb_false_iff in H as [Hx Hs]. now rewrite Hx, IH.
  - rewrite has_char_append in *. apply orb_false_iff in H as [_ Hs].
    rewrite (IH Hs), orb_false_r.
    clear -Hc Hg. induction (String b g) as [|y t IHt]; [reflexivity|].
    cbn [all_chars has_char] in *. apply andb_true_iff in Hg as [Hy Ht].
    rewrite (IHt Ht), orb_false_r.
    destruct (Ascii.eqb y c) eqn:E; [|reflexivity].
    apply Ascii.eqb_eq in E as ->. congruence.
Qed.

End RetagDelim.

Section ItalicPass.

Variable M : ascii.
Variables opening closing : string.
Hypothesis opening_free : has_char M opening = false.
Hypothesis closing_free : has_char M closing = false.

Let italic_sub := sub_from (delim_re true M) (tag_repl opening closing).

Lemma sub_starts (rest : string) (prev : option ascii) :
  starts M rest = false -> starts M (italic_sub prev rest 0) = false.
Proof.
  destruct rest as [|c r]; intros H; [reflexivity|].
  cbn [starts] in H. unfold italic_sub.
  rewrite (delim_step_skip true M opening closing prev c r
             (delim_match_head true M prev c r H)).
  exact H.
Qed.

Lemma skip_after_delim (x : string) :
  italic_sub (Some M) (String M x) 0 = String M (italic_sub (Some M) x 0).
Proof.
  unfold italic_sub. apply delim_step_skip.
  unfold delim_match. cbn [is_prev]. now rewrite Ascii.eqb_refl.
Qed.

(** At a position the pass steps over, its pattern does not match the
    output either. *)
Lemma italic_skip_quiet (prev : option ascii) (c : ascii) (s' : string) :
  delim_match true M prev (String c s') = false ->
  delim_match true M prev (String c (italic_sub (Some c) s' 0)) = false.
Proof.
  intros H. destruct (Ascii.eqb c M) eqn:Ec; [|now apply delim_match_head].
  apply Ascii.eqb_eq in Ec as ->. unfold delim_match in *.
  destruct (is_prev M prev); [reflexivity|]. cbn [andb negb] in *.
  rewrite Ascii.eqb_refl in *. cbn [andb] in *.
  rewrite (run_split M s') at 1 2.
  unfold italic_sub. rewrite (sub_pass true M opening closing _ _ (run_free M s')).
  fold italic_sub.
  destruct (run_pass M (run M s')
              (italic_sub (prev_after (Some M) (run M s')) (after_run M s') 0)
              (run_free M s')) as [-> ->].
  destruct (after_run_starts M s') as [Hv|Hv].
  - rewrite Hv. cbn [italic_sub sub_from after_run closes]. apply andb_false_r.
  - destruct (after_run M s') as [|m v'] eqn:Ev; [discriminate|].
    cbn [starts] in Hv. apply Ascii.eqb_eq in Hv as ->.
    destruct (run M s') as [|x u0] eqn:Eu.
    + cbn [prev_after append]. rewrite skip_after_delim.
      cbn [run]. rewrite Ascii.eqb_refl. reflexivity.
    + cbn [Py.nonempty andb closes] in H. rewrite Ascii.eqb_refl in H.
      cbn [andb] in H. apply negb_false_iff in H.
      destruct v' as [|m v'']; [discriminate|]. cbn [starts] in H.
      apply Ascii.eqb_eq in H as ->.
      assert (E1 : italic_sub (prev_after (Some M) (String x u0)) (String M (String M v'')) 0
                   = String M (italic_sub (Some M) (String M v'') 0)).
      { unfold italic_sub. apply delim_step_skip. unfold delim_match.
        cbn [run]. rewrite !Ascii.eqb_refl. cbn [Py.nonempty andb].
        apply andb_false_r. }
      rewrite E1, skip_after_delim.
      cbn [after_run]. rewrite !Ascii.eqb_refl.
      cbn [closes starts]. rewrite !Ascii.eqb_refl. cbn [andb negb].
      apply andb_false_r.
Qed.

(** After the pass its pattern matches nowhere. *)
Lemma italic_self_quiet (n : nat) :
  forall s, String.length s <= n ->
  forall prev, delim_quiet true M prev (italic_sub prev s 0) = true.
Proof.
  induction n as [|n IH]; intros s Hlen prev.
  - destruct s; [|cbn in Hlen; lia]. cbn [italic_sub sub_from delim_quiet].
    now rewrite delim_match_empty.
  - destruct s as [|c s'].
    { cbn [italic_sub sub_from delim_quiet]. now rewrite delim_match_empty. }
    destruct (delim_match_cases true M prev (String c s')) as [H|H].
    + unfold italic_sub. rewrite (delim_step_skip true M opening closing prev c s' H).
      fold italic_sub. cbn [delim_quiet].
      rewrite (italic_skip_quiet prev c s' H). cbn [negb andb].
      apply IH. cbn in Hlen. lia.
    + unfold italic_sub.
      destruct (delim_step_match true M opening closing prev _ H)
        as (g & rest & Hs & _ & Hg & Hla & ->).
      fold italic_sub.
      rewrite (delim_quiet_pass true M opening _ opening_free).
      rewrite (delim_quiet_pass true M g _ Hg).
      rewrite (delim_quiet_pass true M closing _ closing_free).
      rewrite (delim_quiet_prev true M _ (Some M) _
                 (sub_starts rest (Some M) (Hla eq_refl))).
      apply IH. apply (f_equal String.length) in Hs.
      cbn [String.length] in Hs. rewrite length_append_s in Hs.
      cbn [String.length] in *. lia.
Qed.

End ItalicPass.

Section FormatterStable.

Lemma bold_quiet_head (w s : string) : bold_quiet w s = true -> bold_match w s = false.
Proof.
  destruct s; cbn [bold_quiet]; intros H; apply andb_true_iff in H as [H _];
    now apply negb_true_iff in H.
Qed.

Lemma delim_quiet_head (M : ascii) (prev : option ascii) (s : string) :
  delim_quiet true M prev s = true -> delim_match true M prev s = false.
Proof.
  destruct s; cbn [delim_quiet]; intros H; apply andb_true_iff in H as [H _];
    now apply negb_true_iff in H.
Qed.

Lemma bold_sub_fixed (w s : string) :
  bold_quiet w s = true -> Re.sub (bold_re_of w) bold_repl s = s.
Proof.
  intros H. unfold Re.sub. apply sub_from_quiet. intros a b ->.
  apply bold_match_none, bold_quiet_head. exact (bold_quiet_tail w a b H).
Qed.

Lemma delim_sub_fixed (M : ascii) (opening closing s : string) :
  delim_quiet true M None s = true ->
  Re.sub (delim_re true M) (tag_repl opening closing) s = s.
Proof.
  intros H. unfold Re.sub. apply sub_from_quiet. intros a b ->.
  apply delim_match_none, delim_quiet_head. exact (delim_quiet_tail true M a b None H).
Qed.

Lemma bold_sub_retag (mk : ascii -> bool) (w s : string) :
  marker_word w = true -> all_chars mk w = true ->
  Retag mk s (Re.sub (bold_re_of w) bold_repl s).
Proof.
  intros Hw Hmk. unfold Re.sub. now apply (bold_retag w Hw mk Hmk (String.length s)).
Qed.

Lemma bold_sub_quiet (w s : string) :
  marker_word w = true -> bold_quiet w (Re.sub (bold_re_of w) bold_repl s) = true.
Proof.
  intros Hw. unfold Re.sub. now apply (bold_self_quiet w Hw (String.length s)).
Qed.

Lemma delim_sub_retag (mk : ascii -> bool) (look : bool) (M : ascii)
    (opening closing s : string) :
  mk M = true ->
  Py.nonempty opening = true -> all_chars tag_char opening = true ->
  Py.nonempty closing = true -> all_chars tag_char closing = true ->
  Retag mk s (Re.sub (delim_re look M) (tag_repl opening closing) s).
Proof.
  intros. unfold Re.sub.
  now apply (delim_retag look M opening closing mk) with (n := String.length s).
Qed.

Lemma delim_sub_quiet (M : ascii) (opening closing s : string) :
  has_char M opening = false -> has_char M closing = false ->
  delim_quiet true M None (Re.sub (delim_re true M) (tag_repl opening closing) s) = true.
Proof.
  intros Ho Hc. unfold Re.sub.
  now apply (italic_self_quiet M opening closing Ho Hc (String.length s)).
Qed.

(** After these passes, on a text without opening bracket, no bold and no
    italic pattern matches, and there is still no opening bracket. *)
Lemma after_code_quiet (text : string) :
  has_char "["%char text = false ->
  bold_quiet "****" (after_code text) = true /\
  bold_quiet "**" (after_code text) = true /\
  bold_quiet "__" (after_code text) = true /\
  delim_quiet true star None (after_code text) = true /\
  delim_quiet true underscore None (after_code text) = true /\
  has_char "["%char (after_code text) = false.
Proof.
  intros Hbr.
  unfold after_code, _process_code_text, _process_italic_text, _process_bold_text.
  cbv zeta.
  set (s1 := Re.sub bold4_re bold_repl text).
  set (s2 := Re.sub bold2_re bold_repl s1).
  set (s3 := Re.sub bold_us_re bold_repl s2).
  set (s4 := Re.sub italic_star_re italic_repl s3).
  set (s5 := Re.sub italic_us_re italic_repl s4).
  set (s6 := Re.sub code_re code_repl s5).
  assert (R1 : Retag is_star text s1) by (apply (bold_sub_retag is_star "****"); reflexivity).
  assert (R2 : Retag is_star s1 s2) by (apply (bold_sub_retag is_star "**"); reflexivity).
  assert (R3 : Retag is_underscore s2 s3)
    by (apply (bold_sub_retag is_underscore "__"); reflexivity).
  assert (R4 : Retag is_star s3 s4)
    by (apply (delim_sub_retag is_star true star "<i>" "</i>"); reflexivity).
  assert (R5 : Retag is_underscore s4 s5)
    by (apply (delim_sub_retag is_underscore true underscore "<i>" "</i>"); reflexivity).
  assert (R6 : Retag is_backtick s5 s6)
    by (apply (delim_sub_retag is_backtick false backtick "<code>" "</code>"); reflexivity).
  assert (Q4 : bold_quiet "****" s1 = true) by (apply (bold_sub_quiet "****"); reflexivity).
  assert (Q2 : bold_quiet "**" s2 = true) by (apply (bold_sub_quiet "**"); reflexivity).
  assert (Qu : bold_quiet "__" s3 = true) by (apply (bold_sub_quiet "__"); reflexivity).
  assert (Qs : delim_quiet true star None s4 = true)
    by (apply (delim_sub_quiet star "<i>" "</i>"); reflexivity).
  assert (Qi : delim_quiet true underscore None s5 = true)
    by (apply (delim_sub_quiet underscore "<i>" "</i>"); reflexivity).
  repeat split.
  - apply (Retag_bold_quiet is_backtick eq_refl "****" eq_refl _ _ R6).
    apply (Retag_bold_quiet is_underscore eq_refl "****" eq_refl _ _ R5).
    apply (Retag_bold_quiet is_star eq_refl "****" eq_refl _ _ R4).
    apply (Retag_bold_quiet is_underscore eq_refl "****" eq_refl _ _ R3).
    apply (Retag_bold_quiet is_star eq_refl "****" eq_refl _ _ R2). exact Q4.
  - apply (Retag_bold_quiet is_backtick eq_refl "**" eq_refl _ _ R6).
    apply (Retag_bold_quiet is_underscore eq_refl "**" eq_refl _ _ R5).
    apply (Retag_bold_quiet is_star eq_refl "**" eq_refl _ _ R4).
    apply (Retag_bold_quiet is_underscore eq_refl "**" eq_refl _ _ R3). exact Q2.
  - apply (Retag_bold_quiet is_backtick eq_refl "__" eq_refl _ _ R6).
    apply (Retag_bold_quiet is_underscore eq_refl "__" eq_refl _ _ R5).
    apply (Retag_bold_quiet is_star eq_refl "__" eq_refl _ _ R4). exact Qu.
  - apply (Retag_delim_quiet is_backtick star eq_refl eq_refl _ _ R6 None None (fun e => e)).
    apply (Retag_delim_quiet is_underscore star eq_refl eq_refl _ _ R5 None None
             (fun e => e)).
    exact Qs.
  - apply (Retag_delim_quiet is_backtick underscore eq_refl eq_refl _ _ R6 None None
             (fun e => e)).
    exact Qi.
  - apply (Retag_has_char is_backtick "["%char _ _ eq_refl R6).
    apply (Retag_has_char is_underscore "["%char _ _ eq_refl R5).
    apply (Retag_has_char is_star "["%char _ _ eq_refl R4).
    apply (Retag_has_char is_underscore "["%char _ _ eq_refl R3).
    apply (Retag_has_char is_star "["%char _ _ eq_refl R2).
    apply (Retag_has_char is_star "["%char _ _ eq_refl R1). exact Hbr.
Qed.

(** Without opening bracket in the text and without backtick left in the
    result, the formatter leaves its own result unchanged. *)
Lemma process_markdown_text_fixed (text : string) :
  has_char "["%char text = false ->
  has_char backtick (_process_markdown_text text) = false ->
  _process_markdown_text (_process_markdown_text text) = _process_markdown_text text.
Proof.
  intros Hbr Hbt.
  destruct (after_code_quiet text Hbr) as (Q4 & Q2 & Qu & Qs & Qi & Hbr').
  assert (E : _process_markdown_text text =
              if negb (Py.nonempty text) then text else after_code text).
  { unfold _process_markdown_text, after_code. cbv zeta.
    destruct (negb (Py.nonempty text)); [reflexivity|].
    apply (sub_absent link_re link_repl "["%char _ eq_refl). exact Hbr'. }
  destruct (negb (Py.nonempty text)) eqn:Ene.
  - rewrite E. unfold _process_markdown_text. now rewrite Ene.
  - rewrite E in *. set (P := after_code text) in *.
    unfold _process_markdown_text. destruct (negb (Py.nonempty P)); [reflexivity|].
    unfold _process_bold_text, _process_italic_text, _process_code_text. cbv zeta.
    rewrite (bold_sub_fixed "****" P Q4 : Re.sub bold4_re bold_repl P = P).
    rewrite (bold_sub_fixed "**" P Q2 : Re.sub bold2_re bold_repl P = P).
    rewrite (bold_sub_fixed "__" P Qu : Re.sub bold_us_re bold_repl P = P).
    rewrite (delim_sub_fixed star "<i>" "</i>" P Qs
             : Re.sub italic_star_re italic_repl P = P).
    rewrite (delim_sub_fixed underscore "<i>" "</i>" P Qi
             : Re.sub italic_us_re italic_repl P = P).
    rewrite (sub_absent code_re code_repl backtick P eq_refl Hbt).
    apply (sub_absent link_re link_repl "["%char P eq_refl Hbr').
Qed.

End FormatterStable.

Section FormatterTheorem.

Lemma after_code_has_char (c : ascii) (text : string) :
  tag_char c = false ->
  has_char c text = false -> has_char c (after_code text) = false.
Proof.
  intros Hc H.
  unfold after_code, _process_code_text, _process_italic_text, _process_bold_text.
  cbv zeta.
  apply (Retag_has_char is_backtick c _ _ Hc
           (delim_sub_retag is_backtick false backtick "<code>" "</code>" _
              eq_refl eq_refl eq_refl eq_refl eq_refl)).
  apply (Retag_has_char is_underscore c _ _ Hc
           (delim_sub_retag is_underscore true underscore "<i>" "</i>" _
              eq_refl eq_refl eq_refl eq_refl eq_refl)).
  apply (Retag_has_char is_star c _ _ Hc
           (delim_sub_retag is_star true star "<i>" "</i>" _
              eq_refl eq_refl eq_refl eq_refl eq_refl)).
  apply (Retag_has_char is_underscore c _ _ Hc
           (bold_sub_retag is_underscore "__" _ eq_refl eq_refl)).
  apply (Retag_has_char is_star c _ _ Hc (bold_sub_retag is_star "**" _ eq_refl eq_refl)).
  apply (Retag_has_char is_star c _ _ Hc (bold_sub_retag is_star "****" _ eq_refl eq_refl)).
  exact H.
Qed.

(** A text without backtick and opening bracket is formatted without any
    of them. *)
Lemma process_markdown_text_has_char (c : ascii) (text : string) :
  tag_char c = false ->
  has_char "["%char text = false ->
  has_char c text = false -> has_char c (_process_markdown_text text) = false.
Proof.
  intros Hc Hbr H. unfold _process_markdown_text.
  destruct (negb (Py.nonempty text)); [exact H|]. fold (after_code text).
  rewrite (sub_absent link_re link_repl "["%char _ eq_refl
             (after_code_has_char "["%char text eq_refl Hbr)).
  now apply after_code_has_char.
Qed.

End FormatterTheorem.

(** C9, as the code has it. Applying the formatter (bold, then italic, then
    inline code, then link conversion) to its own result gives that result
    again, without wrapping any annotation twice, for every text without
    opening bracket whose result holds no backtick, so for every text
    without backtick and opening bracket, and for every text whose result
    holds no asterisk, underscore, backtick or opening bracket. *)
Theorem process_markdown_text_stable (text : string) :
  (has_char "["%char text = false ->
   has_char backtick (_process_markdown_text text) = false ->
   _process_markdown_text (_process_markdown_text text) = _process_markdown_text text) /\
  (has_char "["%char text = false -> has_char backtick text = false ->
   _process_markdown_text (_process_markdown_text text) = _process_markdown_text text) /\
  (marker_free (_process_markdown_text text) = true ->
   _process_markdown_text (_process_markdown_text text) = _process_markdown_text text).
Proof.
  split; [|split].
  - apply process_markdown_text_fixed.
  - intros Hbr Hbt. apply (process_markdown_text_fixed text Hbr).
    now apply process_markdown_text_has_char.
  - apply process_markdown_text_marker_free.
Qed.

Lemma process_markdown_text_stable_witness :
  _process_markdown_text "**bold** *it* __b__ _i_ `code`, a lone * and a **" =
    "<b>bold</b> <i>it</i> <b>b</b> <i>i</i> <code>code</code>, a lone * and a **" /\
  _process_markdown_text
    (_process_markdown_text "**bold** *it* __b__ _i_ `code`, a lone * and a **") =
    _process_markdown_text "**bold** *it* __b__ _i_ `code`, a lone * and a **" /\
  _process_markdown_text (_process_markdown_text "***a*** and _b") =
    _process_markdown_text "***a*** and _b" /\
  _process_markdown_text (_process_markdown_text "see [site](https://a.b/c)") =
    _process_markdown_text "see [site](https://a.b/c)".
Proof.
  split; [reflexivity|]. split; [|split].
  - apply (proj1 (process_markdown_text_stable
                    "**bold** *it* __b__ _i_ `code`, a lone * and a **"));
      vm_compute; reflexivity.
  - apply (proj1 (proj2 (process_markdown_text_stable "***a*** and _b")));
      vm_compute; reflexivity.
  - apply (proj2 (proj2 (process_markdown_text_stable "see [site](https://a.b/c)"))).
    vm_compute. reflexivity.
Defined.

(** C9 as stated fails: a code span between doubled backticks is wrapped
    once by the first application and once more by the second, and a link
    whose label opens with a bracket is wrapped again in the same way. *)
Lemma process_markdown_text_idempotent_counterexample :
  _process_markdown_text "``a``" = "`<code>a</code>`" /\
  _process_markdown_text (_process_markdown_text "``a``") = "<code><code>a</code></code>" /\
  _process_markdown_text (_process_markdown_text "``a``") <> _process_markdown_text "``a``" /\
  _process_markdown_text (_process_markdown_text "[[a](b)](c)") <>
    _process_markdown_text "[[a](b)](c)".
Proof.
  split; [reflexivity|]. split; [reflexivity|].
  split; vm_compute; intros H; discriminate H.
Qed.

(** * Further properties of the generator *)

(** ** Keep-together groups *)

Section GroupFacts.

Lemma buffered_long (e : element) : Forall long_paragraph (buffered e).
Proof.
  destruct e; simpl; try constructor.
  destruct (Py.nonempty text); repeat constructor.
Qed.

Lemma immediate_well_grouped (e : element) : Forall well_grouped (immediate e).
Proof.
  destruct e; simpl; repeat constructor.
  destruct (Py.nonempty text); repeat constructor.
Qed.

Lemma keep_together_well_grouped (cs : list Flowable) :
  Forall long_paragraph cs -> Forall well_grouped (keep_together cs).
Proof.
  intros H. destruct cs as [|c cs]; [constructor|].
  constructor; [|constructor]. split; [discriminate | exact H].
Qed.

Lemma fold_well_grouped (els : list element) :
  forall story cs,
    Forall well_grouped story -> Forall long_paragraph cs ->
    Forall well_grouped (fst (fold_left planned_element els (story, cs))) /\
    Forall long_paragraph (snd (fold_left planned_element els (story, cs))).
Proof.
  induction els as [|e els IH]; intros story cs Hs Hc; cbn [fold_left]; [now split|].
  unfold planned_element at 2 4. cbn [fst snd]. destruct (is_header e); apply IH.
  - apply Forall_app; split; [exact Hs|]. apply Forall_app; split.
    + apply immediate_well_grouped.
    + now apply keep_together_well_grouped.
  - constructor.
  - apply Forall_app; split; [exact Hs | apply immediate_well_grouped].
  - apply Forall_app; split; [exact Hc | apply buffered_long].
Qed.

Lemma planned_well_grouped (els : list element) :
  Forall well_grouped (planned [] els).
Proof.
  unfold planned.
  destruct (fold_well_grouped els [] [] (Forall_nil _) (Forall_nil _)) as [Hs Hc].
  destruct (fold_left planned_element els ([], [])) as [s cs]. cbn [fst snd] in *.
  rewrite flush_section_spec. apply Forall_app; split; [exact Hs|].
  now apply keep_together_well_grouped.
Qed.

End GroupFacts.

(** X1. The layout loop only appends to the story it is given: on any story
    it returns that story followed by what it returns on the empty story,
    and it raises what it raises there.  Every keep-together group it
    appends is non-empty and made of long-content paragraphs only.  It
    returns when each of the paragraphs of its elements can be built. *)
Theorem layout_appends_well_formed_groups (lib : PyLib) (story : list Flowable)
    (els : list element) :
  layout lib story els =
    (added <- layout lib [] els ;; Returned (story ++ added)) /\
  (forall added, layout lib [] els = Returned added -> Forall well_grouped added) /\
  (first_error lib (flat_map requests els) = None ->
   exists added, layout lib [] els = Returned added).
Proof.
  split; [|split].
  - rewrite !layout_spec, (planned_story_prefix story els).
    symmetry. rewrite <- (app_nil_r (flat_map requests els)) at 2.
    now apply checked_then.
  - intros added. rewrite layout_spec. intros H.
    apply checked_returned in H as [_ <-]. apply planned_well_grouped.
  - intros H. exists (planned [] els). rewrite layout_spec.
    apply checked_returned. now split.
Qed.

Lemma layout_appends_well_formed_groups_witness :
  layout sample_lib [Spacer 1 20] [paragraph "a" general; header "H" 1 general] =
    Returned [Spacer 1 20;
              Paragraph "a" (paragraph_style general);
              Paragraph "H" (header_style 1);
              KeepTogether [Paragraph "a" long_content_style]] /\
  Forall well_grouped
    [Paragraph "a" (paragraph_style general);
     Paragraph "H" (header_style 1);
     KeepTogether [Paragraph "a" long_content_style]].
Proof.
  destruct (layout_appends_well_formed_groups sample_lib [Spacer 1 20]
              [paragraph "a" general; header "H" 1 general]) as (Happ & Hgroups & _).
  split.
  - rewrite Happ. reflexivity.
  - apply Hgroups. reflexivity.
Defined.

(** ** Grouping by source *)

Section GroupingFacts.

Lemma memb_app (k : string) (a b : list string) : memb k (a ++ b) = memb k a || memb k b.
Proof. unfold memb. apply existsb_app. Qed.

Lemma keys_dict_append (k : string) (a : Article) (d : list (string * list Article)) :
  map fst (dict_append k a d) =
  if memb k (map fst d) then map fst d else map fst d ++ [k].
Proof.
  induction d as [|[k0 v0] d IH]; [reflexivity|].
  cbn [dict_append map fst memb existsb]. fold (memb k (map fst d)).
  destruct (String.eqb k0 k); [reflexivity|].
  cbn [map fst orb]. rewrite IH. now destruct (memb k (map fst d)).
Qed.

Lemma lookup_dict_append (q k : string) (a : Article) (d : list (string * list Article)) :
  lookup q (dict_append k a d) =
  if String.eqb k q
  then Some (match lookup q d with Some v => v | None => [] end ++ [a])
  else lookup q d.
Proof.
  induction d as [|[k0 v0] d IH].
  - cbn [dict_append lookup]. now destruct (String.eqb k q).
  - cbn [dict_append]. destruct (String.eqb k0 k) eqn:E0.
    + apply String.eqb_eq in E0 as ->. cbn [lookup]. now destruct (String.eqb k q).
    + cbn [lookup]. destruct (String.eqb k0 q) eqn:E1.
      * apply String.eqb_eq in E1 as ->. rewrite String.eqb_sym, E0. reflexivity.
      * exact IH.
Qed.

Lemma filter_true {A : Type} (l : list A) : filter (fun _ => true) l = l.
Proof. induction l as [|x l IH]; [reflexivity|]. cbn. now rewrite IH. Qed.

Lemma filter_filter {A : Type} (f g : A -> bool) (l : list A) :
  filter f (filter g l) = filter (fun x => g x && f x) l.
Proof.
  induction l as [|x l IH]; [reflexivity|]. cbn [filter].
  destruct (g x); cbn [filter andb]; [destruct (f x)|]; now rewrite IH.
Qed.

Lemma group_keys (articles : list Article) :
  forall d0 d, group_by_source articles d0 = Returned d ->
    map fst d =
    map fst d0 ++
    filter (fun k => negb (memb k (map fst d0))) (first_seen (source_keys articles)).
Proof.
  induction articles as [|a rest IH]; intros d0 d H.
  - cbn in H. injection H as <-. cbn. now rewrite app_nil_r.
  - cbn [group_by_source] in H. unfold source_keys. cbn [flat_map].
    fold (source_keys rest).
    destruct (source a) as [k|]; [|discriminate].
    rewrite (IH _ _ H), keys_dict_append. cbn [app first_seen filter].
    destruct (memb k (map fst d0)) eqn:Ek; cbn [negb].
    + f_equal. rewrite filter_filter. apply filter_ext. intros x.
      destruct (String.eqb x k) eqn:Ex; [|reflexivity].
      apply String.eqb_eq in Ex as ->. now rewrite Ek.
    + rewrite <- app_assoc. cbn [app]. do 2 f_equal.
      rewrite filter_filter. apply filter_ext. intros x.
      rewrite memb_app. cbn [memb existsb]. rewrite orb_false_r, negb_orb.
      rewrite (String.eqb_sym k x). apply andb_comm.
Qed.

Lemma group_lookup (articles : list Article) :
  forall d0 d, group_by_source articles d0 = Returned d ->
  forall q,
    lookup q d =
    match lookup q d0, filter (has_source q) articles with
    | None, [] => None
    | Some v, l => Some (v ++ l)
    | None, l => Some l
    end.
Proof.
  induction articles as [|a rest IH]; intros d0 d H q.
  - cbn in H. injection H as <-. cbn [filter].
    destruct (lookup q d0); [now rewrite app_nil_r | reflexivity].
  - cbn [group_by_source] in H. cbn [filter].
    destruct (source a) as [k|] eqn:Es; [|discriminate].
    assert (Hh : has_source q a = String.eqb k q) by (unfold has_source; now rewrite Es).
    rewrite Hh, (IH _ _ H q), lookup_dict_append.
    destruct (String.eqb k q).
    + destruct (lookup q d0) as [v|]; cbn [app]; [|reflexivity].
      now rewrite <- app_assoc.
    + reflexivity.
Qed.

Lemma first_seen_NoDup (keys : list string) : NoDup (first_seen keys).
Proof.
  induction keys as [|k rest IH]; [constructor|]. cbn [first_seen]. constructor.
  - intros Hin. apply filter_In in Hin as [_ Hk]. now rewrite String.eqb_refl in Hk.
  - now apply NoDup_filter.
Qed.

Lemma first_seen_nonempty (keys : list string) : keys <> [] -> first_seen keys <> [].
Proof. destruct keys; [congruence | discriminate]. Qed.

Lemma group_outcome (articles : list Article) :
  forall d0,
    match group_by_source articles d0 with
    | Returned _ => existsb lacks_source articles = false
    | Raised e => e = KeyError "source" /\ existsb lacks_source articles = true
    end.
Proof.
  induction articles as [|a rest IH]; intros d0; [reflexivity|].
  cbn [group_by_source existsb]. unfold lacks_source at 1 3.
  destruct (source a) as [k|]; [apply IH | now split].
Qed.

Lemma group_sizes (articles : list Article) :
  forall d0 d, group_by_source articles d0 = Returned d ->
    Forall (fun g => snd g <> []) d0 -> Forall (fun g => snd g <> []) d.
Proof.
  induction articles as [|a rest IH]; intros d0 d H H0.
  - cbn in H. now injection H as <-.
  - cbn [group_by_source] in H. destruct (source a) as [k|]; [|discriminate].
    apply (IH _ _ H). clear -H0.
    induction d0 as [|[k0 v0] d0 IHd]; cbn [dict_append].
    + repeat constructor. discriminate.
    + inversion H0 as [|? ? Hv Hd]; subst.
      destruct (String.eqb k0 k); constructor; auto.
      cbn. now destruct v0.
Qed.

Lemma existsb_filter_nil {A : Type} (f : A -> bool) (l : list A) :
  filter f l = [] <-> existsb f l = false.
Proof.
  induction l as [|x l IH]; [now split|]. cbn [filter existsb].
  destruct (f x); cbn [orb]; [split; discriminate | exact IH].
Qed.

Lemma group_by_source_keys_nonempty (articles : list Article)
    (d : list (string * list Article)) :
  articles <> [] -> group_by_source articles [] = Returned d ->
  d <> [] /\ NoDup (map fst d) /\ Forall (fun g => snd g <> []) d.
Proof.
  intros Hne H. pose proof (group_keys articles [] d H) as Hk. cbn [map app] in Hk.
  rewrite (filter_ext _ (fun _ => true)) in Hk by reflexivity.
  rewrite filter_true in Hk. split; [|split].
  - intros ->. cbn in Hk. symmetry in Hk. revert Hk. apply first_seen_nonempty.
    pose proof (group_outcome articles []) as Ho. rewrite H in Ho.
    destruct articles as [|a rest]; [contradiction|].
    cbn [existsb] in Ho. apply orb_false_iff in Ho as [Ha _].
    unfold source_keys. cbn [flat_map]. unfold lacks_source in Ha.
    destruct (source a); [discriminate | discriminate].
  - rewrite Hk. apply first_seen_NoDup.
  - apply (group_sizes articles [] d H). constructor.
Qed.

End GroupingFacts.

(** X2. Grouping keeps the first-seen order of the sources and the input
    order of the articles of each source: the keys of the dictionary are the
    distinct sources in the order of their first occurrence, and looking up
    a source gives exactly the articles of that source, in input order
    (nothing for a source that no article has). *)
Theorem group_by_source_first_seen (articles : list Article)
    (d : list (string * list Article)) :
  group_by_source articles [] = Returned d ->
  map fst d = first_seen (source_keys articles) /\
  NoDup (map fst d) /\
  (forall k, lookup k d =
             if existsb (has_source k) articles
             then Some (filter (has_source k) articles)
             else None).
Proof.
  intros H. pose proof (group_keys articles [] d H) as Hk. cbn [map app] in Hk.
  rewrite (filter_ext _ (fun _ => true)) in Hk by reflexivity.
  rewrite filter_true in Hk. split; [exact Hk|]. split.
  - rewrite Hk. apply first_seen_NoDup.
  - intros k. rewrite (group_lookup articles [] d H k). cbn [lookup].
    destruct (filter (has_source k) articles) as [|a l] eqn:E.
    + apply existsb_filter_nil in E. now rewrite E.
    + destruct (existsb (has_source k) articles) eqn:Ee; [reflexivity|].
      apply existsb_filter_nil in Ee. congruence.
Qed.

Lemma group_by_source_first_seen_witness :
  group_by_source [toc_article; plain_article; toc_article] [] =
    Returned [("ethereum_blog", [toc_article; toc_article]);
              ("solana_news", [plain_article])] /\
  lookup "solana_news" [("ethereum_blog", [toc_article; toc_article]);
                        ("solana_news", [plain_article])] = Some [plain_article].
Proof.
  split; [reflexivity|].
  destruct (group_by_source_first_seen [toc_article; plain_article; toc_article]
              [("ethereum_blog", [toc_article; toc_article]);
               ("solana_news", [plain_article])] eq_refl) as (_ & _ & Hl).
  exact (Hl "solana_news").
Defined.

(** ** Structure of the report *)

Section ReportFacts.

Variable lib : PyLib.

Lemma last_app_one {A : Type} (l : list A) (x y : A) : last (l ++ [x]) y = x.
Proof.
  induction l as [|a l IH]; [reflexivity|].
  cbn [app last]. destruct (l ++ [x]) eqn:E; [now destruct l | exact IH].
Qed.

Lemma flat_map_agree {A B : Type} (f g : A -> list B) (l : list A) :
  (forall x, In x l -> f x = g x) -> flat_map f l = flat_map g l.
Proof.
  induction l as [|x l IH]; intros H; [reflexivity|]. cbn [flat_map].
  rewrite (H x (or_introl eq_refl)), IH; [reflexivity|].
  intros y Hy. apply H. now right.
Qed.

(** Where every block of a story can be built, so can the blocks of each
    of its parts. *)
Lemma first_error_flat_map {A : Type} (f : A -> list Flowable) (l : list A) :
  first_error lib (flat_map f l) = None ->
  forall x, In x l -> first_error lib (f x) = None.
Proof.
  induction l as [|y l IH]; cbn [flat_map]; intros H x Hx; [destruct Hx|].
  apply first_error_none_app in H as [Hy Hl].
  destruct Hx as [<-|Hx]; [exact Hy | now apply IH].
Qed.

Lemma source_parts_blocks (body : list element -> list Flowable) (count : nat)
    (last_key : string) (group : string * list Article) :
  source_parts body lib count last_key group =
  source_blocks lib (article_parts body lib) group ++
  (if (1 <? count) && negb (String.eqb (fst group) last_key) then [PageBreak] else []).
Proof. reflexivity. Qed.

(** A page break follows every group but the last. *)
Lemma story_parts_spec (body : list element -> list Flowable)
    (d1 : list (string * list Article)) (g : string * list Article) :
  NoDup (map fst (d1 ++ [g])) ->
  story_parts body lib (d1 ++ [g]) =
  flat_map (fun x => source_blocks lib (article_parts body lib) x ++ [PageBreak]) d1 ++
  source_blocks lib (article_parts body lib) g.
Proof.
  intros Hnd. unfold story_parts. rewrite last_app_one, flat_map_app.
  cbn [flat_map]. rewrite source_parts_blocks.
  rewrite String.eqb_refl, andb_false_r, !app_nil_r. f_equal.
  apply flat_map_agree. intros x Hx. rewrite source_parts_blocks. f_equal.
  assert (Hlen : (1 <? List.length (d1 ++ [g])) = true).
  { apply Nat.ltb_lt. rewrite length_app. cbn.
    destruct d1; [contradiction | cbn; lia]. }
  rewrite Hlen. cbn [andb].
  destruct (String.eqb (fst x) (fst g)) eqn:E; [|reflexivity].
  exfalso. apply String.eqb_eq in E.
  rewrite map_app in Hnd. cbn [map] in Hnd.
  apply NoDup_remove_2 in Hnd. rewrite app_nil_r in Hnd.
  apply Hnd. rewrite <- E. now apply in_map.
Qed.

(** Every article ends on the spacer that follows its body. *)
Lemma article_parts_last (body : list element -> list Flowable) (article : Article) :
  exists blocks, article_parts body lib article = blocks ++ [Spacer 1 15].
Proof. unfold article_parts. eexists. rewrite app_assoc. reflexivity. Qed.

(** In a story that is built, every article is. *)
Lemma article_built (d : list (string * list Article)) :
  first_error lib (story_parts (flat_map requests) lib d) = None ->
  forall g a, In g d -> In a (snd g) ->
    add_article lib [] a = Returned (article_parts (planned []) lib a).
Proof.
  intros H g a Hg Ha. rewrite add_article_spec. apply checked_returned.
  split; [|reflexivity].
  unfold story_parts in H. apply (first_error_flat_map _ _ H) in Hg.
  rewrite source_parts_blocks in Hg. apply first_error_none_app in Hg as [Hg _].
  unfold source_blocks in Hg.
  apply (first_error_none_app lib [_]) in Hg as [_ Hg].
  exact (first_error_flat_map _ _ Hg a Ha).
Qed.

Lemma source_blocks_agree (f f' : Article -> list Flowable)
    (g : string * list Article) :
  (forall a, In a (snd g) -> f a = f' a) ->
  source_blocks lib f g = source_blocks lib f' g.
Proof.
  intros H. unfold source_blocks. f_equal. now apply flat_map_agree.
Qed.

(** What [generate_report] returns and writes when the articles group. *)
Lemma generate_report_returned (output_filename : string) (articles : list Article)
    (fs : FileSystem) (d : list (string * list Article)) :
  group_by_source articles [] = Returned d ->
  snd (generate_report lib output_filename articles fs) = Returned output_filename ->
  articles <> [] /\
  first_error lib (story_parts (flat_map requests) lib d) = None /\
  generate_report lib output_filename articles fs =
    (doc_build output_filename (report_header lib ++ story_parts (planned []) lib d) fs,
     Returned output_filename).
Proof.
  intros H. unfold generate_report. destruct articles as [|a rest]; [discriminate|].
  rewrite H, build_story_spec. unfold checked.
  destruct (first_error lib _); [discriminate|]. intros _.
  split; [discriminate|]. split; reflexivity.
Qed.

End ReportFacts.

(** X3. Where [generate_report] returns, the story it wrote is the report
    header followed by the source groups in first-seen order: every group is
    its source header and then the blocks of its articles in input order,
    each article built as it is on its own; a page break follows every group
    but the last, and the story ends on the spacer of the last article,
    never on a page break. *)
Theorem report_story_structure (lib : PyLib) (output_filename : string)
    (articles : list Article) (fs : FileSystem) (d : list (string * list Article)) :
  group_by_source articles [] = Returned d ->
  snd (generate_report lib output_filename articles fs) = Returned output_filename ->
  (forall g a, In g d -> In a (snd g) ->
     exists blocks, add_article lib [] a = Returned blocks) /\
  written_story (generate_report lib output_filename articles fs) =
    report_header lib ++
    flat_map (fun g => source_blocks lib (fun a => returned_story (add_article lib [] a)) g
                       ++ [PageBreak]) (removelast d) ++
    source_blocks lib (fun a => returned_story (add_article lib [] a))
                  (last d (EmptyString, [])) /\
  last (written_story (generate_report lib output_filename articles fs)) PageBreak =
    Spacer 1 15.
Proof.
  intros H Hr.
  destruct (generate_report_returned lib output_filename articles fs d H Hr)
    as (Hne & Hbuilt & ->).
  destruct (group_by_source_keys_nonempty articles d Hne H) as (Hd & Hnd & Hsz).
  assert (Ed : d = removelast d ++ [last d (EmptyString, [])])
    by now apply app_removelast_last.
  assert (Hart := article_built lib d Hbuilt).
  assert (Ein : forall g, In g d ->
            source_blocks lib (fun a => returned_story (add_article lib [] a)) g =
            source_blocks lib (article_parts (planned []) lib) g).
  { intros g Hg. apply source_blocks_agree. intros a Ha.
    now rewrite (Hart g a Hg Ha). }
  assert (Es : story_parts (planned []) lib d =
               flat_map (fun g => source_blocks lib (article_parts (planned []) lib) g
                                  ++ [PageBreak]) (removelast d) ++
               source_blocks lib (article_parts (planned []) lib)
                             (last d (EmptyString, []))).
  { rewrite Ed at 1. rewrite Ed in Hnd. exact (story_parts_spec lib _ _ _ Hnd). }
  assert (Hin_last : In (last d (EmptyString, [])) d).
  { rewrite Ed at 2. apply in_or_app. right. now left. }
  split; [|split].
  - intros g a Hg Ha. eexists. exact (Hart g a Hg Ha).
  - unfold written_story, doc_build. cbn [fst]. rewrite Es. f_equal. f_equal.
    + apply flat_map_agree. intros g Hg. rewrite Ein; [reflexivity|].
      rewrite Ed. apply in_or_app. now left.
    + symmetry. now apply Ein.
  - unfold written_story, doc_build. cbn [fst]. rewrite Es.
    assert (Hlast : snd (last d (EmptyString, [])) <> []).
    { rewrite Forall_forall in Hsz. now apply Hsz. }
    destruct (last d (EmptyString, [])) as [k arts]. cbn [fst snd] in *.
    unfold source_blocks. cbn [fst snd].
    destruct (exists_last Hlast) as (arts' & a & ->).
    rewrite flat_map_app. cbn [flat_map]. rewrite app_nil_r.
    destruct (article_parts_last lib (planned []) a) as [blocks ->].
    rewrite !app_comm_cons, !app_assoc. apply last_app_one.
Qed.

Lemma report_story_structure_witness :
  add_article sample_lib [] plain_article =
    Returned [Paragraph "Upgrade" title_style;
              Paragraph "Published: soon" date_style;
              Paragraph "Link: https://solana.com/news" link_style;
              Paragraph "A short note." summary_style;
              Spacer 1 15] /\
  written_story
    (generate_report sample_lib "report.pdf" [plain_article; toc_article] []) =
    report_header sample_lib ++
    (Paragraph "Solana News" source_header_style ::
     returned_story (add_article sample_lib [] plain_article)) ++ [PageBreak] ++
    Paragraph "Ethereum Blog" source_header_style ::
    returned_story (add_article sample_lib [] toc_article) /\
  last (written_story
          (generate_report sample_lib "report.pdf" [plain_article; toc_article] []))
       PageBreak = Spacer 1 15.
Proof.
  destruct (report_story_structure sample_lib "report.pdf" [plain_article; toc_article] []
              [("solana_news", [plain_article]); ("ethereum_blog", [toc_article])]
              eq_refl eq_refl) as (_ & Hs & Hl).
  split; [reflexivity|]. split; [|exact Hl].
  rewrite Hs. reflexivity.
Defined.

(** X4. For a list that is not empty, [generate_report] raises the key
    error for the source key exactly when some article has no source,
    whatever the other articles are, and it then writes no file. *)
Theorem generate_report_missing_source (lib : PyLib) (output_filename : string)
    (articles : list Article) (fs : FileSystem) :
  articles <> [] ->
  (existsb lacks_source articles = true <->
   generate_report lib output_filename articles fs = (fs, Raised (KeyError "source"))).
Proof.
  intros Hne. unfold generate_report. destruct articles as [|a rest]; [congruence|].
  pose proof (group_outcome (a :: rest) []) as Ho.
  destruct (group_by_source (a :: rest) []) as [d|e].
  - rewrite Ho. split; [discriminate|].
    destruct (build_story lib d) as [story|e] eqn:Eb; [discriminate|].
    apply build_story_raises in Eb as [message ->]. discriminate.
  - destruct Ho as [-> Ho]. rewrite Ho. split; reflexivity.
Qed.

Lemma generate_report_missing_source_witness :
  generate_report sample_lib "report.pdf"
    [plain_article;
     {| source := None; title := Some "t"; link := None; date := None; summary := None |}]
    [("old.pdf", [])] =
  ([("old.pdf", [])], Raised (KeyError "source")).
Proof.
  apply (generate_report_missing_source sample_lib "report.pdf"
    [plain_article;
     {| source := None; title := Some "t"; link := None; date := None; summary := None |}]
    [("old.pdf", [])]); [discriminate | reflexivity].
Defined.

(** ** Tokenizer: blank text *)

Section BlankFacts.

Lemma active_snoc (els : list element) (e : element) (cp : string) :
  active (els ++ [e], cp) = true.
Proof. unfold active. cbn [fst]. now destruct els. Qed.

Lemma active_flush (st : parser_state) : active (flush_paragraph st) = active st.
Proof.
  destruct st as [els cp]. unfold flush_paragraph.
  destruct (Py.nonempty cp) eqn:E; [|reflexivity].
  rewrite active_snoc. unfold active. cbn [fst snd]. rewrite E. now destruct els.
Qed.

Lemma flush_empty (st : parser_state) :
  fst (flush_paragraph st) = [] <-> active st = false.
Proof.
  destruct st as [els cp]. unfold flush_paragraph, active. cbn [fst snd].
  destruct (Py.nonempty cp); cbn [fst].
  - destruct els; cbn; split; discriminate.
  - destruct els; cbn; split; congruence.
Qed.

Lemma append_nonempty_r (a b : string) : Py.nonempty b = true -> Py.nonempty (a +++ b) = true.
Proof. destruct a; [trivial | reflexivity]. Qed.

(** One iteration: the parser becomes active on any line that is not
    blank, and stays as it is, up to a flush, on a blank one. *)
Lemma parse_line_active (st : parser_state) (l : string) :
  active (parse_line st l) = active st || negb (blank l).
Proof.
  unfold parse_line, blank. cbv zeta. rewrite negb_involutive.
  destruct (Py.nonempty (Py.strip l)) eqn:El; cbn [negb].
  2:{ rewrite orb_false_r. apply active_flush. }
  rewrite orb_true_r.
  destruct (Py.startswith "#" (Py.strip l)).
  { destruct (flush_paragraph st) as [els cp]. apply active_snoc. }
  destruct (bullet_match (Py.strip l)).
  { destruct (flush_paragraph st) as [els cp]. apply active_snoc. }
  set (st' := if numbered_match (Py.strip l) then flush_paragraph st else st).
  destruct (if numbered_match (Py.strip l) then Py.split_once ". " (Py.strip l)
            else (Py.strip l, None)) as [number [rest|]].
  { destruct st' as [els cp]. apply active_snoc. }
  destruct (Py.startswith "> " (Py.strip l)).
  { destruct (flush_paragraph st') as [els cp]. apply active_snoc. }
  destruct (is_rule (Py.strip l)).
  { destruct (flush_paragraph st') as [els cp]. apply active_snoc. }
  destruct st' as [els cp]. unfold active. cbn [fst snd].
  destruct els; [|reflexivity].
  destruct (Py.nonempty cp); [|exact El].
  apply append_nonempty_r. reflexivity.
Qed.

Lemma fold_parse_active (lines : list string) :
  forall st,
    active (fold_left parse_line lines st) =
    active st || existsb (fun l => negb (blank l)) lines.
Proof.
  induction lines as [|l lines IH]; intros st; cbn [fold_left existsb].
  - now rewrite orb_false_r.
  - rewrite IH, parse_line_active. now rewrite orb_assoc.
Qed.

Lemma existsb_negb_forallb {A : Type} (f : A -> bool) (l : list A) :
  existsb (fun x => negb (f x)) l = false <-> forallb f l = true.
Proof.
  induction l as [|x l IH]; [now split|]. cbn [existsb forallb].
  destruct (f x); cbn [negb orb andb]; [exact IH | split; discriminate].
Qed.

End BlankFacts.

(** X5. The tokenizer yields no element exactly when every line of the text
    (after the replacement of the escape sequences) is blank; any line with
    a visible character gives at least one element. *)
Theorem parse_markdown_empty_iff_blank (text : string) :
  _parse_markdown_enhanced text = [] <-> forallb blank (source_lines text) = true.
Proof.
  unfold _parse_markdown_enhanced, source_lines.
  destruct (Py.nonempty text) eqn:Et; cbn [negb].
  - cbv zeta. rewrite flush_empty, fold_parse_active. cbn [active fst snd Py.nonempty orb].
    apply existsb_negb_forallb.
  - destruct text; [|discriminate]. now split.
Qed.

(** X6. A structured summary whose lines are all blank adds nothing to
    the story: no paragraph, no group and no table of contents; the call
    returns the story it was given. *)
Theorem add_summary_blank (lib : PyLib) (story : list Flowable) (summary : string) :
  is_structured summary = true -> forallb blank (source_lines summary) = true ->
  add_summary lib story summary = Returned story.
Proof.
  intros Hs Hb. unfold add_summary. rewrite Hs.
  assert (E : _parse_markdown_enhanced summary = []).
  { unfold _parse_markdown_enhanced. destruct (Py.nonempty summary); [|reflexivity].
    cbn [negb]. cbv zeta. fold (source_lines summary).
    apply flush_empty. rewrite fold_parse_active.
    cbn [active fst snd Py.nonempty orb]. now apply existsb_negb_forallb. }
  rewrite E. reflexivity.
Qed.

Lemma add_summary_blank_witness :
  add_summary sample_lib [Spacer 1 20] "\n  \n\t" = Returned [Spacer 1 20].
Proof.
  exact (add_summary_blank sample_lib [Spacer 1 20] "\n  \n\t" eq_refl eq_refl).
Defined.

(** ** Tokenizer: escaped line breaks *)

Section EscapeFacts.

Variables a b c : ascii.
Hypothesis c_not_a : Ascii.eqb c a = false.
Hypothesis c_not_b : Ascii.eqb c b = false.

Let old := String a (String b EmptyString).
Let new := String c EmptyString.

Lemma replace_match (rest : string) :
  Py.replace_from old new (String a (String b rest)) 0 =
  String c (Py.replace_from old new rest 0).
Proof.
  unfold old, new. cbn [Py.replace_from]. rewrite !prefix_cons, !Ascii.eqb_refl.
  rewrite prefix_nil. reflexivity.
Qed.

Lemma replace_skip (x : ascii) (s : string) :
  prefix old (String x s) = false ->
  Py.replace_from old new (String x s) 0 = String x (Py.replace_from old new s 0).
Proof. intros H. cbn [Py.replace_from]. now rewrite H. Qed.

Lemma prefix_old (x : ascii) (s : string) :
  prefix old (String x s) = Ascii.eqb a x && starts b s.
Proof.
  unfold old. rewrite prefix_cons. destruct s as [|y s]; [reflexivity|].
  rewrite prefix_cons, prefix_nil, andb_true_r. cbn [starts].
  now rewrite (Ascii.eqb_sym b y).
Qed.

Lemma replace_starts (n : nat) :
  forall s, String.length s <= n ->
    starts b (Py.replace_from old new s 0) = true -> starts b s = true.
Proof.
  destruct n as [|n]; intros s Hlen H.
  - destruct s; [discriminate | cbn in Hlen; lia].
  - destruct s as [|x s]; [discriminate|].
    destruct (prefix old (String x s)) eqn:Ep.
    + rewrite prefix_old in Ep. apply andb_true_iff in Ep as [Ex Es].
      apply Ascii.eqb_eq in Ex as <-. destruct s as [|y s]; [discriminate|].
      cbn [starts] in Es. apply Ascii.eqb_eq in Es as ->.
      rewrite replace_match in H. cbn [starts] in H. congruence.
    + rewrite (replace_skip x s Ep) in H. exact H.
Qed.

(** After the replacement the old sequence occurs nowhere. *)
Lemma replace_clears (n : nat) :
  forall s, String.length s <= n ->
    Py.contains old (Py.replace_from old new s 0) = false.
Proof.
  induction n as [|n IH]; intros s Hlen.
  - destruct s; [reflexivity | cbn in Hlen; lia].
  - destruct s as [|x s]; [reflexivity|].
    destruct (prefix old (String x s)) eqn:Ep.
    + rewrite prefix_old in Ep. apply andb_true_iff in Ep as [Ex Es].
      apply Ascii.eqb_eq in Ex as <-. destruct s as [|y s]; [discriminate|].
      cbn [starts] in Es. apply Ascii.eqb_eq in Es as ->.
      rewrite replace_match. cbn [Py.contains]. rewrite prefix_old.
      rewrite (Ascii.eqb_sym a c), c_not_a. cbn [andb orb].
      apply IH. cbn in Hlen. lia.
    + rewrite (replace_skip x s Ep). cbn [Py.contains].
      rewrite IH by (cbn in Hlen; lia). rewrite orb_false_r.
      rewrite prefix_old in *. destruct (Ascii.eqb a x); [|reflexivity].
      cbn [andb] in *.
      destruct (starts b (Py.replace_from old new s 0)) eqn:E; [|reflexivity].
      rewrite (replace_starts (String.length s) s (le_n _) E) in Ep. discriminate.
Qed.

Lemma replace_nonempty (s : string) :
  Py.nonempty (Py.replace old new s) = Py.nonempty s.
Proof.
  unfold Py.replace. destruct s as [|x s]; [reflexivity|].
  cbn [Py.replace_from]. now destruct (prefix old (String x s)).
Qed.

Lemma replace_idempotent (s : string) :
  Py.replace old new (Py.replace old new s) = Py.replace old new s.
Proof.
  apply replace_absent. unfold Py.replace. apply (replace_clears (String.length s)). lia.
Qed.

End EscapeFacts.

(** X7. An escaped line break and a real one are tokenized alike: replacing
    the escape sequences by line breaks beforehand does not change the
    elements. *)
Theorem parse_markdown_escaped_newline (text : string) :
  _parse_markdown_enhanced (Py.replace "\n" (String newline EmptyString) text) =
  _parse_markdown_enhanced text.
Proof.
  unfold _parse_markdown_enhanced.
  rewrite (replace_nonempty "\"%char "n"%char newline).
  rewrite (replace_idempotent "\"%char "n"%char newline eq_refl eq_refl).
  reflexivity.
Qed.

(** ** Tokenizer: no empty text *)

Section VisibleFacts.

Lemma lstrip_nonempty (s : string) : Py.nonempty (Py.lstrip s) = has_visible s.
Proof.
  induction s as [|c s IH]; [reflexivity|]. cbn [Py.lstrip has_visible].
  destruct (Py.isspace c); [exact IH | reflexivity].
Qed.

Lemma rstrip_nonempty (s : string) : Py.nonempty (Py.rstrip s) = has_visible s.
Proof.
  induction s as [|c s IH]; [reflexivity|]. cbn [Py.rstrip has_visible].
  destruct (Py.rstrip s); cbn [Py.nonempty] in *; rewrite <- IH.
  - now destruct (Py.isspace c).
  - now rewrite orb_true_r.
Qed.

Lemma has_visible_lstrip (s : string) : has_visible (Py.lstrip s) = has_visible s.
Proof.
  induction s as [|c s IH]; [reflexivity|]. cbn [Py.lstrip].
  destruct (Py.isspace c) eqn:E; [|reflexivity].
  cbn [has_visible]. now rewrite E.
Qed.

Lemma strip_nonempty (s : string) : Py.nonempty (Py.strip s) = has_visible s.
Proof. unfold Py.strip. now rewrite rstrip_nonempty, has_visible_lstrip. Qed.

Lemma has_visible_append (a b : string) :
  has_visible (a +++ b) = has_visible a || has_visible b.
Proof.
  induction a as [|c a IH]; [reflexivity|]. cbn [String.append has_visible].
  now rewrite IH, orb_assoc.
Qed.

Lemma has_visible_rstrip (s : string) : has_visible (Py.rstrip s) = has_visible s.
Proof.
  induction s as [|c s IH]; [reflexivity|]. cbn [Py.rstrip].
  destruct (Py.rstrip s) as [|d r] eqn:E.
  - cbn [has_visible] in *. rewrite <- IH.
    destruct (Py.isspace c) eqn:Ec; cbn [has_visible]; rewrite ?Ec; reflexivity.
  - cbn [has_visible] in *. now rewrite IH.
Qed.

Lemma has_visible_strip (s : string) : has_visible (Py.strip s) = has_visible s.
Proof. unfold Py.strip. now rewrite has_visible_rstrip, has_visible_lstrip. Qed.

Lemma rstrip_rstrip (s : string) : Py.rstrip (Py.rstrip s) = Py.rstrip s.
Proof.
  induction s as [|c s IH]; [reflexivity|]. cbn [Py.rstrip].
  destruct (Py.rstrip s) as [|d r] eqn:E.
  - destruct (Py.isspace c) eqn:Ec; [reflexivity|]. cbn [Py.rstrip]. now rewrite Ec.
  - rewrite rstrip_cons; [now rewrite IH | now rewrite IH].
Qed.

(** In a right-stripped string every non-empty suffix has a visible
    character. *)
Lemma rstrip_suffix_visible (a b : string) :
  Py.rstrip (a +++ b) = a +++ b -> Py.nonempty b = true -> has_visible b = true.
Proof.
  induction a as [|c a IH]; cbn [String.append]; intros H Hb.
  - rewrite <- rstrip_nonempty, H. exact Hb.
  - cbn [Py.rstrip] in H. destruct (Py.rstrip (a +++ b)) as [|d r] eqn:E.
    + destruct (Py.isspace c); [discriminate|].
      injection H as H. destruct a; [|discriminate].
      cbn [String.append] in H. rewrite <- H in Hb. discriminate.
    + injection H as H. apply IH; [exact H | exact Hb].
Qed.

Lemma strip_suffix_visible (l a b : string) :
  Py.strip l = a +++ b -> Py.nonempty b = true -> has_visible b = true.
Proof.
  intros H. apply (rstrip_suffix_visible a). rewrite <- H.
  unfold Py.strip. apply rstrip_rstrip.
Qed.

Lemma split_once_sound (sep : string) :
  forall s number rest,
    Py.split_once sep s = (number, Some rest) -> s = number +++ sep +++ rest.
Proof.
  induction s as [|c s IH]; intros number rest H.
  - cbn [Py.split_once] in H. destruct (prefix sep ""%string) eqn:Ep; [|discriminate].
    injection H as <- <-. destruct sep; [reflexivity | discriminate].
  - cbn [Py.split_once] in H. fold (Py.split_once sep s) in H.
    destruct (prefix sep (String c s)) eqn:Ep.
    + injection H as <- <-. apply prefix_split in Ep as [b Eb]. rewrite Eb.
      now rewrite drop_append_length.
    + destruct (Py.split_once sep s) as [h t] eqn:Es. injection H as <- ->.
      cbn [String.append]. f_equal. now apply IH.
Qed.

Lemma sub_nonempty (p : list item) (c : ascii) (t : string) (repl : list piece)
    (s : string) :
  Py.nonempty s = true ->
  Py.nonempty (Re.sub p (Text (String c t) :: repl) s) = true.
Proof.
  unfold Re.sub. destruct s as [|a s]; [discriminate|]. intros _.
  cbn [sub_from]. destruct (match_items p None (String a s)) as [[caps [|n]]|];
    reflexivity.
Qed.

(** The formatter never empties a text. *)
Lemma process_markdown_text_nonempty (s : string) :
  Py.nonempty (_process_markdown_text s) = Py.nonempty s.
Proof.
  unfold _process_markdown_text. destruct (Py.nonempty s) eqn:E; cbn [negb]; [|exact E].
  cbv zeta. unfold link_repl, _process_code_text, code_repl, _process_italic_text,
    italic_repl, _process_bold_text, bold_repl.
  cbn [String.append]. repeat apply sub_nonempty. exact E.
Qed.

Lemma process_strip_visible (s : string) :
  has_visible s = true -> _process_markdown_text (Py.strip s) <> EmptyString.
Proof.
  intros H E.
  assert (N : Py.nonempty (_process_markdown_text (Py.strip s)) = true)
    by now rewrite process_markdown_text_nonempty, strip_nonempty.
  rewrite E in N. discriminate.
Qed.

Lemma flush_visible (st : parser_state) :
  open_visible st -> open_visible (flush_paragraph st).
Proof.
  destruct st as [els cp]. unfold open_visible, flush_paragraph. cbn [fst snd].
  intros [Hels Hcp]. destruct (Py.nonempty cp) eqn:E; cbn [fst snd].
  - split; [|discriminate]. apply Forall_app. split; [exact Hels|].
    constructor; [|constructor]. cbn [has_text]. apply process_strip_visible. now apply Hcp.
  - split; [exact Hels | now rewrite E].
Qed.

Lemma snoc_visible (els : list element) (cp : string) (e : element) :
  open_visible (els, cp) -> has_text e -> open_visible (els ++ [e], cp).
Proof.
  unfold open_visible. cbn [fst snd]. intros [Hels Hcp] He.
  split; [|exact Hcp]. apply Forall_app. split; [exact Hels | now repeat constructor].
Qed.

Lemma drop_two (c d : ascii) (rest : string) : Py.drop 2 (String c (String d rest)) = rest.
Proof. reflexivity. Qed.

Lemma parse_line_visible (st : parser_state) (l : string) :
  open_visible st -> open_visible (parse_line st l).
Proof.
  intros Hst. unfold parse_line. cbv zeta.
  destruct (Py.nonempty (Py.strip l)) eqn:El; cbn [negb]; [|now apply flush_visible].
  destruct (Py.startswith "#" (Py.strip l)) eqn:Eh.
  { pose proof (flush_visible st Hst) as Hf. destruct (flush_paragraph st) as [els cp].
    apply snoc_visible; [exact Hf|]. cbn [has_text].
    unfold Py.startswith in Eh. destruct (Py.strip l) as [|c s]; [discriminate|].
    rewrite prefix_cons in Eh. apply andb_true_iff in Eh as [Eh _].
    cbn [count_hashes]. unfold hash. rewrite Ascii.eqb_sym, Eh. lia. }
  destruct (bullet_match (Py.strip l)) eqn:Eb.
  { pose proof (flush_visible st Hst) as Hf. destruct (flush_paragraph st) as [els cp].
    apply snoc_visible; [exact Hf|]. cbn [has_text]. apply process_strip_visible.
    destruct (Py.strip l) as [|c [|d rest]] eqn:Es; try discriminate.
    cbn [bullet_match] in Eb. apply andb_true_iff in Eb as [_ Ed].
    rewrite drop_two.
    pose proof (strip_suffix_visible l (String c EmptyString) (String d rest) Es eq_refl) as V.
    cbn [has_visible] in V. now rewrite Ed in V. }
  destruct (numbered_match (Py.strip l)) eqn:En.
  - destruct (Py.split_once ". " (Py.strip l)) as [number [rest|]] eqn:Esp.
    + pose proof (flush_visible st Hst) as Hf. destruct (flush_paragraph st) as [els cp].
      apply snoc_visible; [exact Hf|]. cbn [has_text]. apply process_strip_visible.
      apply split_once_sound in Esp.
      assert (Es : Py.strip l = (number +++ ".") +++ (" " +++ rest))
        by (rewrite Esp, append_assoc_s; reflexivity).
      exact (strip_suffix_visible l _ _ Es eq_refl).
    + destruct (Py.startswith "> " (Py.strip l)) eqn:Eq.
      { destruct (Py.strip l) as [|c s]; [discriminate|].
        cbn [numbered_match] in En. apply andb_true_iff in En as [Ec _].
        unfold Py.startswith in Eq. rewrite prefix_cons in Eq.
        apply andb_true_iff in Eq as [Eq _]. apply Ascii.eqb_eq in Eq as <-. discriminate. }
      destruct (is_rule (Py.strip l)) eqn:Er.
      { destruct (Py.strip l) as [|c s]; [discriminate|].
        cbn [numbered_match] in En. apply andb_true_iff in En as [Ec _].
        unfold is_rule in Er. 
        destruct (String.eqb_spec (String c s) "---") as [E1|_];
          [injection E1 as -> _; discriminate|].
        destruct (String.eqb_spec (String c s) "***") as [E1|_];
          [injection E1 as -> _; discriminate|].
        destruct (String.eqb_spec (String c s) "___") as [E1|_];
          [injection E1 as -> _; discriminate|]. discriminate. }
      pose proof (flush_visible st Hst) as Hf. destruct (flush_paragraph st) as [els cp].
      destruct Hf as [Hels Hcp]. split; [exact Hels|]. cbn [fst snd] in *. intros _.
      assert (V : has_visible (Py.strip l) = true)
        by now rewrite has_visible_strip, <- strip_nonempty.
      destruct (Py.nonempty cp); [|exact V].
      rewrite !has_visible_append, V. now rewrite !orb_true_r.
  - destruct (Py.startswith "> " (Py.strip l)) eqn:Eq.
    { pose proof (flush_visible st Hst) as Hf. destruct (flush_paragraph st) as [els cp].
      apply snoc_visible; [exact Hf|]. cbn [has_text]. apply process_strip_visible.
      unfold Py.startswith in Eq. apply prefix_split in Eq as [rest Es].
      rewrite Es. cbn [String.append]. rewrite drop_two.
      exact (strip_suffix_visible l ">" (String " " rest) Es eq_refl). }
    destruct (is_rule (Py.strip l)).
    { pose proof (flush_visible st Hst) as Hf. destruct (flush_paragraph st) as [els cp].
      now apply snoc_visible. }
    destruct st as [els cp]. destruct Hst as [Hels Hcp]. split; [exact Hels|].
    cbn [fst snd] in *. intros _.
    assert (V : has_visible (Py.strip l) = true)
      by now rewrite has_visible_strip, <- strip_nonempty.
    destruct (Py.nonempty cp); [|exact V].
    rewrite !has_visible_append, V. now rewrite !orb_true_r.
Qed.

Lemma fold_parse_visible (lines : list string) :
  forall st, open_visible st -> open_visible (fold_left parse_line lines st).
Proof.
  induction lines as [|l lines IH]; intros st H; [exact H|].
  cbn [fold_left]. apply IH. now apply parse_line_visible.
Qed.

End VisibleFacts.

(** X8. Whatever the text, the tokenizer never yields a paragraph, list item,
    numbered item or quote with an empty text, and every header it yields
    has a level of at least one; only a header may have an empty text. *)
Theorem parse_markdown_no_empty_text (text : string) :
  Forall has_text (_parse_markdown_enhanced text).
Proof.
  unfold _parse_markdown_enhanced. destruct (Py.nonempty text); cbn [negb]; [|constructor].
  cbv zeta. apply flush_visible. apply fold_parse_visible.
  split; [constructor | discriminate].
Qed.

(** ** Tokenizer: soft-wrapped paragraphs *)

Section PlainFacts.

Lemma plain_line_step (els : list element) (cp l : string) :
  plain_line l = true ->
  parse_line (els, cp) l =
  (els, if Py.nonempty cp then cp +++ " " +++ Py.strip l else Py.strip l).
Proof.
  unfold plain_line, parse_line. cbv zeta. intros H.
  repeat (apply andb_true_iff in H as [H ?]).
  repeat match goal with E : negb _ = true |- _ => apply negb_true_iff in E end.
  rewrite H. cbn [negb].
  repeat match goal with E : _ = false |- _ => rewrite E end.
  reflexivity.
Qed.

Lemma join_cons_append (sep a b : string) (rest : list string) :
  join sep ((a +++ sep +++ b) :: rest) = a +++ sep +++ join sep (b :: rest).
Proof.
  destruct rest as [|r rest]; [reflexivity|].
  cbn [join]. now rewrite !append_assoc_s.
Qed.

Lemma fold_plain_lines (els : list element) (lines : list string) :
  forall cp,
    Py.nonempty cp = true -> forallb plain_line lines = true ->
    fold_left parse_line lines (els, cp) = (els, join " " (cp :: map Py.strip lines)).
Proof.
  induction lines as [|l lines IH]; intros cp Hcp H; [reflexivity|].
  cbn [forallb] in H. apply andb_true_iff in H as [Hl H].
  cbn [fold_left map]. rewrite (plain_line_step els cp l Hl), Hcp.
  rewrite IH; [|now apply append_nonempty_r | exact H].
  now rewrite join_cons_append.
Qed.

Lemma plain_line_visible (l : string) :
  plain_line l = true -> Py.nonempty (Py.strip l) = true.
Proof.
  unfold plain_line. intros H. repeat (apply andb_true_iff in H as [H _]). exact H.
Qed.

Lemma lstrip_visible_head (c : ascii) (s : string) :
  Py.isspace c = false -> Py.lstrip (String c s) = String c s.
Proof. intros H. cbn [Py.lstrip]. now rewrite H. Qed.

Lemma lstrip_head (l : string) :
  match Py.lstrip l with
  | String c _ => Py.isspace c = false
  | EmptyString => True
  end.
Proof.
  induction l as [|c l IH]; [exact I|]. cbn [Py.lstrip].
  destruct (Py.isspace c) eqn:E; [exact IH | exact E].
Qed.

Lemma strip_head (l : string) :
  match Py.strip l with
  | String c _ => Py.isspace c = false
  | EmptyString => True
  end.
Proof.
  unfold Py.strip. pose proof (lstrip_head l) as H.
  destruct (Py.lstrip l) as [|c s]; [exact I|].
  cbn [Py.rstrip]. destruct (Py.rstrip s); [|exact H].
  now rewrite H.
Qed.

(** Stripped, non-empty lines joined by spaces form a stripped text. *)
Lemma strip_join (lines : list string) :
  lines <> [] ->
  Forall (fun l => Py.nonempty (Py.strip l) = true) lines ->
  Py.strip (join " " (map Py.strip lines)) = join " " (map Py.strip lines) /\
  Py.nonempty (join " " (map Py.strip lines)) = true.
Proof.
  induction lines as [|l lines IH]; [congruence|]. intros _ H.
  inversion H as [|? ? Hl Hrest]; subst.
  assert (Hr : Py.rstrip (Py.strip l) = Py.strip l) by apply rstrip_rstrip.
  pose proof (strip_head l) as Hh.
  destruct lines as [|l' lines].
  - cbn [map join]. split; [|exact Hl].
    unfold Py.strip at 1. destruct (Py.strip l) as [|c s] eqn:E; [discriminate|].
    now rewrite (lstrip_visible_head c s Hh).
  - destruct (IH ltac:(discriminate) Hrest) as [IH1 IH2].
    set (tail := join " " (map Py.strip (l' :: lines))) in *.
    change (join " " (map Py.strip (l :: l' :: lines)))
      with (Py.strip l +++ " " +++ tail).
    destruct (Py.strip l) as [|c s] eqn:E; [discriminate|].
    split; [|reflexivity].
    unfold Py.strip. cbn [String.append].
    rewrite (lstrip_visible_head c _ Hh).
    assert (Eq : String c (s +++ String " " tail) = (String c s +++ " ") +++ tail)
      by (rewrite append_assoc_s; reflexivity).
    assert (Ht : Py.rstrip tail = tail).
    { destruct (strip_fixed tail IH1) as [_ Ht]. exact Ht. }
    rewrite Eq, rstrip_append; [|now rewrite Ht].
    now rewrite Ht.
Qed.

End PlainFacts.

(** X9. A text made only of plain lines (no blank line, no header, list,
    numbered, quote or rule line) is one paragraph: its stripped lines joined
    by single spaces, formatted, and classified on the joined text before
    formatting. *)
Theorem parse_markdown_soft_wrap (text : string) :
  forallb plain_line (source_lines text) = true ->
  let joined := join " " (map Py.strip (source_lines text)) in
  _parse_markdown_enhanced text =
  [paragraph (_process_markdown_text joined) (_detect_section_type joined)].
Proof.
  intros H joined. unfold _parse_markdown_enhanced.
  destruct (Py.nonempty text) eqn:Et; cbn [negb].
  2:{ destruct text; [|discriminate]. discriminate H. }
  cbv zeta. fold (source_lines text).
  assert (Hall : Forall (fun l => Py.nonempty (Py.strip l) = true) (source_lines text)).
  { apply Forall_forall. intros l Hl. apply plain_line_visible.
    rewrite forallb_forall in H. now apply H. }
  destruct (source_lines text) as [|l lines] eqn:El.
  { unfold source_lines in El. exfalso. revert El. 
    generalize (Py.replace "\t" (String tab "") (Py.replace "\n" (String newline "") text)).
    intros s. destruct s as [|c s]; cbn [Py.split]; [discriminate|].
    destruct (Ascii.eqb c newline); [discriminate|]. now destruct (Py.split newline s). }
  destruct (strip_join (l :: lines) ltac:(discriminate) Hall) as [Hs Hn].
  fold joined in Hs, Hn.
  cbn [forallb] in H. apply andb_true_iff in H as [Hl H].
  cbn [fold_left]. rewrite (plain_line_step [] "" l Hl). cbn [Py.nonempty].
  rewrite fold_plain_lines; [|now apply plain_line_visible | exact H].
  change (join " " (Py.strip l :: map Py.strip lines)) with joined.
  unfold flush_paragraph. rewrite Hn, Hs. reflexivity.
Qed.

Lemma parse_markdown_soft_wrap_witness :
  _parse_markdown_enhanced "Funding was  \n  approved in\nMay." =
  [paragraph "Funding was approved in May." investment].
Proof.
  exact (parse_markdown_soft_wrap "Funding was  \n  approved in\nMay." eq_refl).
Defined.

(** ** Inline formatter: one span in a text without other markers *)

Section SpanFacts.

Lemma append_cancel_l (a b c : string) : a +++ b = a +++ c -> b = c.
Proof. induction a as [|x a IH]; [trivial|]. cbn [String.append]. intros [= H]. auto. Qed.

Lemma is_prev_absent (M : ascii) (a : string) :
  has_char M a = false ->
  forall prev, is_prev M prev = false -> is_prev M (prev_after prev a) = false.
Proof.
  induction a as [|c a IH]; intros H prev Hp; [exact Hp|].
  cbn [has_char] in H. apply orb_false_iff in H as [Hc Ha].
  cbn [prev_after]. apply IH; [exact Ha | exact Hc].
Qed.

Lemma starts_absent (M : ascii) (b : string) : has_char M b = false -> starts M b = false.
Proof.
  destruct b as [|c b]; [reflexivity|]. cbn [has_char starts].
  intros H. now apply orb_false_iff in H as [H _].
Qed.

Variable p : list item.
Variable repl : list piece.
Variable c : ascii.
Hypothesis p_leading : leading p = Some c.

(** Characters other than the first one of the pattern are stepped over. *)
Lemma sub_from_pass (a s : string) :
  has_char c a = false ->
  forall prev,
    sub_from p repl prev (a +++ s) 0 = a +++ sub_from p repl (prev_after prev a) s 0.
Proof.
  induction a as [|x a IH]; intros H prev; [reflexivity|].
  cbn [has_char] in H. apply orb_false_iff in H as [Hx Ha].
  cbn [String.append prev_after]. rewrite sub_from_step.
  rewrite (match_needs_leading p c p_leading prev x _ Hx). now rewrite IH.
Qed.

(** A single match [m] between two texts the pattern cannot start in. *)
Lemma sub_span (a m b : string) (caps : list string) :
  has_char c a = false -> has_char c b = false -> Py.nonempty m = true ->
  match_items p (prev_after None a) (m +++ b) = Some (caps, String.length m) ->
  Re.sub p repl (a +++ m +++ b) = a +++ expand repl caps +++ b.
Proof.
  intros Ha Hb Hm H. unfold Re.sub. rewrite (sub_from_pass a _ Ha).
  rewrite (sub_from_match p repl _ _ caps _ H).
  - rewrite drop_append_length. now rewrite (sub_from_absent p repl c p_leading b _ Hb).
  - destruct m; [discriminate | cbn; lia].
  - destruct m; [discriminate | reflexivity].
Qed.

End SpanFacts.

Section BoldSpan.

Variable M : ascii.
Variable w' : string.
Let w := String M w'.

Lemma lazy_split_exact (x b : string) :
  has_char M x = false -> has_char newline x = false ->
  lazy_split w (x +++ w +++ b) = Some x.
Proof.
  induction x as [|a x IH]; intros HM Hn.
  - cbn [String.append]. destruct (w +++ b) eqn:E; [discriminate|].
    cbn [lazy_split]. rewrite <- E, prefix_append. reflexivity.
  - cbn [has_char] in HM, Hn.
    apply orb_false_iff in HM as [Ha HM]. apply orb_false_iff in Hn as [Hl Hn].
    cbn [String.append lazy_split]. unfold w at 1. rewrite prefix_cons.
    rewrite (Ascii.eqb_sym M a), Ha. cbn [andb]. rewrite Hl.
    now rewrite (IH HM Hn).
Qed.

Lemma bold_span_match (prev : option ascii) (x b : string) :
  has_char M x = false -> has_char newline x = false ->
  match_items (bold_re_of w) prev ((w +++ x +++ w) +++ b) =
  Some ([x], String.length (w +++ x +++ w)).
Proof.
  intros HM Hn. rewrite bold_match_spec.
  rewrite !append_assoc_s, prefix_append, drop_append_length.
  rewrite (lazy_split_exact x b HM Hn). now rewrite !length_append_s.
Qed.

Lemma bold_re_leading : leading (bold_re_of w) = Some M.
Proof. reflexivity. Qed.

(** The pass of the marker [w] on one span. *)
Lemma bold_span (a x b : string) :
  has_char M a = false -> has_char M x = false -> has_char M b = false ->
  has_char newline x = false ->
  Re.sub (bold_re_of w) bold_repl (a +++ w +++ x +++ w +++ b) =
  a +++ "<b>" +++ x +++ "</b>" +++ b.
Proof.
  intros Ha Hx Hb Hn.
  replace (a +++ w +++ x +++ w +++ b) with (a +++ (w +++ x +++ w) +++ b)
    by now rewrite !append_assoc_s.
  rewrite (sub_span (bold_re_of w) bold_repl M bold_re_leading a (w +++ x +++ w) b [x]
             Ha Hb eq_refl).
  - cbn [expand bold_repl nth Nat.sub]. rewrite append_empty_r.
    now rewrite !append_assoc_s.
  - apply bold_span_match; assumption.
Qed.

End BoldSpan.

Section CountFacts.

Variable M : ascii.

Lemma count_char_append (a b : string) :
  count_char M (a +++ b) = count_char M a + count_char M b.
Proof.
  induction a as [|x a IH]; [reflexivity|]. cbn [String.append count_char].
  rewrite IH. lia.
Qed.

Lemma count_char_absent (s : string) : has_char M s = false -> count_char M s = 0.
Proof.
  induction s as [|x s IH]; [reflexivity|]. cbn [has_char count_char].
  intros H. apply orb_false_iff in H as [-> H]. now rewrite IH.
Qed.

(** A bold pattern needs its marker twice: with too few marker
    characters it matches nowhere. *)
Lemma bold_quiet_few (w : string) :
  forall s, count_char M s < 2 * count_char M w -> bold_quiet w s = true.
Proof.
  assert (Hhead : forall s, count_char M s < 2 * count_char M w -> bold_match w s = false).
  { intros s Hs. unfold bold_match, on_line.
    destruct (prefix w s) eqn:Ep; [|reflexivity].
    destruct (lazy_split w (Py.drop (String.length w) s)) as [g|] eqn:El; [|reflexivity].
    exfalso. apply prefix_split in Ep as [b Eb].
    apply lazy_split_sound in El. rewrite Eb, drop_append_length in El.
    rewrite Eb, El in Hs. rewrite !count_char_append in Hs. lia. }
  induction s as [|x s IH]; intros Hs; cbn [bold_quiet]; rewrite (Hhead _ Hs); [reflexivity|].
  apply IH. cbn [count_char] in Hs. lia.
Qed.

End CountFacts.

Section DelimSpan.

Variable look : bool.
Variable M : ascii.
Variables opening closing : string.

Lemma delim_re_leading : leading (delim_re look M) = Some M.
Proof. now destruct look. Qed.

(** The pass of the delimiter [M] on one span. *)
Lemma delim_span (a x b : string) :
  has_char M a = false -> has_char M x = false -> has_char M b = false ->
  Py.nonempty x = true ->
  Re.sub (delim_re look M) (tag_repl opening closing)
    (a +++ String M (x +++ String M b)) =
  a +++ opening +++ x +++ closing +++ b.
Proof.
  intros Ha Hx Hb Hne.
  replace (String M (x +++ String M b)) with (String M (x +++ String M "") +++ b)
    by (cbn [String.append]; now rewrite append_assoc_s).
  rewrite (sub_span (delim_re look M) (tag_repl opening closing) M delim_re_leading
             a (String M (x +++ String M "")) b [x] Ha Hb eq_refl).
  - cbn [expand tag_repl nth Nat.sub]. rewrite append_empty_r.
    now rewrite !append_assoc_s.
  - rewrite delim_match_spec.
    cbn [String.append Py.drop]. rewrite append_assoc_s. cbn [String.append].
    destruct (run_pass M x (String M b) Hx) as [Er Ea].
    cbn [run after_run] in Er, Ea. rewrite Ascii.eqb_refl in Er, Ea.
    rewrite append_empty_r in Er.
    unfold delim_match. rewrite Er, Ea, Hne. cbn [closes].
    rewrite Ascii.eqb_refl, (starts_absent M b Hb), andb_false_r.
    rewrite (is_prev_absent M a Ha None eq_refl), andb_false_r. cbn [negb andb].
    do 2 f_equal. cbn [String.length]. rewrite length_append_s. cbn [String.length]. lia.
Qed.

End DelimSpan.

Section LinkSpan.

(** A greedy group on a run of its class followed by a character outside
    it takes the whole run when the rest of the pattern then matches. *)
Lemma greedy_star_run (M : ascii) (k : option ascii -> string -> result)
    (r : string) (caps : list string) (n : nat) :
  forall t prev,
    has_char M t = false ->
    k (prev_after prev t) (String M r) = Some (caps, n) ->
    greedy_star (Not_char M) k prev (t +++ String M r) =
    Some (t :: caps, String.length t + n).
Proof.
  induction t as [|a t IH]; intros prev Ht Hk.
  - cbn [String.append greedy_star in_cls]. rewrite Ascii.eqb_refl. cbn [negb].
    cbn [prev_after] in Hk. now rewrite Hk.
  - cbn [has_char] in Ht. apply orb_false_iff in Ht as [Ha Ht].
    cbn [String.append greedy_star in_cls]. rewrite Ha. cbn [negb].
    rewrite (IH (Some a) Ht Hk). reflexivity.
Qed.

Lemma greedy_plus_run (M : ascii) (k : option ascii -> string -> result)
    (r : string) (caps : list string) (n : nat) (t : string) (prev : option ascii) :
  has_char M t = false -> Py.nonempty t = true ->
  k (prev_after prev t) (String M r) = Some (caps, n) ->
  greedy_plus (Not_char M) k prev (t +++ String M r) =
  Some (t :: caps, String.length t + n).
Proof.
  intros Ht Hne Hk. destruct t as [|a t]; [discriminate|].
  cbn [has_char] in Ht. apply orb_false_iff in Ht as [Ha Ht].
  cbn [String.append greedy_plus in_cls]. rewrite Ha. cbn [negb].
  rewrite (greedy_star_run M k r caps n t (Some a) Ht Hk). reflexivity.
Qed.

Lemma link_span_match (prev : option ascii) (l u b : string) :
  has_char "]"%char l = false -> Py.nonempty l = true ->
  has_char ")"%char u = false -> Py.nonempty u = true ->
  match_items link_re prev (String "[" (l +++ String "]" (String "(" (u +++ String ")" b)))) =
  Some ([l; u], String.length l + String.length u + 4).
Proof.
  intros Hl Hln Hu Hun. unfold link_re.
  cbn [match_items]. rewrite Ascii.eqb_refl.
  rewrite (greedy_plus_run "]"%char _ _ [u] (String.length u + 3) l _ Hl Hln).
  - cbn [consumed]. do 2 f_equal. lia.
  - rewrite !Ascii.eqb_refl.
    rewrite (greedy_plus_run ")"%char _ _ [] 1 u _ Hu Hun).
    + cbn [consumed]. do 2 f_equal. lia.
    + now rewrite Ascii.eqb_refl.
Qed.

Lemma link_span (a l u b : string) :
  has_char "["%char a = false -> has_char "["%char b = false ->
  has_char "]"%char l = false -> Py.nonempty l = true ->
  has_char ")"%char u = false -> Py.nonempty u = true ->
  Re.sub link_re link_repl (a +++ "[" +++ l +++ "](" +++ u +++ ")" +++ b) =
  a +++ "<link href=" +++ dquote +++ u +++ dquote +++ ">" +++ l +++ "</link>" +++ b.
Proof.
  intros Ha Hb Hl Hln Hu Hun.
  replace (a +++ "[" +++ l +++ "](" +++ u +++ ")" +++ b)
    with (a +++ String "[" (l +++ String "]" (String "(" (u +++ String ")" ""))) +++ b).
  2:{ cbn [String.append]. rewrite !append_assoc_s. cbn [String.append].
      rewrite !append_assoc_s. reflexivity. }
  rewrite (sub_span link_re link_repl "["%char eq_refl a
             (String "[" (l +++ String "]" (String "(" (u +++ String ")" ""))))
             b [l; u] Ha Hb eq_refl).
  - cbn [expand link_repl nth Nat.sub]. rewrite append_empty_r.
    now rewrite !append_assoc_s.
  - replace (String "[" (l +++ String "]" (String "(" (u +++ String ")" ""))) +++ b)
      with (String "[" (l +++ String "]" (String "(" (u +++ String ")" b)))).
    2:{ cbn [String.append]. rewrite !append_assoc_s. cbn [String.append].
        rewrite !append_assoc_s. reflexivity. }
    rewrite link_span_match by assumption. do 2 f_equal.
    cbn [String.length]. rewrite length_append_s. cbn [String.length].
    rewrite length_append_s. cbn [String.length]. lia.
Qed.

End LinkSpan.

Section SpanTheorems.

Lemma marker_free_elim (s : string) :
  marker_free s = true ->
  has_char star s = false /\ has_char underscore s = false /\
  has_char backtick s = false /\ has_char "["%char s = false.
Proof.
  unfold marker_free. intros H.
  apply andb_true_iff in H as [H H4]. apply andb_true_iff in H as [H H3].
  apply andb_true_iff in H as [H1 H2].
  apply negb_true_iff in H1, H2, H3, H4. auto.
Qed.

Lemma process_markdown_text_passes (text : string) :
  Py.nonempty text = true ->
  _process_markdown_text text =
  Re.sub link_re link_repl
    (Re.sub code_re code_repl
       (Re.sub italic_us_re italic_repl
          (Re.sub italic_star_re italic_repl
             (Re.sub bold_us_re bold_repl
                (Re.sub bold2_re bold_repl
                   (Re.sub bold4_re bold_repl text)))))).
Proof. intros H. unfold _process_markdown_text. now rewrite H. Qed.

End SpanTheorems.

Ltac marker_facts H :=
  let H1 := fresh H "_star" in
  let H2 := fresh H "_us" in
  let H3 := fresh H "_tick" in
  let H4 := fresh H "_bracket" in
  apply marker_free_elim in H as (H1 & H2 & H3 & H4).

Ltac free :=
  rewrite ?has_char_append;
  repeat match goal with H : has_char _ _ = false |- _ => rewrite H end;
  reflexivity.

Ltac few :=
  rewrite ?count_char_append;
  repeat match goal with
         | H : has_char ?c ?s = false |- _ =>
             rewrite (count_char_absent c s H)
         end;
  cbn; lia.

Ltac absent p repl c := rewrite (sub_absent p repl c _ eq_refl) by free.

(** X10. A bold span in a text without other markers is converted: with
    [a], [x] and [b] free of asterisks, underscores, backticks and opening
    brackets, and [x] on one line, two asterisks, two underscores or four
    asterisks around [x] become the bold tags around [x]; [a] and [b] are
    kept as they are. *)
Theorem process_markdown_text_bold_span (a x b : string) :
  marker_free a = true -> marker_free x = true -> marker_free b = true ->
  has_char newline x = false ->
  _process_markdown_text (a +++ "**" +++ x +++ "**" +++ b) =
    a +++ "<b>" +++ x +++ "</b>" +++ b /\
  _process_markdown_text (a +++ "__" +++ x +++ "__" +++ b) =
    a +++ "<b>" +++ x +++ "</b>" +++ b /\
  _process_markdown_text (a +++ "****" +++ x +++ "****" +++ b) =
    a +++ "<b>" +++ x +++ "</b>" +++ b.
Proof.
  intros Ha Hx Hb Hn. marker_facts Ha. marker_facts Hx. marker_facts Hb.
  repeat split.
  - rewrite process_markdown_text_passes by (now apply append_nonempty_r).
    change bold4_re with (bold_re_of "****").
    rewrite (bold_sub_fixed "****") by (apply (bold_quiet_few star); few).
    change bold2_re with (bold_re_of "**").
    rewrite (bold_span "*"%char "*" a x b) by assumption.
    absent bold_us_re bold_repl underscore.
    absent italic_star_re italic_repl star.
    absent italic_us_re italic_repl underscore.
    absent code_re code_repl backtick.
    absent link_re link_repl "["%char.
    reflexivity.
  - rewrite process_markdown_text_passes by (now apply append_nonempty_r).
    absent bold4_re bold_repl star.
    absent bold2_re bold_repl star.
    change bold_us_re with (bold_re_of "__").
    rewrite (bold_span "_"%char "_" a x b) by assumption.
    absent italic_star_re italic_repl star.
    absent italic_us_re italic_repl underscore.
    absent code_re code_repl backtick.
    absent link_re link_repl "["%char.
    reflexivity.
  - rewrite process_markdown_text_passes by (now apply append_nonempty_r).
    change bold4_re with (bold_re_of "****").
    rewrite (bold_span "*"%char "***" a x b) by assumption.
    absent bold2_re bold_repl star.
    absent bold_us_re bold_repl underscore.
    absent italic_star_re italic_repl star.
    absent italic_us_re italic_repl underscore.
    absent code_re code_repl backtick.
    absent link_re link_repl "["%char.
    reflexivity.
Qed.

Lemma process_markdown_text_bold_span_witness :
  _process_markdown_text "Total: **42 ETH** (est.)" = "Total: <b>42 ETH</b> (est.)".
Proof.
  exact (proj1 (process_markdown_text_bold_span "Total: " "42 ETH" " (est.)"
                  eq_refl eq_refl eq_refl eq_refl)).
Defined.

(** X11. An italic or code span in a text without other markers is
    converted: with [a], [x] and [b] free of asterisks, underscores,
    backticks and opening brackets, and [x] not empty, one asterisk or one
    underscore around [x] become the italic tags, one backtick the code tags;
    [a] and [b] are kept, whatever the characters next to the span. *)
Theorem process_markdown_text_delimited_span (a x b : string) :
  marker_free a = true -> marker_free x = true -> marker_free b = true ->
  x <> EmptyString ->
  _process_markdown_text (a +++ "*" +++ x +++ "*" +++ b) =
    a +++ "<i>" +++ x +++ "</i>" +++ b /\
  _process_markdown_text (a +++ "_" +++ x +++ "_" +++ b) =
    a +++ "<i>" +++ x +++ "</i>" +++ b /\
  _process_markdown_text (a +++ "`" +++ x +++ "`" +++ b) =
    a +++ "<code>" +++ x +++ "</code>" +++ b.
Proof.
  intros Ha Hx Hb Hne. marker_facts Ha. marker_facts Hx. marker_facts Hb.
  assert (Hn : Py.nonempty x = true) by (destruct x; [congruence | reflexivity]).
  repeat split.
  - rewrite process_markdown_text_passes by (now apply append_nonempty_r).
    change bold4_re with (bold_re_of "****").
    rewrite (bold_sub_fixed "****") by (apply (bold_quiet_few star); few).
    change bold2_re with (bold_re_of "**").
    rewrite (bold_sub_fixed "**") by (apply (bold_quiet_few star); few).
    absent (bold_re_of "__") bold_repl underscore.
    change italic_star_re with (delim_re true star).
    change italic_repl with (tag_repl "<i>" "</i>").
    change (a +++ "*" +++ x +++ "*" +++ b) with (a +++ String star (x +++ String star b)).
    rewrite (delim_span true star "<i>" "</i>" a x b) by assumption.
    absent italic_us_re (tag_repl "<i>" "</i>") underscore.
    absent code_re code_repl backtick.
    absent link_re link_repl "["%char.
    reflexivity.
  - rewrite process_markdown_text_passes by (now apply append_nonempty_r).
    absent bold4_re bold_repl star.
    absent bold2_re bold_repl star.
    change bold_us_re with (bold_re_of "__").
    rewrite (bold_sub_fixed "__") by (apply (bold_quiet_few underscore); few).
    absent italic_star_re italic_repl star.
    change italic_us_re with (delim_re true underscore).
    change italic_repl with (tag_repl "<i>" "</i>").
    change (a +++ "_" +++ x +++ "_" +++ b)
      with (a +++ String underscore (x +++ String underscore b)).
    rewrite (delim_span true underscore "<i>" "</i>" a x b) by assumption.
    absent code_re code_repl backtick.
    absent link_re link_repl "["%char.
    reflexivity.
  - rewrite process_markdown_text_passes by (now apply append_nonempty_r).
    absent bold4_re bold_repl star.
    absent bold2_re bold_repl star.
    absent bold_us_re bold_repl underscore.
    absent italic_star_re italic_repl star.
    absent italic_us_re italic_repl underscore.
    change code_re with (delim_re false backtick).
    change code_repl with (tag_repl "<code>" "</code>").
    change (a +++ "`" +++ x +++ "`" +++ b)
      with (a +++ String backtick (x +++ String backtick b)).
    rewrite (delim_span false backtick "<code>" "</code>" a x b) by assumption.
    absent link_re link_repl "["%char.
    reflexivity.
Qed.

Lemma process_markdown_text_delimited_span_witness :
  _process_markdown_text "set max_gas_price here" = "set max<i>gas</i>price here".
Proof.
  refine (proj1 (proj2 (process_markdown_text_delimited_span "set max" "gas" "price here"
                          eq_refl eq_refl eq_refl _))).
  discriminate.
Defined.

(** X12. A link in a text without other markers is converted: with [a],
    [l], [u] and [b] free of asterisks, underscores, backticks and opening
    brackets, [l] not empty and without closing bracket, [u] not empty and
    without closing parenthesis, the label [l] in brackets followed by the
    address [u] in parentheses becomes a link tag with [u] as its
    reference and [l] as its text. *)
Theorem process_markdown_text_link_span (a l u b : string) :
  marker_free a = true -> marker_free l = true -> marker_free u = true ->
  marker_free b = true ->
  l <> EmptyString -> has_char "]"%char l = false ->
  u <> EmptyString -> has_char ")"%char u = false ->
  _process_markdown_text (a +++ "[" +++ l +++ "](" +++ u +++ ")" +++ b) =
  a +++ "<link href=" +++ dquote +++ u +++ dquote +++ ">" +++ l +++ "</link>" +++ b.
Proof.
  intros Ha Hl Hu Hb Hln Hlb Hun Hup.
  marker_facts Ha. marker_facts Hl. marker_facts Hu. marker_facts Hb.
  assert (Nl : Py.nonempty l = true) by (destruct l; [congruence | reflexivity]).
  assert (Nu : Py.nonempty u = true) by (destruct u; [congruence | reflexivity]).
  rewrite process_markdown_text_passes by (now apply append_nonempty_r).
  absent bold4_re bold_repl star.
  absent bold2_re bold_repl star.
  absent bold_us_re bold_repl underscore.
  absent italic_star_re italic_repl star.
  absent italic_us_re italic_repl underscore.
  absent code_re code_repl backtick.
  now apply link_span.
Qed.

Lemma process_markdown_text_link_span_witness :
  _process_markdown_text "see [the post](https://a.io/p) today" =
  "see <link href=" +++ dquote +++ "https://a.io/p" +++ dquote +++ ">the post</link> today".
Proof.
  refine (process_markdown_text_link_span "see " "the post" "https://a.io/p" " today"
            eq_refl eq_refl eq_refl eq_refl _ eq_refl _ eq_refl); discriminate.
Defined.

(** ** Tokenizer: blocks separated by an empty line *)

Section BreakFacts.

Lemma prefix_append_sep (c : ascii) (b : string) :
  forall old s,
    has_char c old = false ->
    prefix old (s +++ String c b) = prefix old s.
Proof.
  induction old as [|o old IH]; intros s H.
  - now rewrite !prefix_nil.
  - cbn [has_char] in H. apply orb_false_iff in H as [Ho Hold].
    destruct s as [|y s]; cbn [String.append].
    + rewrite prefix_cons, Ho. reflexivity.
    + rewrite !prefix_cons. now rewrite IH.
Qed.

(** A replacement never reaches across a character that its pattern does
    not hold. *)
Lemma replace_from_append_sep (old new : string) (c : ascii) (b : string) :
  Py.nonempty old = true -> has_char c old = false ->
  forall a k, k <= String.length a ->
    Py.replace_from old new (a +++ String c b) k =
    Py.replace_from old new a k +++ String c (Py.replace_from old new b 0).
Proof.
  intros Hne Hc. induction a as [|x a IH]; intros k Hk.
  - cbn [String.length] in Hk. assert (k = 0) as -> by lia.
    cbn [String.append Py.replace_from].
    destruct old as [|o old]; [discriminate|].
    cbn [has_char] in Hc. apply orb_false_iff in Hc as [Ho _].
    rewrite prefix_cons, Ho. reflexivity.
  - cbn [String.append Py.replace_from]. destruct k as [|k].
    + change (String x (a +++ String c b)) with (String x a +++ String c b).
      rewrite (prefix_append_sep c b old (String x a) Hc).
      destruct (prefix old (String x a)) eqn:Ep.
      * apply prefix_length in Ep. cbn [String.length] in Ep.
        rewrite IH by lia. now rewrite append_assoc_s.
      * rewrite IH by lia. reflexivity.
    + cbn [String.length] in Hk. apply IH. lia.
Qed.

Lemma replace_append_break (old new a b : string) :
  Py.nonempty old = true -> has_char newline old = false ->
  Py.replace old new (a +++ paragraph_break +++ b) =
  Py.replace old new a +++ paragraph_break +++ Py.replace old new b.
Proof.
  intros Hne Hc. unfold Py.replace, paragraph_break. cbn [String.append].
  rewrite (replace_from_append_sep old new newline _ Hne Hc a 0) by lia.
  f_equal. f_equal.
  exact (replace_from_append_sep old new newline b Hne Hc "" 0 (le_n 0)).
Qed.

Lemma split_append_sep (sep : ascii) (a b : string) :
  Py.split sep (a +++ String sep b) = Py.split sep a ++ Py.split sep b.
Proof.
  induction a as [|x a IH]; cbn [String.append Py.split].
  - now rewrite Ascii.eqb_refl.
  - destruct (Ascii.eqb x sep); [now rewrite IH|].
    rewrite IH. destruct (Py.split sep a) as [|l ls] eqn:E; [|reflexivity].
    exfalso. clear -E. destruct a as [|y a]; [discriminate|].
    cbn [Py.split] in E. destruct (Ascii.eqb y sep); [discriminate|].
    now destruct (Py.split sep a).
Qed.

Lemma source_lines_break (a b : string) :
  source_lines (a +++ paragraph_break +++ b) =
  source_lines a ++ EmptyString :: source_lines b.
Proof.
  unfold source_lines.
  rewrite !replace_append_break by reflexivity.
  unfold paragraph_break. cbn [String.append]. fold newline.
  rewrite split_append_sep. reflexivity.
Qed.

(** The elements already produced are never looked at again. *)
Lemma flush_paragraph_app (els0 els : list element) (cp : string) :
  flush_paragraph (els0 ++ els, cp) =
  (els0 ++ fst (flush_paragraph (els, cp)), snd (flush_paragraph (els, cp))).
Proof.
  unfold flush_paragraph. destruct (Py.nonempty cp); cbn [fst snd]; [|reflexivity].
  now rewrite app_assoc.
Qed.

Lemma parse_line_app (els0 els : list element) (cp l : string) :
  parse_line (els0 ++ els, cp) l =
  (els0 ++ fst (parse_line (els, cp) l), snd (parse_line (els, cp) l)).
Proof.
  unfold parse_line. cbv zeta.
  destruct (negb (Py.nonempty (Py.strip l))); [apply flush_paragraph_app|].
  destruct (Py.startswith "#" (Py.strip l)).
  { rewrite flush_paragraph_app. destruct (flush_paragraph (els, cp)) as [e c].
    cbn [fst snd]. now rewrite app_assoc. }
  destruct (bullet_match (Py.strip l)).
  { rewrite flush_paragraph_app. destruct (flush_paragraph (els, cp)) as [e c].
    cbn [fst snd]. now rewrite app_assoc. }
  destruct (numbered_match (Py.strip l)).
  - rewrite flush_paragraph_app. destruct (flush_paragraph (els, cp)) as [e c].
    cbn [fst snd].
    destruct (Py.split_once ". " (Py.strip l)) as [number [rest|]].
    { cbn [fst snd]. now rewrite app_assoc. }
    destruct (Py.startswith "> " (Py.strip l)).
    { rewrite flush_paragraph_app. destruct (flush_paragraph (e, c)) as [e' c'].
      cbn [fst snd]. now rewrite app_assoc. }
    destruct (is_rule (Py.strip l)); [|reflexivity].
    rewrite flush_paragraph_app. destruct (flush_paragraph (e, c)) as [e' c'].
    cbn [fst snd]. now rewrite app_assoc.
  - destruct (Py.startswith "> " (Py.strip l)).
    { rewrite flush_paragraph_app. destruct (flush_paragraph (els, cp)) as [e c].
      cbn [fst snd]. now rewrite app_assoc. }
    destruct (is_rule (Py.strip l)); [|reflexivity].
    rewrite flush_paragraph_app. destruct (flush_paragraph (els, cp)) as [e c].
    cbn [fst snd]. now rewrite app_assoc.
Qed.

Lemma fold_parse_app (els0 : list element) (lines : list string) :
  forall els cp,
    fold_left parse_line lines (els0 ++ els, cp) =
    (els0 ++ fst (fold_left parse_line lines (els, cp)),
     snd (fold_left parse_line lines (els, cp))).
Proof.
  induction lines as [|l lines IH]; intros els cp; [reflexivity|].
  cbn [fold_left]. rewrite parse_line_app.
  destruct (parse_line (els, cp) l) as [e c]. cbn [fst snd]. apply IH.
Qed.

Lemma parse_line_empty (st : parser_state) : parse_line st "" = flush_paragraph st.
Proof. reflexivity. Qed.

Lemma flush_paragraph_closed (st : parser_state) : snd (flush_paragraph st) = EmptyString.
Proof.
  destruct st as [els cp]. unfold flush_paragraph.
  destruct (Py.nonempty cp) eqn:E; [reflexivity|]. now destruct cp.
Qed.

(** The tokenizer as a fold over the lines, also for the empty text. *)
Lemma parse_markdown_fold (text : string) :
  _parse_markdown_enhanced text =
  fst (flush_paragraph (fold_left parse_line (source_lines text) ([], EmptyString))).
Proof.
  unfold _parse_markdown_enhanced, source_lines.
  destruct text; reflexivity.
Qed.

End BreakFacts.

(** X13. An empty line separates blocks that are tokenized independently:
    the elements of two texts joined by an empty line are the elements of
    the first followed by the elements of the second. *)
Theorem parse_markdown_paragraph_break (a b : string) :
  _parse_markdown_enhanced (a +++ paragraph_break +++ b) =
  _parse_markdown_enhanced a ++ _parse_markdown_enhanced b.
Proof.
  rewrite !parse_markdown_fold, source_lines_break.
  rewrite fold_left_app. cbn [fold_left]. rewrite parse_line_empty.
  pose proof (flush_paragraph_closed
                (fold_left parse_line (source_lines a) ([], EmptyString))) as Hc.
  destruct (flush_paragraph (fold_left parse_line (source_lines a) ([], EmptyString)))
    as [els1 cp1].
  cbn [snd fst] in *. subst cp1.
  rewrite <- (app_nil_r els1) at 1. rewrite fold_parse_app.
  destruct (fold_left parse_line (source_lines b) ([], EmptyString)) as [els2 cp2].
  cbn [fst snd]. rewrite flush_paragraph_app. reflexivity.
Qed.

(** ** Dates with a time zone suffix *)

Section DateFacts.

Lemma rstrip_append_space (t : string) : Py.rstrip (t +++ " ") = Py.rstrip t.
Proof.
  induction t as [|c t IH]; [reflexivity|].
  cbn [String.append Py.rstrip]. now rewrite IH.
Qed.

Lemma strip_append_space (s : string) : Py.strip s = s -> Py.strip (s +++ " ") = s.
Proof.
  intros H. destruct (strip_fixed s H) as [Hl Hr].
  destruct s as [|c s]; [reflexivity|].
  assert (Hc : Py.isspace c = false).
  { cbn [Py.lstrip] in Hl. destruct (Py.isspace c) eqn:E; [|reflexivity].
    exfalso. destruct (lstrip_split s) as [w Hw].
    apply (f_equal String.length) in Hl. apply (f_equal String.length) in Hw.
    rewrite length_append_s in Hw. cbn [String.length] in Hl. lia. }
  unfold Py.strip. cbn [String.append Py.lstrip]. rewrite Hc.
  change (String c (s +++ " ")) with (String c s +++ " ").
  now rewrite rstrip_append_space.
Qed.

Lemma replace_gmt_suffix (s : string) :
  Py.contains "GMT" s = false -> Py.replace "GMT" "" (s +++ " GMT") = s +++ " ".
Proof.
  intros H. unfold Py.replace.
  change (s +++ " GMT") with (s +++ String " " "GMT").
  rewrite (replace_from_append_sep "GMT" "" " "%char "GMT" eq_refl eq_refl s 0) by lia.
  fold (Py.replace "GMT" "" s). now rewrite (replace_absent _ _ _ H).
Qed.

End DateFacts.

(** X14. A time zone suffix is ignored: for a date string without
    surrounding white space in which GMT does not occur, the string followed
    by a space and GMT is formatted as the string itself. *)
Theorem format_date_gmt_suffix (lib : PyLib) (date_string : string) :
  Py.contains "GMT" date_string = false -> Py.strip date_string = date_string ->
  _format_date lib (date_string +++ " GMT") = _format_date lib date_string.
Proof.
  intros Hg Hs. unfold _format_date. rewrite Hg.
  assert (Hc : Py.contains "GMT" (date_string +++ " GMT") = true).
  { replace (date_string +++ " GMT") with ((date_string +++ " ") +++ "GMT" +++ "")
      by (rewrite append_assoc_s; reflexivity).
    apply contains_intro. }
  rewrite Hc, (replace_gmt_suffix _ Hg), (strip_append_space _ Hs). reflexivity.
Qed.

Lemma format_date_gmt_suffix_witness :
  _format_date sample_lib "Fri, 22 Aug 2025 10:00:00 GMT" =
  _format_date sample_lib "Fri, 22 Aug 2025 10:00:00".
Proof.
  exact (format_date_gmt_suffix sample_lib "Fri, 22 Aug 2025 10:00:00" eq_refl eq_refl).
Defined.

(** ** Console summary *)

Section SummaryFacts.

Lemma dict_incr_sizes (src : string) (article : Article) (d : list (string * list Article)) :
  dict_incr src (map group_size d) = map group_size (dict_append src article d).
Proof.
  induction d as [|[k v] d IH]; [reflexivity|].
  cbn [map dict_incr dict_append]. unfold group_size at 1. cbn [fst snd].
  destruct (String.eqb k src); cbn [map].
  - unfold group_size at 2. cbn [fst snd]. now rewrite length_app.
  - rewrite IH. reflexivity.
Qed.

(** The counting loop follows the grouping loop of the report. *)
Lemma count_follows_group (articles : list Article) :
  forall d0,
    count_by_source articles (map group_size d0) =
    match group_by_source articles d0 with
    | Returned d => Returned (map group_size d)
    | Raised e => Raised e
    end.
Proof.
  induction articles as [|a rest IH]; intros d0; [reflexivity|].
  cbn [count_by_source group_by_source].
  destruct (source a) as [k|]; [|reflexivity].
  rewrite (dict_incr_sizes k a). apply IH.
Qed.

Lemma group_total (articles : list Article) :
  forall d0 d,
    group_by_source articles d0 = Returned d ->
    list_sum (map (fun g => List.length (snd g)) d) =
    list_sum (map (fun g => List.length (snd g)) d0) + List.length articles.
Proof.
  induction articles as [|a rest IH]; intros d0 d H.
  - cbn in H. injection H as <-. cbn. lia.
  - cbn [group_by_source] in H. destruct (source a) as [k|]; [|discriminate].
    rewrite (IH _ _ H). cbn [List.length].
    assert (E : list_sum (map (fun g => List.length (snd g)) (dict_append k a d0)) =
                S (list_sum (map (fun g => List.length (snd g)) d0))).
    { clear. induction d0 as [|[k0 v0] d0 IHd]; [reflexivity|].
      assert (Hcons : forall x l, list_sum (x :: l) = x + list_sum l) by reflexivity.
      cbn [dict_append]. destruct (String.eqb k0 k); cbn [map snd]; rewrite !Hcons.
      - rewrite length_app. cbn [List.length]. lia.
      - rewrite IHd. lia. }
    rewrite E. lia.
Qed.

Lemma fold_print (A : Type) (line : A -> string) (entries : list A) :
  forall stdout : list string,
    fold_left (fun stdout entry => stdout ++ [line entry]) entries stdout =
    stdout ++ map line entries.
Proof.
  induction entries as [|e entries IH]; intros stdout; cbn [fold_left map].
  - now rewrite app_nil_r.
  - rewrite IH. now rewrite <- app_assoc.
Qed.

End SummaryFacts.

(** X15. Where [generate_report] returns, the summary printed after the
    report lists the sources of the report, in the order of the report, each
    with the number of its articles; these numbers add up to the total
    printed before them. *)
Theorem print_summary_matches_report (lib : PyLib) (output_filename : string)
    (articles : list Article) (fs : FileSystem) (stdout : list string)
    (d : list (string * list Article)) :
  group_by_source articles [] = Returned d ->
  snd (generate_report lib output_filename articles fs) = Returned output_filename ->
  generate_and_print_summary lib output_filename articles fs stdout =
    (doc_build output_filename (returned_story (build_story lib d)) fs,
     stdout ++
     [success_line; saved_prefix +++ output_filename;
      total_prefix +++ str_of_nat (List.length articles); summary_heading] ++
     map (fun g => summary_line lib (group_size g)) d,
     Returned output_filename) /\
  fst (generate_report lib output_filename articles fs) =
    doc_build output_filename (returned_story (build_story lib d)) fs /\
  list_sum (map (fun g => snd (group_size g)) d) = List.length articles.
Proof.
  intros Hd Hr. split; [|split].
  - revert Hr. unfold generate_and_print_summary, generate_report.
    destruct articles as [|a rest]; [discriminate|]. rewrite Hd.
    destruct (build_story lib d) as [story|e]; [|discriminate]. intros _. cbv zeta.
    pose proof (count_follows_group (a :: rest) []) as Hc. rewrite Hd in Hc.
    cbn [map] in Hc. rewrite Hc, fold_print, map_map.
    cbn [returned_story]. now rewrite <- !app_assoc.
  - revert Hr. unfold generate_report.
    destruct articles as [|a rest]; [discriminate|]. rewrite Hd.
    now destruct (build_story lib d) as [story|e]; [|discriminate].
  - exact (group_total articles [] d Hd).
Qed.

Lemma print_summary_matches_report_witness :
  snd (fst (generate_and_print_summary sample_lib "report.pdf"
              [plain_article; toc_article; plain_article] [] [])) =
  [success_line; saved_prefix +++ "report.pdf"; total_prefix +++ "3"; summary_heading;
   "  " +++ bullet +++ "Solana News: 2 articles";
   "  " +++ bullet +++ "Ethereum Blog: 1 articles"].
Proof.
  exact (f_equal (fun r => snd (fst r))
           (proj1 (print_summary_matches_report sample_lib "report.pdf"
                     [plain_article; toc_article; plain_article] [] []
                     [("solana_news", [plain_article; plain_article]);
                      ("ethereum_blog", [toc_article])]
                     eq_refl eq_refl))).
Defined.

(** X16. [generate_and_print_summary] has the outcome of [generate_report] and
    leaves the files as [generate_report] does: its own counting loop never
    raises, and it prints one error line, and nothing else, exactly when
    [generate_report] raises. *)
Theorem print_summary_outcome (lib : PyLib) (output_filename : string)
    (articles : list Article) (fs : FileSystem) (stdout : list string) :
  (fst (fst (generate_and_print_summary lib output_filename articles fs stdout)),
   snd (generate_and_print_summary lib output_filename articles fs stdout)) =
  generate_report lib output_filename articles fs /\
  forall e,
    snd (generate_report lib output_filename articles fs) = Raised e ->
    snd (fst (generate_and_print_summary lib output_filename articles fs stdout)) =
    stdout ++ [error_prefix +++ exception_str e].
Proof.
  unfold generate_and_print_summary, generate_report.
  destruct articles as [|a rest]; [split; [reflexivity | now intros e [= <-]]|].
  pose proof (count_follows_group (a :: rest) []) as Hc. cbn [map] in Hc.
  destruct (group_by_source (a :: rest) []) as [d|e0].
  - destruct (build_story lib d) as [story|e0].
    + cbv zeta. rewrite Hc. split; [reflexivity | discriminate].
    + split; [reflexivity | now intros e [= <-]].
  - split; [reflexivity | now intros e [= <-]].
Qed.

Lemma print_summary_outcome_witness :
  (fst (fst (generate_and_print_summary sample_lib "report.pdf" [] [] [])),
   snd (generate_and_print_summary sample_lib "report.pdf" [] [] [])) =
  ([], Raised (ValueError "No articles provided for PDF generation")) /\
  snd (fst (generate_and_print_summary sample_lib "report.pdf" [] [] [])) =
  [error_prefix +++ "No articles provided for PDF generation"].
Proof.
  destruct (print_summary_outcome sample_lib "report.pdf" [] [] []) as [H1 H2].
  split; [exact H1 | exact (H2 _ eq_refl)].
Defined.

(** ** Tokenizer: list, numbered and quote lines *)

Section MarkerLines.

Lemma contains_skip_prefix (o : ascii) (old P X : string) :
  has_char o P = false ->
  Py.contains (String o old) (P +++ X) = Py.contains (String o old) X.
Proof.
  induction P as [|c P IH]; intros H; [reflexivity|].
  cbn [has_char] in H. apply orb_false_iff in H as [Hc HP].
  cbn [String.append]. rewrite contains_cons_other by now rewrite Ascii.eqb_sym.
  now apply IH.
Qed.

(** A text of one line without escape sequences is handled by one
    iteration of the loop and the final flush. *)
Lemma parse_single_line (line : string) :
  Py.nonempty line = true -> has_char newline line = false ->
  Py.contains "\n" line = false -> Py.contains "\t" line = false ->
  _parse_markdown_enhanced line =
  fst (flush_paragraph (parse_line ([], EmptyString) line)).
Proof.
  intros Hne Hnl Hen Het. unfold _parse_markdown_enhanced. rewrite Hne. cbn [negb].
  cbv zeta. rewrite (replace_absent "\n") by exact Hen.
  rewrite (replace_absent "\t") by exact Het.
  rewrite split_absent by exact Hnl. reflexivity.
Qed.

Variable X : string.
Hypothesis X_stripped : Py.strip X = X.
Hypothesis X_nonempty : X <> EmptyString.
Hypothesis X_line : has_char newline X = false.
Hypothesis X_no_newline_escape : Py.contains "\n" X = false.
Hypothesis X_no_tab_escape : Py.contains "\t" X = false.

Lemma marked_rstrip (P : string) : Py.rstrip (P +++ X) = P +++ X.
Proof.
  destruct (strip_fixed X X_stripped) as [_ Hr].
  rewrite rstrip_append; rewrite Hr; [reflexivity|].
  destruct X; [contradiction | reflexivity].
Qed.

Lemma lstrip_spaces (n : nat) (Y : string) :
  Py.lstrip (Py.repeat " " n +++ Y) = Py.lstrip Y.
Proof. induction n as [|n IH]; [reflexivity | exact IH]. Qed.

Lemma length_spaces (n : nat) : String.length (Py.repeat " " n) = n.
Proof. induction n as [|n IH]; [reflexivity|]. cbn. now rewrite IH. Qed.

Lemma has_char_spaces (c : ascii) (n : nat) :
  Ascii.eqb " " c = false -> has_char c (Py.repeat " " n) = false.
Proof.
  intros H. induction n as [|n IH]; [reflexivity|].
  cbn [Py.repeat String.append has_char]. now rewrite H, IH.
Qed.

Lemma bullet_line (n : nat) (c : ascii) :
  c = "-"%char \/ c = "*"%char \/ c = "+"%char ->
  _parse_markdown_enhanced (Py.repeat " " n +++ String c (String " " X)) =
  [list_item (_process_markdown_text X) n].
Proof.
  intros Hc.
  assert (Facts : Py.isspace c = false /\ Ascii.eqb "#" c = false /\
                  Ascii.eqb c newline = false /\ Ascii.eqb c "\" = false /\
                  (Ascii.eqb c "-" || Ascii.eqb c star || Ascii.eqb c "+") = true).
  { destruct Hc as [->|[->| ->]]; repeat split; reflexivity. }
  destruct Facts as (Hsp & Hh & Hn & Hb & Hm).
  assert (Hstrip : Py.strip (Py.repeat " " n +++ String c (String " " X)) =
                   String c (String " " X)).
  { unfold Py.strip. rewrite lstrip_spaces. cbn [Py.lstrip]. rewrite Hsp.
    exact (marked_rstrip (String c " ")). }
  assert (E2 : Py.startswith "#" (String c (String " " X)) = false).
  { unfold Py.startswith. now rewrite prefix_cons, Hh. }
  assert (E3 : bullet_match (String c (String " " X)) = true).
  { cbn [bullet_match]. now rewrite Hm. }
  assert (E4 : Py.lstrip (Py.repeat " " n +++ String c (String " " X)) =
               String c (String " " X)).
  { rewrite lstrip_spaces. cbn [Py.lstrip]. now rewrite Hsp. }
  rewrite parse_single_line.
  - unfold parse_line. cbv zeta. rewrite Hstrip, E2, E3, E4.
    cbn [Py.nonempty negb flush_paragraph app fst].
    rewrite drop_two, X_stripped, length_append_s, length_spaces.
    now replace (n + String.length (String c (String " " X)) -
                 String.length (String c (String " " X))) with n by lia.
  - destruct n; reflexivity.
  - rewrite has_char_append, has_char_spaces by reflexivity.
    cbn [has_char]. rewrite Hn, X_line. reflexivity.
  - rewrite contains_skip_prefix by (apply has_char_spaces; reflexivity).
    rewrite !contains_cons_other by (rewrite Ascii.eqb_sym; assumption || reflexivity).
    exact X_no_newline_escape.
  - rewrite contains_skip_prefix by (apply has_char_spaces; reflexivity).
    rewrite !contains_cons_other by (rewrite Ascii.eqb_sym; assumption || reflexivity).
    exact X_no_tab_escape.
Qed.

Lemma quote_line :
  _parse_markdown_enhanced ("> " +++ X) = [quote (_process_markdown_text X)].
Proof.
  assert (Hstrip : Py.strip ("> " +++ X) = "> " +++ X) by exact (marked_rstrip "> ").
  rewrite parse_single_line.
  - unfold parse_line. cbv zeta. rewrite Hstrip.
    cbn [String.append Py.nonempty negb]. unfold Py.startswith.
    rewrite !prefix_cons. cbn [Ascii.eqb Bool.eqb andb bullet_match numbered_match Py.isdigit].
    replace (Py.isdigit ">") with false by reflexivity. cbn [andb].
    replace (Ascii.eqb ">" "-" || Ascii.eqb ">" star || Ascii.eqb ">" "+") with false
      by reflexivity.
    cbn [andb]. rewrite prefix_nil.
    cbn [flush_paragraph Py.nonempty app fst]. now rewrite drop_two, X_stripped.
  - reflexivity.
  - cbn [String.append has_char]. now rewrite X_line.
  - cbn [String.append]. rewrite !contains_cons_other by reflexivity.
    exact X_no_newline_escape.
  - cbn [String.append]. rewrite !contains_cons_other by reflexivity.
    exact X_no_tab_escape.
Qed.

Variable D : string.
Hypothesis D_nonempty : D <> EmptyString.
Hypothesis D_digits : all_chars Py.isdigit D = true.

Lemma digit_not_space (c : ascii) : Py.isdigit c = true -> Py.isspace c = false.
Proof.
  unfold Py.isdigit, Py.isspace. cbv zeta. generalize (nat_of_ascii c). intros k H.
  apply andb_true_iff in H as [H1 H2]. apply Nat.leb_le in H1, H2.
  destruct (Nat.leb_spec 9 k), (Nat.leb_spec k 13), (Nat.leb_spec 28 k),
    (Nat.leb_spec k 32), (Nat.eqb_spec k 133), (Nat.eqb_spec k 160);
    cbn [andb orb]; try reflexivity; lia.
Qed.

Lemma digit_not_char (c x : ascii) :
  Py.isdigit c = true -> Py.isdigit x = false -> Ascii.eqb c x = false.
Proof.
  intros Hc Hx. destruct (Ascii.eqb_spec c x) as [->|_]; [congruence | reflexivity].
Qed.

Lemma digit_facts (c : ascii) :
  Py.isdigit c = true ->
  Py.isspace c = false /\ Ascii.eqb "#" c = false /\ Ascii.eqb c newline = false /\
  Ascii.eqb c "\" = false /\ Ascii.eqb "." c = false /\
  (Ascii.eqb c "-" || Ascii.eqb c star || Ascii.eqb c "+") = false /\
  Ascii.eqb ">" c = false.
Proof.
  intros H. split; [now apply digit_not_space|].
  rewrite (Ascii.eqb_sym "#"), (Ascii.eqb_sym "."), (Ascii.eqb_sym ">").
  now rewrite !(digit_not_char c _ H) by reflexivity.
Qed.

Lemma digits_skip (rest : string) :
  skip_digits (D +++ String "." rest) = String "." rest.
Proof.
  clear D_nonempty. induction D as [|c d IH]; [reflexivity|].
  cbn [all_chars] in D_digits. apply andb_true_iff in D_digits as [Hc Hd].
  cbn [String.append skip_digits]. rewrite Hc. now apply IH.
Qed.

Lemma digits_split (rest : string) :
  Py.split_once ". " (D +++ ". " +++ rest) = (D, Some rest).
Proof.
  clear D_nonempty. induction D as [|c d IH].
  { cbn [String.append Py.split_once]. rewrite !prefix_cons, prefix_nil. reflexivity. }
  cbn [all_chars] in D_digits. apply andb_true_iff in D_digits as [Hc Hd].
  destruct (digit_facts c Hc) as (_ & _ & _ & _ & Hdot & _).
  change (String c d +++ ". " +++ rest) with (String c (d +++ ". " +++ rest)).
  cbn [Py.split_once]. rewrite prefix_cons, Hdot. cbn [andb].
  fold (Py.split_once ". " (d +++ ". " +++ rest)). now rewrite (IH Hd).
Qed.

Lemma digits_has_char (c : ascii) :
  Py.isdigit c = false -> has_char c D = false.
Proof.
  clear D_nonempty. intros Hc. induction D as [|x d IH]; [reflexivity|].
  cbn [all_chars] in D_digits. apply andb_true_iff in D_digits as [Hx Hd].
  cbn [has_char]. rewrite (IH Hd), orb_false_r.
  destruct (Ascii.eqb x c) eqn:E; [|reflexivity].
  apply Ascii.eqb_eq in E. subst. congruence.
Qed.

Lemma numbered_line :
  _parse_markdown_enhanced (D +++ ". " +++ X) =
  [numbered_list (_process_markdown_text X) D].
Proof.
  assert (HD : exists c d, D = String c d)
    by (destruct D as [|c d]; [contradiction | now exists c, d]).
  destruct HD as (c & d & ED).
  assert (Hc : Py.isdigit c = true).
  { pose proof D_digits as H. rewrite ED in H. cbn [all_chars] in H.
    now apply andb_true_iff in H as [H _]. }
  destruct (digit_facts c Hc) as (Hsp & Hh & Hn & Hb & Hdot & Hm & Hq).
  assert (Hstrip : Py.strip (D +++ ". " +++ X) = D +++ ". " +++ X).
  { unfold Py.strip. rewrite ED. cbn [String.append Py.lstrip]. rewrite Hsp.
    change (String c (d +++ String "." (String " " X)))
      with (String c d +++ ". " +++ X).
    rewrite <- append_assoc_s. apply marked_rstrip. }
  rewrite parse_single_line.
  - unfold parse_line. cbv zeta. rewrite Hstrip.
    assert (E1 : Py.nonempty (D +++ ". " +++ X) = true) by now rewrite ED.
    assert (E2 : Py.startswith "#" (D +++ ". " +++ X) = false).
    { rewrite ED. unfold Py.startswith. cbn [String.append]. now rewrite prefix_cons, Hh. }
    assert (E3 : bullet_match (D +++ ". " +++ X) = false).
    { rewrite ED. cbn [String.append bullet_match].
      destruct (d +++ String "." (String " " X)); [reflexivity|]. now rewrite Hm. }
    assert (E4 : numbered_match (D +++ ". " +++ X) = true).
    { unfold numbered_match. cbn [String.append]. rewrite digits_skip.
      rewrite ED. cbn [String.append]. rewrite Hc. reflexivity. }
    rewrite E1, E2, E3, E4. cbn [negb]. rewrite digits_split.
    cbn [flush_paragraph Py.nonempty app fst]. now rewrite X_stripped.
  - now rewrite ED.
  - rewrite !has_char_append, digits_has_char by reflexivity.
    cbn [has_char]. now rewrite X_line.
  - rewrite contains_skip_prefix by (apply digits_has_char; reflexivity).
    cbn [String.append]. rewrite !contains_cons_other by reflexivity.
    exact X_no_newline_escape.
  - rewrite contains_skip_prefix by (apply digits_has_char; reflexivity).
    cbn [String.append]. rewrite !contains_cons_other by reflexivity.
    exact X_no_tab_escape.
Qed.

End MarkerLines.

(** X17. List, numbered and quote lines. For a text [X] that is not
    empty and free of surrounding white space, line breaks and escape
    sequences: a bullet ([-], [*] or [+]) after [n] spaces, followed by a
    space and [X], is a list item with the formatted [X] and indent [n]; a
    non-empty run of digits [D], a dot, a space and [X] is a numbered item
    with the formatted [X] and number [D]; [>] , a space and [X] is a quote
    with the formatted [X]. *)
Theorem parse_markdown_marker_lines (X : string) :
  Py.strip X = X -> X <> EmptyString -> has_char newline X = false ->
  Py.contains "\n" X = false -> Py.contains "\t" X = false ->
  (forall n, 
     _parse_markdown_enhanced (Py.repeat " " n +++ "- " +++ X) =
       [list_item (_process_markdown_text X) n] /\
     _parse_markdown_enhanced (Py.repeat " " n +++ "* " +++ X) =
       [list_item (_process_markdown_text X) n] /\
     _parse_markdown_enhanced (Py.repeat " " n +++ "+ " +++ X) =
       [list_item (_process_markdown_text X) n]) /\
  (forall D, D <> EmptyString -> all_chars Py.isdigit D = true ->
     _parse_markdown_enhanced (D +++ ". " +++ X) =
       [numbered_list (_process_markdown_text X) D]) /\
  _parse_markdown_enhanced ("> " +++ X) = [quote (_process_markdown_text X)].
Proof.
  intros Hs Hne Hnl Hen Het. split; [|split].
  - intros n. repeat split.
    + apply (bullet_line X Hs Hne Hnl Hen Het n "-"%char). now left.
    + apply (bullet_line X Hs Hne Hnl Hen Het n "*"%char). right. now left.
    + apply (bullet_line X Hs Hne Hnl Hen Het n "+"%char). right. now right.
  - intros D HD Hd. now apply numbered_line.
  - now apply quote_line.
Qed.

Lemma parse_markdown_marker_lines_witness :
  _parse_markdown_enhanced "    * run the **audit**" =
    [list_item "run the <b>audit</b>" 4] /\
  _parse_markdown_enhanced "12. run the **audit**" =
    [numbered_list "run the <b>audit</b>" "12"].
Proof.
  assert (Hne : "run the **audit**" <> EmptyString) by discriminate.
  destruct (parse_markdown_marker_lines "run the **audit**"
              eq_refl Hne eq_refl eq_refl eq_refl) as (Hb & Hn & _).
  split.
  - exact (proj1 (proj2 (Hb 4))).
  - apply (Hn "12"); [discriminate | reflexivity].
Defined.
